(** * saxobank-client: order lifecycle, error classification and login flow

    A shallow embedding of [src/index.ts] (the current client, lines 1-719):
    the JavaScript values the client handles, a small state-and-exception
    monad for the awaited network calls (the state is the log of requests
    sent so far), and the functions [authenticate], [request], [handleError],
    [getPositions], [getOrders], [getBalance], [createOrder], [modifyOrder],
    [getNetPositions], [getClosedPositions], [getExposure] and
    [preCheckOrder] transcribed statement by statement.

    The file has five parts: the values ([JS]), the network ([Net]), the
    client ([Client]), the vocabulary in which the specification speaks
    about it ([Spec]) with a host and some providers to run it against
    ([Scenario]), and the properties. *)

From Stdlib Require Import String Ascii List ZArith Bool Lia.
From Stdlib Require Import Floats.SpecFloat.
Import ListNotations.
Local Open Scope string_scope.
Local Open Scope list_scope.

Set Implicit Arguments.

(* ================================================================== *)
(** ** JavaScript values *)
(* ================================================================== *)

Module JS.

(** A JavaScript number is an IEEE 754 double: a signed zero, an infinity,
    NaN, or a sign, a mantissa and an exponent. *)
Definition number := spec_float.

Definition zero : number := S754_zero false.

(** Property keys: ordinary string keys, and the module-private symbol
    [const INTERNAL = Symbol("internal")]. *)
Inductive key : Type :=
| K (name : string)
| INTERNAL.

(** Values that reach the client: parsed JSON payloads, the frozen entity
    objects it builds, [Date] objects and [Error] objects.  An object is
    the list of its properties, one entry per key; a [Date] is its time
    value. *)
#[warnings="-register-all"]
Inductive value : Type :=
| VUndefined
| VNull
| VBool (b : bool)
| VNum (n : number)
| VStr (s : string)
| VArr (items : list value)
| VObj (props : list (key * value))
| VDate (time : number)
| VError (name message : string).

(** Completion of an evaluation: a result, or a thrown value. *)
Inductive outcome (A : Type) : Type :=
| Ok (a : A)
| Throw (e : value).
Arguments Ok {A} a.
Arguments Throw {A} e.

Definition Error (message : string) : value := VError "Error" message.
Definition TypeError (message : string) : value := VError "TypeError" message.
Definition RangeError (message : string) : value := VError "RangeError" message.
Definition SyntaxError (message : string) : value := VError "SyntaxError" message.

Definition key_eqb (a b : key) : bool :=
  match a, b with
  | K x, K y => String.eqb x y
  | INTERNAL, INTERNAL => true
  | _, _ => false
  end.

(** ToBoolean. *)
Definition truthy (v : value) : bool :=
  match v with
  | VUndefined | VNull => false
  | VBool b => b
  | VNum (S754_zero _) | VNum S754_nan => false
  | VNum _ => true
  | VStr s => negb (String.eqb s "")
  | VArr _ | VObj _ | VDate _ | VError _ _ => true
  end.

(** [a || b] and [a && b] on values. *)
Definition or_else (a b : value) : value := if truthy a then a else b.
Definition and_then (a b : value) : value := if truthy a then b else a.

Definition nullish (v : value) : bool :=
  match v with
  | VUndefined | VNull => true
  | _ => false
  end.

Fixpoint lookup (ps : list (key * value)) (k : key) : value :=
  match ps with
  | [] => VUndefined
  | (k', v) :: rest => if key_eqb k' k then v else lookup rest k
  end.

(** [v\[k\]] for a value [v] that is neither [undefined] nor [null].  The
    client only reads the provider's field names and its own entity field
    names, none of which is a built-in property of a string, number,
    boolean, array, [Date] or [Error]; on those the read gives
    [undefined]. *)
Definition prop (v : value) (k : key) : value :=
  match v with
  | VObj ps => lookup ps k
  | _ => VUndefined
  end.

(** [v.name]: a TypeError on [undefined] and [null]. *)
Definition get (v : value) (name : string) : outcome value :=
  if nullish v
  then Throw (TypeError ("Cannot read properties of " ++
         (match v with VNull => "null" | _ => "undefined" end) ++
         " (reading '" ++ name ++ "')"))
  else Ok (prop v (K name)).

(** [v?.name]. *)
Definition opt (v : value) (name : string) : value :=
  if nullish v then VUndefined else prop v (K name).

(** [a === b].  Numbers compare as doubles ([SFeqb]: NaN differs from
    itself, the two zeros are equal), written in one normal form.  Two
    objects are equal only when they are the same object;
    the comparisons of the client are between values taken from different
    payloads, or between a payload value and a string literal or argument,
    so no two compared objects are ever the same object. *)
Definition strict_eq (a b : value) : bool :=
  match a, b with
  | VUndefined, VUndefined => true
  | VNull, VNull => true
  | VBool x, VBool y => Bool.eqb x y
  | VNum x, VNum y => SFeqb x y
  | VStr x, VStr y => String.eqb x y
  | _, _ => false
  end.

(** [s.includes(search)] on strings. *)
Fixpoint includes (s search : string) : bool :=
  prefix search s ||
  match s with
  | EmptyString => false
  | String _ rest => includes rest search
  end.

(** [list.includes(x)] on an array literal of strings. *)
Definition array_includes (l : list string) (x : string) : bool :=
  existsb (String.eqb x) l.

Definition nl : string := String (ascii_of_nat 10) EmptyString.

(** The parsed form of a URL, as far as the client looks at it. *)
Record URL : Type := mkURL {
  href : string;
  searchParams : list (string * string)
}.

(** Built-ins of the host that the client calls and that are not
    reproduced here.  [Math_random_state] is the value of the expression
    that builds [STATE]; [Date_now] is the clock at the one place per
    operation where it is read. *)
Record Runtime : Type := mkRuntime {
  Number_toString : number -> string;
  Date_toString : number -> string;
  Date_toISOString : number -> string;
  Date_parse : value -> number;
  Date_now : number;
  JSON_stringify : value -> value;
  String_toLowerCase : string -> string;
  URLSearchParams_toString : list (string * string) -> string;
  new_URL : string -> option URL;
  encodeBase64 : string -> string;
  Math_random_state : string
}.

Section WithRuntime.

Variable rt : Runtime.

(** ToString, as applied by template literals. *)
Fixpoint ToString (v : value) : string :=
  match v with
  | VUndefined => "undefined"
  | VNull => "null"
  | VBool true => "true"
  | VBool false => "false"
  | VNum n => Number_toString rt n
  | VStr s => s
  | VArr items =>
      String.concat ","
        (map (fun x => if nullish x then "" else ToString x) items)
  | VObj _ => "[object Object]"
  | VDate t => Date_toString rt t
  | VError name message =>
      if String.eqb message "" then name
      else if String.eqb name "" then message
      else name ++ ": " ++ message
  end.

(** [new Date(v)]. *)
Definition new_Date (v : value) : value := VDate (Date_parse rt v).

(** [d.toISOString()]: a RangeError on an invalid date. *)
Definition toISOString (d : number) : outcome string :=
  match d with
  | S754_nan => Throw (RangeError "Invalid time value")
  | _ => Ok (Date_toISOString rt d)
  end.

(** [v.toLowerCase()]. *)
Definition toLowerCase (v : value) : outcome value :=
  match v with
  | VStr s => Ok (VStr (String_toLowerCase rt s))
  | VUndefined => Throw (TypeError "Cannot read properties of undefined (reading 'toLowerCase')")
  | VNull => Throw (TypeError "Cannot read properties of null (reading 'toLowerCase')")
  | _ => Throw (TypeError "toLowerCase is not a function")
  end.

End WithRuntime.

End JS.

(* ================================================================== *)
(** ** The network, and the monad of awaited calls *)
(* ================================================================== *)

Module Net.
Import JS.

Inductive Body : Type :=
| NoBody
| TextBody (s : string)
| JsonBody (v : value)                        (* body: JSON.stringify(v) *)
| FormBody (fields : list (string * string)). (* a URLSearchParams body *)

(** The arguments of one [fetch] call. *)
Record Request : Type := mkRequest {
  url : string;
  method : string;
  headers : list (string * string);
  body : Body;
  redirect : string
}.

(** What the client reads of a [Response].  Header names are stored in
    lower case, one entry per name; [json] is the completion of
    [response.json()]. *)
Record Response : Type := mkResponse {
  ok : bool;
  status : Z;
  statusText : string;
  resp_headers : list (string * string);
  json : outcome value
}.

(** [response.headers.get(name)]: [null] ([None]) when absent. *)
Fixpoint headers_get (hs : list (string * string)) (name : string) : option string :=
  match hs with
  | [] => None
  | (n, v) :: rest => if String.eqb n name then Some v else headers_get rest name
  end.

(** The provider: given the requests it has received so far, how the next
    [fetch] completes (rejection, or a response). *)
Definition Provider : Type := list Request -> Request -> outcome Response.

(** An awaited computation: reads and extends the log of requests sent. *)
Definition M (A : Type) : Type := list Request -> outcome A * list Request.

Definition ret {A} (a : A) : M A := fun tr => (Ok a, tr).

Definition throw {A} (e : value) : M A := fun tr => (Throw e, tr).

Definition bind {A B} (m : M A) (k : A -> M B) : M B :=
  fun tr =>
    match m tr with
    | (Ok a, tr') => k a tr'
    | (Throw e, tr') => (Throw e, tr')
    end.

(** [try { m } catch (error) { handler }]. *)
Definition try_catch {A} (m : M A) (handler : value -> M A) : M A :=
  fun tr =>
    match m tr with
    | (Ok a, tr') => (Ok a, tr')
    | (Throw e, tr') => handler e tr'
    end.

(** A synchronous step that may throw. *)
Definition lift {A} (o : outcome A) : M A := fun tr => (o, tr).

Definition is_throw {A} (o : outcome A) : bool :=
  match o with
  | Ok _ => false
  | Throw _ => true
  end.

End Net.

Declare Scope await_scope.
Delimit Scope await_scope with await.
Notation "x <- m ;; k" := (Net.bind m (fun x => k))
  (at level 61, m at next level, right associativity) : await_scope.
Notation "m ;;; k" := (Net.bind m (fun _ => k))
  (at level 61, right associativity) : await_scope.
Notation "x <-? o ;; k" :=
  (match o with JS.Ok x => k | JS.Throw e => JS.Throw e end)
  (at level 61, o at next level, right associativity) : await_scope.

(* ================================================================== *)
(** ** The client *)
(* ================================================================== *)

Module Client.
Import JS Net.
Local Open Scope await_scope.
Local Open Scope string_scope.

(** [Required<AppConfig>]: the configuration once [createClient] has filled
    in the simulation endpoints. *)
Record AppConfig : Type := mkAppConfig {
  appKey : string;
  appSecret : string;
  redirectUri : string;
  apiEndpoint : string;
  authEndpoint : string
}.

Record OrderDuration : Type := mkOrderDuration {
  durationType : string;
  expirationDateTime : option string
}.

Record OrderOptions : Type := mkOrderOptions {
  assetType : option string;
  duration : option OrderDuration;
  externalReference : option string;
  manualOrder : option bool;
  isForceOpen : option bool;
  trailingStopDistanceToMarket : option number;
  trailingStopStep : option number
}.

(** [options = {}]. *)
Definition no_options : OrderOptions :=
  mkOrderOptions None None None None None None None.

(** Optional typed arguments as the values the code tests. *)
Definition js_num (o : option number) : value :=
  match o with Some n => VNum n | None => VUndefined end.
Definition js_str (o : option string) : value :=
  match o with Some s => VStr s | None => VUndefined end.
Definition js_bool (o : option bool) : value :=
  match o with Some b => VBool b | None => VUndefined end.
Definition js_duration (o : option OrderDuration) : value :=
  match o with
  | Some d =>
      VObj ((K "durationType", VStr (durationType d)) ::
            match expirationDateTime d with
            | Some e => [(K "expirationDateTime", VStr e)]
            | None => []
            end)
  | None => VUndefined
  end.

(** [...v] inside an object literal.  In the client [v] is either an
    object literal or a falsy primitive, which contributes nothing. *)
Definition spread (v : value) : list (key * value) :=
  match v with
  | VObj ps => ps
  | _ => []
  end.

(** [promise.then(f)] and [promise.catch(f)] for a synchronous [f]. *)
Definition then_ {A B} (m : M A) (f : A -> outcome B) : M B :=
  x <- m ;; lift (f x).
Definition catch_ {A} (m : M A) (f : value -> outcome A) : M A :=
  try_catch m (fun e => lift (f e)).

(** [items.map(f)] where the callback may throw. *)
Fixpoint array_map (f : value -> outcome value) (items : list value)
  : outcome (list value) :=
  match items with
  | [] => Ok []
  | x :: rest =>
      y <-? f x ;;
      ys <-? array_map f rest ;;
      Ok (y :: ys)
  end.

(** [items.find(f)] where the callback may throw: the first element on
    which the callback is true. *)
Fixpoint array_find (f : value -> outcome bool) (items : list value)
  : outcome (option value) :=
  match items with
  | [] => Ok None
  | x :: rest =>
      b <-? f x ;;
      if b then Ok (Some x) else array_find f rest
  end.

(** [result?.Data?.map(f) || \[\]].  A [Data] that is neither nullish nor
    an array has no callable [map]. *)
Definition Data_map (result : value) (f : value -> outcome value)
  : outcome (list value) :=
  match opt result "Data" with
  | VUndefined | VNull => Ok []
  | VArr items => array_map f items
  | _ => Throw (TypeError "result?.Data?.map is not a function")
  end.

(** [handleError]. *)
Definition handleError (rt : Runtime) (response : value) : outcome value :=
  if truthy (opt response "ErrorCode") then
    let code := prop response (K "ErrorCode") in
    let message := prop response (K "Message") in
    Throw (Error ("API request failed with error " ++ ToString rt code ++ ": "
                  ++ ToString rt message ++ nl ++ "    "
                  ++ ToString rt (JSON_stringify rt (prop response (K "ModelState")))
                  ++ nl))
  else if truthy (opt response "ErrorInfo") then
    let code := prop (prop response (K "ErrorInfo")) (K "ErrorCode") in
    let message := prop (prop response (K "ErrorInfo")) (K "Message") in
    Throw (Error ("API request failed with error " ++ ToString rt code ++ ": "
                  ++ ToString rt message))
  else Ok response.

Section Runtime.

Variable rt : Runtime.
Variable provider : Provider.

(** [fetch]: the provider answers, and the request joins the log. *)
Definition fetch (req : Request) : M Response :=
  fun tr => (provider tr req, (tr ++ [req])%list).

(** [searchParams.get(name)]. *)
Definition searchParams_get (u : URL) (name : string) : option string :=
  headers_get (searchParams u) name.

(** [!s] for a string that may be [null]. *)
Definition missing (s : option string) : bool :=
  match s with
  | None => true
  | Some s => String.eqb s ""
  end.

Definition authorize_request (config : AppConfig) : Request :=
  let STATE := Math_random_state rt in
  let params := [("response_type", "code"); ("client_id", appKey config);
                 ("state", STATE); ("redirect_uri", redirectUri config)] in
  let authUrl := authEndpoint config ++ "/authorize?"
                 ++ URLSearchParams_toString rt params in
  mkRequest authUrl "GET" [] NoBody "manual".

Definition login_request (loginUrl username password : string) : Request :=
  mkRequest loginUrl "POST"
    [("Accept", "text/html,application/xhtml+xml,application/xml;q=0.9,*/*;q=0.8");
     ("Content-Type", "application/x-www-form-urlencoded")]
    (TextBody (URLSearchParams_toString rt
       [("PageLoadInfo", "0|0");
        ("LoginSubmitTime", Number_toString rt (Date_now rt));
        ("field_userid", username);
        ("field_password", password);
        ("Platform", "MacIntel");
        ("IsMobile", "0");
        ("Locality", "en-GB");
        ("field_isSrp", "false")]))
    "manual".

(** [authenticate]. *)
Definition authenticate (username password : string) (config : AppConfig)
  : M value :=
  (* Step 1: Generate auth URL and fetch initial login page *)
  initialResponse <- fetch (authorize_request config) ;;
  let loginUrl := headers_get (resp_headers initialResponse) "location" in
  if missing loginUrl
     || negb (includes (match loginUrl with Some l => l | None => "" end)
                       "saxobank.com")
  then throw (Error "Unexpected redirect during authentication")
  else
  let loginUrl := match loginUrl with Some l => l | None => "" end in
  (* Step 2: Submit login credentials *)
  loginResponse <- fetch (login_request loginUrl username password) ;;
  (* Step 3: Handle redirects after login *)
  let postLoginUrl := headers_get (resp_headers loginResponse) "location" in
  if missing postLoginUrl
  then throw (Error "Login failed, no redirect received")
  else
  let postLoginUrl := match postLoginUrl with Some l => l | None => "" end in
  finalResponse <- fetch
    (mkRequest postLoginUrl "GET"
       [("Cookie", match headers_get (resp_headers loginResponse) "set-cookie" with
                   | Some c => c
                   | None => ""
                   end)]
       NoBody "manual") ;;
  match new_URL rt (match headers_get (resp_headers finalResponse) "location" with
                    | Some l => l
                    | None => ""
                    end) with
  | None => throw (TypeError "Invalid URL")
  | Some finalUrl =>
  let authCode := searchParams_get finalUrl "code" in
  if missing authCode
  then throw (Error "Failed to retrieve authorization code")
  else
  let authCode := match authCode with Some c => c | None => "" end in
  (* Step 4: Exchange authorization code for an access token *)
  let credentials := encodeBase64 rt (appKey config ++ ":" ++ appSecret config) in
  tokenResponse <- fetch
    (mkRequest (authEndpoint config ++ "/token") "POST"
       [("Authorization", "Basic " ++ credentials);
        ("Content-Type", "application/x-www-form-urlencoded")]
       (FormBody [("grant_type", "authorization_code");
                  ("code", authCode);
                  ("redirect_uri", redirectUri config)])
       "follow") ;;
  if negb (ok tokenResponse)
  then throw (Error ("Failed to fetch token: " ++ statusText tokenResponse))
  else lift (json tokenResponse)
  end.

Definition api_headers (token : string) : list (string * string) :=
  [("Authorization", "Bearer " ++ token); ("Content-Type", "application/json")].

(** [request], at the defaults [queryParams = {}] and [method = "GET"] that
    every call site uses. *)
Definition request (token endpoint apiEndpoint : string) : M value :=
  match new_URL rt (apiEndpoint ++ endpoint) with
  | None => throw (TypeError "Invalid URL")
  | Some url =>
      response <- fetch (mkRequest (href url) "GET" (api_headers token) NoBody "follow") ;;
      if negb (ok response)
      then throw (Error ("API request failed: " ++ statusText response))
      else lift (json response)
  end.

(** *** The closures of [createClient] *)

Section Closure.

(** [token.access_token], [client_data.ClientId], [client_data.ClientKey]
    and [clientConfig], fixed when the client is created. *)
Variable access_token : string.
Variable client_id : value.
Variable client_key : value.
Variable clientConfig : AppConfig.

(** [lock] hides the [INTERNAL] property from enumeration and freezes the
    object; the properties and their values are unchanged. *)
Definition lock (obj : value) : value := obj.

(** [internal]. *)
Definition internal (obj : value) : value := prop obj INTERNAL.

Definition positions_endpoint (account_key : option string) : string :=
  if truthy (js_str account_key)
  then "/port/v1/positions?ClientKey=" ++ ToString rt client_key
       ++ "&AccountKey=" ++ ToString rt (js_str account_key)
  else "/port/v1/positions/me".

(** The callback of [getPositions]:
    [({ PositionId, PositionBase, PositionView }) => lock({...})]. *)
Definition position_entity (raw : value) : outcome value :=
  PositionId <-? get raw "PositionId" ;;
  let PositionBase := prop raw (K "PositionBase") in
  let PositionView := prop raw (K "PositionView") in
  uic <-? get PositionBase "Uic" ;;
  account_id <-? get PositionBase "AccountId" ;;
  order_id <-? get PositionBase "SourceOrderId" ;;
  status <-? get PositionBase "Status" ;;
  quantity <-? get PositionBase "Amount" ;;
  price <-? get PositionBase "OpenPrice" ;;
  value_ <-? get PositionView "CurrentPrice" ;;
  currency <-? get PositionView "ExposureCurrency" ;;
  Ok (lock (VObj
    [(K "id", PositionId);
     (K "uic", uic);
     (K "client_id", client_id);
     (K "account_id", account_id);
     (K "order_id", order_id);
     (K "status", status);
     (K "quantity", quantity);
     (K "price", price);
     (K "value", value_);
     (K "currency", currency);
     (INTERNAL, VObj [(K "PositionId", PositionId);
                      (K "PositionBase", PositionBase);
                      (K "PositionView", PositionView)])])).

(** [getPositions]. *)
Definition getPositions (account_key : option string) : M (list value) :=
  try_catch
    (result <- then_ (request access_token (positions_endpoint account_key)
                        (apiEndpoint clientConfig))
                     (handleError rt) ;;
     lift (Data_map result position_entity))
    (fun error => ret []).

Definition orders_endpoint (account_key : option string) : string :=
  if truthy (js_str account_key)
  then "/port/v1/orders?ClientKey=" ++ ToString rt client_key
       ++ "&AccountKey=" ++ ToString rt (js_str account_key)
  else "/port/v1/orders/me".

(** The callback of [getOrders]. *)
Definition order_entity (order : value) : outcome value :=
  id <-? get order "OrderId" ;;
  let time := new_Date rt (prop order (K "OrderTime")) in
  let uic := prop order (K "Uic") in
  type <-? toLowerCase rt (prop order (K "BuySell")) ;;
  let OpenOrderType := prop order (K "OpenOrderType") in
  let order_type :=
    if strict_eq OpenOrderType (VStr "Market") then VStr "market"
    else if strict_eq OpenOrderType (VStr "Limit") then VStr "limit"
    else if strict_eq OpenOrderType (VStr "Stop") then VStr "stop"
    else if strict_eq OpenOrderType (VStr "StopLimit") then VStr "stop_limit"
    else OpenOrderType in
  let Status := prop order (K "Status") in
  let status :=
    if strict_eq Status (VStr "Filled") then VStr "filled"
    else if strict_eq Status (VStr "Working") then VStr "working"
    else if strict_eq Status (VStr "Parked") then VStr "parked"
    else Status in
  Ok (lock (VObj
    [(K "id", id);
     (K "time", time);
     (K "uic", uic);
     (K "type", type);
     (K "order_type", order_type);
     (K "status", status);
     (K "price", prop order (K "Price"));
     (K "quantity", prop order (K "Amount"));
     (K "client_id", prop order (K "ClientId"));
     (K "account_id", prop order (K "AccountId"));
     (K "exchange_id", opt (prop order (K "Exchange")) "ExchangeId");
     (K "assetType", prop order (K "AssetType"));
     (INTERNAL, order)])).

(** [getOrders]. *)
Definition getOrders (account_key : option string) : M (list value) :=
  try_catch
    (result <- then_ (request access_token (orders_endpoint account_key)
                        (apiEndpoint clientConfig))
                     (handleError rt) ;;
     lift (Data_map result order_entity))
    (fun error => ret []).

Definition balances_endpoint (account_key : string) : string :=
  "/port/v1/balances?ClientKey=" ++ ToString rt client_key
  ++ "&AccountKey=" ++ account_key.

(** The last [.then] of [getBalance]. *)
Definition balance_entity (response : value) : outcome value :=
  CashBalance <-? get response "CashBalance" ;;
  Ok (lock (VObj
    [(K "cashBalance", or_else CashBalance (VNum zero));
     (K "cashAvailable",
        or_else (prop response (K "CashAvailableForTrading")) (VNum zero));
     (K "totalValue", or_else (prop response (K "TotalValue")) (VNum zero));
     (K "marginUsed",
        or_else (prop response (K "MarginUsedByCurrentPositions")) (VNum zero));
     (K "marginAvailable",
        or_else (prop response (K "MarginAvailableForTrading")) (VNum zero));
     (K "unrealizedPnL",
        or_else (prop response (K "UnrealizedPositionsValue")) (VNum zero));
     (K "currency", prop response (K "Currency"));
     (INTERNAL, response)])).

(** [getBalance]:
    [request(...).catch(handleError).then(handleError).then(...)]. *)
Definition getBalance (account_key : string) : M value :=
  then_
    (then_
       (catch_ (request access_token (balances_endpoint account_key)
                  (apiEndpoint clientConfig))
               (handleError rt))
       (handleError rt))
    balance_entity.

(** The object literal [orderRequest] of [createOrder]. *)
Definition orderRequest (account_key type : string) (uic quantity : number)
    (order_type : string) (price stop_limit : option number)
    (options : OrderOptions) : value :=
  VObj (
    [(K "AccountKey", VStr account_key);
     (K "Uic", VNum uic);
     (K "AssetType", or_else (js_str (assetType options)) (VStr "FxSpot"));
     (K "BuySell", VStr (if String.eqb type "buy" then "Buy" else "Sell"));
     (K "OrderType",
        VStr (if String.eqb order_type "market" then "Market"
              else if String.eqb order_type "limit" then "Limit"
              else if String.eqb order_type "stop" then "Stop"
              else if String.eqb order_type "stop_limit" then "StopLimit"
              else order_type));
     (K "Amount", VNum quantity)]
    ++ spread (and_then (js_num price) (VObj [(K "OrderPrice", js_num price)]))
    ++ spread (and_then (js_num stop_limit)
                 (VObj [(K "StopLimitPrice", js_num stop_limit)]))
    ++ [(K "OrderRelation", VStr "StandAlone");
        (K "ManualOrder",
           match manualOrder options with Some b => VBool b | None => VBool true end)]
    ++ spread (and_then (js_str (externalReference options))
                 (VObj [(K "ExternalReference", js_str (externalReference options))]))
    ++ spread (and_then (js_bool (isForceOpen options))
                 (VObj [(K "IsForceOpen", js_bool (isForceOpen options))]))
    ++ spread (and_then (js_num (trailingStopDistanceToMarket options))
                 (VObj [(K "TrailingStopDistanceToMarket",
                         js_num (trailingStopDistanceToMarket options))]))
    ++ spread (and_then (js_num (trailingStopStep options))
                 (VObj [(K "TrailingStopStep", js_num (trailingStopStep options))]))
    ++ spread (and_then (VBool (negb (String.eqb order_type "market")))
                 (VObj [(K "OrderDuration",
                         or_else (js_duration (duration options))
                           (VObj [(K "DurationType", VStr "GoodTillCancel")]))]))
  )%list.

(** The [fetch] call that submits an order. *)
Definition submit_request (body : value) : Request :=
  mkRequest (apiEndpoint clientConfig ++ "/trade/v2/orders") "POST"
    (api_headers access_token) (JsonBody body) "follow".

Definition order_endpoint (response : value) : string :=
  "/trade/v2/orders/" ++ ToString rt client_key ++ "/"
  ++ ToString rt (prop response (K "OrderId")).

(** The callback of [positions?.find(...)] in [createOrder]. *)
Definition from_order (response : value) (pos : value) : outcome bool :=
  PositionBase <-? get (internal pos) "PositionBase" ;;
  Ok (strict_eq (opt PositionBase "SourceOrderId") (prop response (K "OrderId"))).

(** The order object that [createOrder] builds from its own arguments. *)
Definition fallback_order (account_key type : string) (uic quantity : number)
    (order_type : string) (price : option number) (options : OrderOptions)
    (response : value) : value :=
  VObj
    [(K "id", prop response (K "OrderId"));
     (K "type", VStr type);
     (K "order_type", VStr order_type);
     (K "price", or_else (js_num price) (VNum zero));
     (K "quantity", VNum quantity);
     (K "time", VDate (Date_now rt));
     (K "uic", VNum uic);
     (K "client_id", client_id);
     (K "account_id", VStr account_key);
     (K "exchange_id", VStr "");
     (K "status", VStr "working");
     (K "externalReference", js_str (externalReference options));
     (K "assetType", or_else (js_str (assetType options)) (VStr "FxSpot"))].

(** The end of [createOrder], from the comment "Try to get the full order
    details, or fallback to check positions" on: the [try]/[catch] and the
    fallback [return].  [response] is the parsed answer to the submission.
    The [return] statements inside [try] and [catch] are rendered by an
    optional early result. *)
Definition reconcile (account_key type : string) (uic quantity : number)
    (order_type : string) (price : option number) (options : OrderOptions)
    (response : value) : M value :=
  returned <- try_catch
    (orderDetails <- request access_token (order_endpoint response)
                       (apiEndpoint clientConfig) ;;
     ret (if truthy orderDetails then Some orderDetails else None))
    (fun error =>
       (* Order might have been executed immediately, check positions *)
       positions <- getPositions (Some account_key) ;;
       position <- lift (array_find (from_order response) positions) ;;
       ret (match position with
            | Some position => if truthy position then Some position else None
            | None => None
            end)) ;;
  match returned with
  | Some result => ret result
  | None =>
      (* Fallback: return a basic order object with the information we have *)
      ret (fallback_order account_key type uic quantity order_type price
             options response)
  end.

(** [createOrder].  [order_type = None] is the omitted argument, which
    defaults to ["market"]. *)
Definition createOrder (account_key type : string) (uic quantity : number)
    (order_type : option string) (price stop_limit : option number)
    (options : OrderOptions) : M value :=
  let order_type := match order_type with Some t => t | None => "market" end in
  if String.eqb order_type "stop" && negb (truthy (js_num stop_limit))
  then throw (Error "Stop orders require a stop limit price") else
  if String.eqb order_type "market"
     && truthy (or_else (js_num price) (js_num stop_limit))
  then throw (Error "Market orders cannot have a price or stop limit") else
  if array_includes ["limit"; "stop_limit"] order_type
     && negb (truthy (js_num price))
  then throw (Error "Limit orders require a price") else
  if Bool.eqb (array_includes ["market"; "stop"; "limit"; "stop_limit"] order_type)
       false
  then throw (Error "Invalid order type") else
  response <- then_ (then_ (fetch (submit_request
                               (orderRequest account_key type uic quantity
                                  order_type price stop_limit options)))
                           json)
                    (handleError rt) ;;
  if negb (truthy response) || negb (truthy (prop response (K "OrderId")))
  then throw (Error "Failed to place order: No OrderId returned") else
  reconcile account_key type uic quantity order_type price options response.

(** The object [updateData] of [modifyOrder], after the two conditional
    assignments. *)
Definition updateData (account_key orderId : string) (currentOrder : value)
    (price quantity : option number) : value :=
  let order_type := prop currentOrder (K "order_type") in
  VObj (
    [(K "AccountKey", VStr account_key);
     (K "OrderId", VStr orderId);
     (K "OrderType",
        VStr (if strict_eq order_type (VStr "market") then "Market"
              else if strict_eq order_type (VStr "limit") then "Limit"
              else if strict_eq order_type (VStr "stop") then "Stop"
              else if strict_eq order_type (VStr "stop_limit") then "StopLimit"
              else "Limit"));
     (K "AssetType", prop currentOrder (K "assetType"));
     (K "Uic", prop currentOrder (K "uic"));
     (K "OrderDuration", VObj [(K "DurationType", VStr "GoodTillCancel")])]
    ++ match price with Some p => [(K "OrderPrice", VNum p)] | None => [] end
    ++ match quantity with Some q => [(K "Amount", VNum q)] | None => [] end
  )%list.

Definition modify_request (body : value) : Request :=
  mkRequest (apiEndpoint clientConfig ++ "/trade/v2/orders") "PATCH"
    (api_headers access_token) (JsonBody body) "follow".

(** The callback of [orders?.find(...)] in [modifyOrder]. *)
Definition has_id (orderId : string) (o : value) : outcome bool :=
  id <-? get o "id" ;;
  Ok (strict_eq id (VStr orderId)).

(** [modifyOrder]. *)
Definition modifyOrder (account_key orderId : string)
    (price quantity : option number) : M value :=
  (* First get the current order to determine its type *)
  currentOrder <- try_catch
    (orders <- getOrders (Some account_key) ;;
     currentOrder <- lift (array_find (has_id orderId) orders) ;;
     match currentOrder with
     | Some currentOrder =>
         if negb (truthy currentOrder)
         then throw (Error ("Order " ++ orderId ++ " not found"))
         else ret currentOrder
     | None => throw (Error ("Order " ++ orderId ++ " not found"))
     end)
    (fun error =>
       throw (Error ("Failed to get order details: " ++ ToString rt error))) ;;
  then_ (then_ (fetch (modify_request
                         (updateData account_key orderId currentOrder
                            price quantity)))
               json)
        (handleError rt).

Definition netpositions_endpoint (account_key : option string) : string :=
  if truthy (js_str account_key)
  then "/port/v1/netpositions?ClientKey=" ++ ToString rt client_key
       ++ "&AccountKey=" ++ ToString rt (js_str account_key)
  else "/port/v1/netpositions/me".

(** The callback of [getNetPositions]. *)
Definition net_position_entity (netPos : value) : outcome value :=
  id <-? get netPos "NetPositionId" ;;
  let NetPositionBase := prop netPos (K "NetPositionBase") in
  let NetPositionView := prop netPos (K "NetPositionView") in
  uic <-? get NetPositionBase "Uic" ;;
  value_ <-? get NetPositionView "MarketValue" ;;
  Ok (lock (VObj
    [(K "id", id);
     (K "uic", uic);
     (K "client_id", client_id);
     (K "account_id", prop NetPositionBase (K "AccountId"));
     (K "order_id", VStr "");
     (K "status", prop NetPositionBase (K "Status"));
     (K "quantity", prop NetPositionBase (K "Amount"));
     (K "price", prop NetPositionBase (K "AverageOpenPrice"));
     (K "value", value_);
     (K "currency", prop NetPositionView (K "ExposureCurrency"));
     (K "assetType", prop NetPositionBase (K "AssetType"));
     (INTERNAL, netPos)])).

(** [getNetPositions]. *)
Definition getNetPositions (account_key : option string) : M (list value) :=
  let endpoint := netpositions_endpoint account_key in
  try_catch
    (result <- then_ (request access_token endpoint (apiEndpoint clientConfig))
                     (handleError rt) ;;
     lift (Data_map result net_position_entity))
    (fun error => ret []).

(** The endpoint of [getClosedPositions]; the dates are [Date] objects,
    given by their time values, and [toISOString] is called before the
    [try] block is entered. *)
Definition closedpositions_endpoint (account_key : option string)
    (fromDate toDate : option number) : outcome string :=
  let endpoint :=
    if truthy (js_str account_key)
    then "/port/v1/closedpositions?ClientKey=" ++ ToString rt client_key
         ++ "&AccountKey=" ++ ToString rt (js_str account_key)
    else "/port/v1/closedpositions/me" in
  endpoint <-? match fromDate with
               | Some d => iso <-? toISOString rt d ;;
                           Ok (endpoint ++ "&FromDateTime=" ++ iso)
               | None => Ok endpoint
               end ;;
  match toDate with
  | Some d => iso <-? toISOString rt d ;;
              Ok (endpoint ++ "&ToDateTime=" ++ iso)
  | None => Ok endpoint
  end.

(** The callback of [getClosedPositions]. *)
Definition closed_position_entity (closedPos : value) : outcome value :=
  id <-? get closedPos "ClosedPositionId" ;;
  let PositionBase := prop closedPos (K "PositionBase") in
  let PositionView := prop closedPos (K "PositionView") in
  uic <-? get PositionBase "Uic" ;;
  value_ <-? get PositionView "ProfitLoss" ;;
  Ok (lock (VObj
    [(K "id", id);
     (K "uic", uic);
     (K "client_id", client_id);
     (K "account_id", prop PositionBase (K "AccountId"));
     (K "order_id", prop PositionBase (K "SourceOrderId"));
     (K "status", VStr "closed");
     (K "quantity", prop PositionBase (K "Amount"));
     (K "price", prop PositionBase (K "OpenPrice"));
     (K "value", value_);
     (K "currency", prop PositionView (K "ExposureCurrency"));
     (INTERNAL, closedPos)])).

(** [getClosedPositions]. *)
Definition getClosedPositions (account_key : option string)
    (fromDate toDate : option number) : M (list value) :=
  endpoint <- lift (closedpositions_endpoint account_key fromDate toDate) ;;
  try_catch
    (result <- then_ (request access_token endpoint (apiEndpoint clientConfig))
                     (handleError rt) ;;
     lift (Data_map result closed_position_entity))
    (fun error => ret []).

Definition exposure_endpoint (account_key : option string) : string :=
  if truthy (js_str account_key)
  then "/port/v1/exposure?ClientKey=" ++ ToString rt client_key
       ++ "&AccountKey=" ++ ToString rt (js_str account_key)
  else "/port/v1/exposure/me".

(** [getExposure]. *)
Definition getExposure (account_key : option string) : M value :=
  let endpoint := exposure_endpoint account_key in
  try_catch
    (then_ (request access_token endpoint (apiEndpoint clientConfig))
           (handleError rt))
    (fun error => ret (VObj [])).

Definition precheck_request (body : value) : Request :=
  mkRequest (apiEndpoint clientConfig ++ "/trade/v2/orders/precheck") "POST"
    (api_headers access_token) (JsonBody body) "follow".

(** The transformation of the pre-check response into [PreCheckResult]. *)
Definition precheck_result (response : value) : outcome value :=
  EstimatedCosts <-? get response "EstimatedCosts" ;;
  let costs := or_else EstimatedCosts (prop response (K "Costs")) in
  Ok (VObj (
    (if truthy costs
     then [(K "estimatedCosts",
            VObj [(K "commission", prop costs (K "Commission"));
                  (K "financing", prop costs (K "Financing"));
                  (K "total", or_else (prop costs (K "Total"))
                                      (prop costs (K "TotalCosts")))])]
     else [])
    ++ (if truthy (prop response (K "MarginImpact"))
        then [(K "marginImpact",
               VObj [(K "initialMargin",
                        prop (prop response (K "MarginImpact")) (K "InitialMargin"));
                     (K "maintenanceMargin",
                        prop (prop response (K "MarginImpact")) (K "MaintenanceMargin"));
                     (K "currency",
                        prop (prop response (K "MarginImpact")) (K "Currency"))])]
        else [])
    ++ (if truthy (prop response (K "ErrorInfo"))
        then [(K "errorInfo",
               VObj [(K "errorCode",
                        prop (prop response (K "ErrorInfo")) (K "ErrorCode"));
                     (K "message",
                        prop (prop response (K "ErrorInfo")) (K "Message"))])]
        else [])
    ++ (if truthy (prop response (K "PreCheckResult"))
        then [(K "preCheckResult", prop response (K "PreCheckResult"))]
        else []))%list).

(** [preCheckOrder]. *)
Definition preCheckOrder (orderRequest : value) : M value :=
  response <- then_ (then_ (fetch (precheck_request orderRequest)) json)
                    (handleError rt) ;;
  lift (precheck_result response).

(** *** The account object of [getAccounts] *)

(** The operations that [getAccounts] binds to one account, given the
    provider's [AccountId] and [AccountKey]. *)
Definition account_getPositions (AccountId : string) : M (list value) :=
  getPositions (Some AccountId).
Definition account_getBalance (AccountKey : string) : M value :=
  getBalance AccountKey.
Definition account_getOrders (AccountKey : string) : M (list value) :=
  getOrders (Some AccountKey).
Definition account_buy (AccountKey : string) :=
  createOrder AccountKey "buy".
Definition account_sell (AccountKey : string) :=
  createOrder AccountKey "sell".
Definition account_modifyOrder (AccountKey orderId : string)
    (price quantity : option number) : M value :=
  modifyOrder AccountKey orderId price quantity.

(** *** Cancelling orders, and the list of accounts *)

Definition cancel_order_request (account_key orderId : string) : Request :=
  mkRequest (apiEndpoint clientConfig ++ "/trade/v2/orders/" ++ orderId
             ++ "?AccountKey=" ++ account_key)
    "DELETE" (api_headers access_token) NoBody "follow".

(** [cancelOrder]. *)
Definition cancelOrder (account_key orderId : string) : M value :=
  then_
    (then_ (fetch (cancel_order_request account_key orderId))
       (fun response =>
          if negb (ok response)
          then Throw (Error ("Failed to cancel order: " ++ statusText response))
          else if (status response =? 204)%Z then Ok (VObj [])
          else json response))
    (handleError rt).

Definition cancel_all_request (account_key : string) (uic : number)
    (assetType : string) : Request :=
  mkRequest (apiEndpoint clientConfig ++ "/trade/v2/orders?AccountKey="
             ++ account_key ++ "&AssetType=" ++ assetType
             ++ "&Uic=" ++ Number_toString rt uic)
    "DELETE" (api_headers access_token) NoBody "follow".

(** [cancelAllOrders].  [assetType = None] is the omitted argument, which
    defaults to ["FxSpot"]. *)
Definition cancelAllOrders (account_key : string) (uic : number)
    (assetType : option string) : M value :=
  let assetType := match assetType with Some a => a | None => "FxSpot" end in
  then_
    (then_ (fetch (cancel_all_request account_key uic assetType))
       (fun response =>
          if negb (ok response)
          then Throw (Error ("Failed to cancel orders: " ++ statusText response))
          else if (status response =? 204)%Z then Ok (VObj [])
          else json response))
    (handleError rt).

(** [result?.Data?.map(f)], without a default: [None] is [undefined]. *)
Definition Data_map_opt (result : value) (f : value -> outcome value)
  : outcome (option (list value)) :=
  match opt result "Data" with
  | VUndefined | VNull => Ok None
  | VArr items => items' <-? array_map f items ;; Ok (Some items')
  | _ => Throw (TypeError "result?.Data?.map is not a function")
  end.

(** The callback of [getAccounts], as far as the data of the account goes;
    the operations it binds are [account_getPositions] and its
    neighbours above, [cancelOrder] and [cancelAllOrders]. *)
Definition account_entity (account : value) : outcome value :=
  id <-? get account "AccountId" ;;
  Ok (lock (VObj
    [(K "id", id);
     (K "key", prop account (K "AccountKey"));
     (K "active", prop account (K "Active"));
     (K "currency", prop account (K "Currency"));
     (INTERNAL, account)])).

(** [getAccounts]: [(await request(...).catch(handleError))?.Data?.map(...)]. *)
Definition getAccounts : M (option (list value)) :=
  result <- catch_ (request access_token "/port/v1/accounts/me"
                      (apiEndpoint clientConfig))
                   (handleError rt) ;;
  lift (Data_map_opt result account_entity).

End Closure.

(** *** [createClient] *)

Inductive Credentials : Type :=
| account_credentials (username password : string)
| token_credentials (token : string).

(** An optional string property of the object a caller passes: the key is
    left out, or it is there with the value [undefined] (which the type
    [apiEndpoint?: string] admits), or with a string. *)
Inductive OptionalString : Type :=
| omitted
| passed_undefined
| passed (s : string).

(** The [AppConfig] a caller passes: the endpoints are optional. *)
Record AppConfigInput : Type := mkAppConfigInput {
  in_appKey : string;
  in_appSecret : string;
  in_redirectUri : string;
  in_apiEndpoint : OptionalString;
  in_authEndpoint : OptionalString
}.

(** One endpoint of [{ apiEndpoint: ..., authEndpoint: ..., ...config }]:
    a key of [config] overwrites the default whatever its value is, so only
    a key that is left out keeps the default.  The client reads the
    endpoints inside template literals only, and the record holds them as
    they read there: an endpoint that is [undefined] reads "undefined". *)
Definition spread_over (default : string) (given : OptionalString) : string :=
  match given with
  | omitted => default
  | passed_undefined => "undefined"
  | passed s => s
  end.

(** [clientConfig]: the simulation endpoints, overwritten by the caller's. *)
Definition clientConfig_of (config : AppConfigInput) : AppConfig :=
  {| appKey := in_appKey config;
     appSecret := in_appSecret config;
     redirectUri := in_redirectUri config;
     apiEndpoint := spread_over "https://gateway.saxobank.com/sim/openapi"
                      (in_apiEndpoint config);
     authEndpoint := spread_over "https://sim.logonvalidation.net"
                       (in_authEndpoint config) |}.

(** The client that [createClient] returns: its data properties, and what
    its operations close over (the access token as it is written into the
    [Authorization] header, and the configuration; the client id and key
    are the properties [id] and [key]). *)
Record ClientObject : Type := mkClientObject {
  client_fields : value;
  client_token : string;
  client_config : AppConfig
}.

(** [createClient]. *)
Definition createClient (auth : Credentials) (config : AppConfigInput)
  : M ClientObject :=
  let clientConfig := clientConfig_of config in
  token <- match auth with
           | token_credentials t => ret (VObj [(K "access_token", VStr t)])
           | account_credentials username password =>
               authenticate username password clientConfig
           end ;;
  access_token <- lift (get token "access_token") ;;
  client_data <- then_ (request (ToString rt access_token) "/port/v1/clients/me"
                          (apiEndpoint clientConfig))
                       (handleError rt) ;;
  client_id <- lift (get client_data "ClientId") ;;
  let client_key := prop client_data (K "ClientKey") in
  ret (mkClientObject
         (lock (VObj [(K "id", client_id);
                      (K "key", client_key);
                      (K "name", prop client_data (K "Name"));
                      (INTERNAL, client_data)]))
         (ToString rt access_token) clientConfig).

(** [client.getPositions] and [client.getAccounts] of a created client. *)
Definition client_getPositions (c : ClientObject) (account_key : option string)
  : M (list value) :=
  getPositions (client_token c) (prop (client_fields c) (K "id"))
    (prop (client_fields c) (K "key")) (client_config c) account_key.

Definition client_getAccounts (c : ClientObject) : M (option (list value)) :=
  getAccounts (client_token c) (client_config c).

End Runtime.

End Client.

(* ================================================================== *)
(** ** The earlier client (src/index.ts, lines 720-1075) *)
(* ================================================================== *)

Module Legacy.
Import JS Net Client.
Local Open Scope await_scope.
Local Open Scope string_scope.

Section Closure.

Variable rt : Runtime.
Variable provider : Provider.
Variable access_token : string.
Variable client_id : value.
Variable client_key : value.
Variable clientConfig : AppConfig.

(** The earlier [getPositions]:
    [(await request(...).catch(handleError).then(handleError))?.Data?.map(...)];
    the callback is the one of the current client.  [None] is
    [undefined]. *)
Definition getPositions (account_key : option string)
  : M (option (list value)) :=
  result <- then_ (catch_ (request rt provider access_token
                             (positions_endpoint rt client_key account_key)
                             (apiEndpoint clientConfig))
                          (handleError rt))
                  (handleError rt) ;;
  lift (Data_map_opt result (position_entity client_id)).

(** The object submitted by the earlier [createOrder]. *)
Definition orderRequest (account_key type : string) (uic quantity : number)
    (order_type : string) (price stop_limit : option number) : value :=
  VObj (
    [(K "AccountKey", VStr account_key);
     (K "Uic", VNum uic);
     (K "AssetType", VStr "FxSpot");
     (K "BuySell", VStr (if String.eqb type "buy" then "Buy" else "Sell"));
     (K "OrderType",
        VStr (if String.eqb order_type "market" then "Market"
              else if String.eqb order_type "limit" then "Limit"
              else if String.eqb order_type "stop" then "Stop"
              else if String.eqb order_type "stop_limit" then "StopLimit"
              else order_type));
     (K "Amount", VNum quantity)]
    ++ spread (and_then (js_num price) (VObj [(K "OrderPrice", js_num price)]))
    ++ spread (and_then (js_num stop_limit)
                 (VObj [(K "StopLimitPrice", js_num stop_limit)]))
    ++ [(K "OrderRaltion", VStr "StandAlone");
        (K "ManualOrder", VBool true)]
    ++ spread (and_then (VBool (negb (String.eqb order_type "market")))
                 (VObj [(K "OrderDuration",
                         VObj [(K "DurationType", VStr "GoodTillCancel")])]))
  )%list.

(** The callback of [positions.find(...)] in the earlier [createOrder]:
    [internal(position).PositionBase.SourceOrderId === response.OrderId]. *)
Definition from_order (response : value) (position : value) : outcome bool :=
  PositionBase <-? get (internal position) "PositionBase" ;;
  SourceOrderId <-? get PositionBase "SourceOrderId" ;;
  Ok (strict_eq SourceOrderId (prop response (K "OrderId"))).

(** The earlier [createOrder]; [undefined] results are [VUndefined]. *)
Definition createOrder (account_key type : string) (uic quantity : number)
    (order_type : option string) (price stop_limit : option number) : M value :=
  let order_type := match order_type with Some t => t | None => "market" end in
  if String.eqb order_type "stop" && negb (truthy (js_num stop_limit))
  then throw (Error "Stop orders require a stop limit price") else
  if String.eqb order_type "market"
     && truthy (or_else (js_num price) (js_num stop_limit))
  then throw (Error "Market orders cannot have a price or stop limit") else
  if array_includes ["limit"; "stop_limit"] order_type
     && negb (truthy (js_num price))
  then throw (Error "Limit orders require a price") else
  if Bool.eqb (array_includes ["market"; "stop"; "limit"; "stop_limit"] order_type)
       false
  then throw (Error "Invalid order type") else
  response <- then_ (then_ (fetch provider
                              (submit_request access_token clientConfig
                                 (orderRequest account_key type uic quantity
                                    order_type price stop_limit)))
                           json)
                    (handleError rt) ;;
  if negb (truthy response) then ret response else
  try_catch
    (request rt provider access_token (order_endpoint rt client_key response)
       (apiEndpoint clientConfig))
    (fun _ =>
       positions <- getPositions (Some account_key) ;;
       match positions with
       | None =>
           throw (TypeError "Cannot read properties of undefined (reading 'find')")
       | Some positions =>
           position <- lift (array_find (from_order response) positions) ;;
           ret (match position with Some p => p | None => VUndefined end)
       end).

End Closure.

End Legacy.

(* ================================================================== *)
(** ** Vocabulary of the specification *)
(* ================================================================== *)

Module Spec.
Import JS Net Client.
Local Open Scope string_scope.

(** The errors [createOrder] throws on its arguments, before it submits
    anything: the specification's ValidationError. *)
Definition validation_messages : list string :=
  ["Stop orders require a stop limit price";
   "Market orders cannot have a price or stop limit";
   "Limit orders require a price";
   "Invalid order type"].

Definition ValidationError (e : value) : bool :=
  match e with
  | VError name message =>
      String.eqb name "Error" && existsb (String.eqb message) validation_messages
  | _ => false
  end.

(** A call fails validation without any network request: it throws a
    ValidationError and the log of requests is as it was. *)
Definition rejected_unsent {A} (m : M A) (tr : list Request) : Prop :=
  exists e, m tr = (Throw e, tr) /\ ValidationError e = true.

Definition absent {A} (x : option A) : bool :=
  match x with None => true | Some _ => false end.
Definition present {A} (x : option A) : bool := negb (absent x).

(** The validation table of section 4.2 as it is worded: an argument is
    absent when it was not passed. *)
Definition table_violated (orderType : string) (price stopLimit : option number)
  : bool :=
  (String.eqb orderType "stop" && absent stopLimit)
  || (String.eqb orderType "market" && (present price || present stopLimit))
  || ((String.eqb orderType "limit" || String.eqb orderType "stop_limit")
      && absent price)
  || negb (String.eqb orderType "market" || String.eqb orderType "limit"
           || String.eqb orderType "stop" || String.eqb orderType "stop_limit").

(** An argument as the code tests it: given when it is a number other than
    zero and NaN. *)
Definition given (x : option number) : bool := truthy (js_num x).

(** The same table over [given]. *)
Definition table_violated_as_tested (orderType : string)
    (price stopLimit : option number) : bool :=
  (String.eqb orderType "stop" && negb (given stopLimit))
  || (String.eqb orderType "market" && (given price || given stopLimit))
  || ((String.eqb orderType "limit" || String.eqb orderType "stop_limit")
      && negb (given price))
  || negb (String.eqb orderType "market" || String.eqb orderType "limit"
           || String.eqb orderType "stop" || String.eqb orderType "stop_limit").

(** The order type in force: the argument, or ["market"] when omitted. *)
Definition effective (order_type : option string) : string :=
  match order_type with Some t => t | None => "market" end.

(** A payload carries a field when the field is truthy, which is how the
    client tests [ErrorCode], [ErrorInfo] and [OrderId]. *)
Definition carries (payload : value) (field : string) : bool :=
  truthy (opt payload field).

(** An object has a property of its own under this name. *)
Definition has_key (v : value) (name : string) : bool :=
  match v with
  | VObj ps => existsb (fun p => key_eqb (fst p) (K name)) ps
  | _ => false
  end.

(** The redirect test of [authenticate], as the code makes it: a location
    passes when its text contains "saxobank.com"; the redirect of the
    authorize response is unexpected when it has no [Location] header or
    the location does not pass. *)
Definition targets_login_domain (location : string) : bool :=
  includes location "saxobank.com".

Definition unexpected_redirect (initialResponse : Response) : bool :=
  match headers_get (resp_headers initialResponse) "location" with
  | None => true
  | Some location => negb (targets_login_domain location)
  end.

(** The text after the first "://" of a URL. *)
Fixpoint after_scheme (s : string) : option string :=
  match s with
  | EmptyString => None
  | String _ rest =>
      if prefix "://" s then Some (substring 3 (String.length s - 3) s)
      else after_scheme rest
  end.

(** The text up to the first of "/", "?", "#" and ":". *)
Fixpoint authority (s : string) : string :=
  match s with
  | EmptyString => EmptyString
  | String c rest =>
      if existsb (Ascii.eqb c) ["/"; "?"; "#"; ":"]%char then EmptyString
      else String c (authority rest)
  end.

(** The host that an absolute URL names. *)
Definition host_of (location : string) : option string :=
  option_map authority (after_scheme location).

Definition ends_with (s suffix : string) : bool :=
  (String.length suffix <=? String.length s)%nat
  && String.eqb
       (substring (String.length s - String.length suffix)
          (String.length suffix) s)
       suffix.

(** A location targets the login domain, as the specification words the
    test: it is a URL whose host is saxobank.com or lies under it. *)
Definition on_login_domain (location : string) : bool :=
  match host_of location with
  | Some host => String.eqb host "saxobank.com" || ends_with host ".saxobank.com"
  | None => false
  end.

(** [internal(position).PositionBase.SourceOrderId]: the order that a
    position refers back to. *)
Definition SourceOrderId (position : value) : value :=
  prop (prop (prop position INTERNAL) (K "PositionBase")) (K "SourceOrderId").

(** The field names of the internal Order shape. *)
Definition Order_fields : list string :=
  ["id"; "time"; "uic"; "type"; "order_type"; "status"; "price"; "quantity";
   "client_id"; "account_id"; "exchange_id"].

Definition Order_shaped (v : value) : bool :=
  forallb (has_key v) Order_fields.

(** A new request is sent after [tr]: the log [tr'] is [tr] followed by
    requests that all satisfy [P]. *)
Definition sends (P : Request -> Prop) (tr tr' : list Request) : Prop :=
  exists sent, tr' = (tr ++ sent)%list /\ Forall P sent.

(** Whatever the log it starts from, [m] only sends requests satisfying
    [P]. *)
Definition emits {A} (P : Request -> Prop) (m : M A) : Prop :=
  forall tr, sends P tr (snd (m tr)).

Definition is_GET (req : Request) : Prop := method req = "GET".

Section Provider.

Variable rt : Runtime.
Variable provider : Provider.
Variable access_token : string.
Variable clientConfig : AppConfig.

(** The three kinds of failure of one exchange: the transport rejects, the
    status is not 2xx, or the payload is one the classifier throws on. *)
Definition failed (o : outcome Response) : bool :=
  match o with
  | Throw _ => true
  | Ok r =>
      negb (ok r)
      || match json r with
         | Ok payload => is_throw (handleError rt payload)
         | Throw _ => false
         end
  end.

(** The GET that [request] sends for an endpoint, when the URL parses. *)
Definition api_get (endpoint : string) : option Request :=
  match new_URL rt (apiEndpoint clientConfig ++ endpoint) with
  | Some url => Some (mkRequest (href url) "GET" (api_headers access_token)
                        NoBody "follow")
  | None => None
  end.

(** The exchange for an endpoint, begun after [tr], fails. *)
Definition request_fails (endpoint : string) (tr : list Request) : Prop :=
  exists req, api_get endpoint = Some req /\ failed (provider tr req) = true.

(** The exchange fails in the transport ([fetch] rejects with an [Error]
    object) or by its status. *)
Definition request_breaks (endpoint : string) (tr : list Request) : Prop :=
  exists req, api_get endpoint = Some req
              /\ match provider tr req with
                 | Throw (VError _ _) => True
                 | Throw _ => False
                 | Ok r => ok r = false
                 end.

(** The provider accepts a submission sent after [tr]: it answers with a
    payload that is not an error and that carries an order id. *)
Definition accepted (submission : Request) (tr : list Request) (response : value)
  : Prop :=
  exists r, provider tr submission = Ok r
            /\ json r = Ok response
            /\ handleError rt response = Ok response
            /\ truthy response = true
            /\ carries response "OrderId" = true.

End Provider.

(** A header of a response, or the empty text: [headers.get(name) || ""]. *)
Definition header_or_empty (r : Response) (name : string) : string :=
  match headers_get (resp_headers r) name with
  | Some v => v
  | None => ""
  end.

(** The third and the fourth request of [authenticate]. *)
Definition follow_request (postLoginUrl cookie : string) : Request :=
  mkRequest postLoginUrl "GET" [("Cookie", cookie)] NoBody "manual".

Definition token_request (rt : Runtime) (config : AppConfig) (authCode : string)
  : Request :=
  mkRequest (authEndpoint config ++ "/token") "POST"
    [("Authorization",
      "Basic " ++ encodeBase64 rt (appKey config ++ ":" ++ appSecret config));
     ("Content-Type", "application/x-www-form-urlencoded")]
    (FormBody [("grant_type", "authorization_code");
               ("code", authCode);
               ("redirect_uri", redirectUri config)])
    "follow".

(** A raw position record on which the callback of [getPositions] does not
    throw: the record and its [PositionBase] and [PositionView] are neither
    [null] nor [undefined]. *)
Definition well_formed_position (raw : value) : bool :=
  negb (nullish raw)
  && negb (nullish (prop raw (K "PositionBase")))
  && negb (nullish (prop raw (K "PositionView"))).

(** The keys of an object, in order. *)
Definition keys (v : value) : list key :=
  match v with
  | VObj ps => map fst ps
  | _ => []
  end.

(** The provider's names of the order types and of the order states. *)
Definition provider_order_types : list string :=
  ["Market"; "Limit"; "Stop"; "StopLimit"].
Definition provider_statuses : list string := ["Filled"; "Working"; "Parked"].
Definition order_types : list string := ["market"; "limit"; "stop"; "stop_limit"].

(** A value is one of the strings of a list. *)
Definition one_of (names : list string) (v : value) : bool :=
  existsb (fun n => strict_eq v (VStr n)) names.

(** The numeric fields of a [Balance]. *)
Definition Balance_numbers : list string :=
  ["cashBalance"; "cashAvailable"; "totalValue"; "marginUsed";
   "marginAvailable"; "unrealizedPnL"].

(** The log [tr'] is [tr] followed by at most [n] requests, the first of
    which (if any) satisfies [P] and the others [Q]. *)
Definition sends_first (P Q : Request -> Prop) (n : nat)
    (tr tr' : list Request) : Prop :=
  exists sent,
    tr' = (tr ++ sent)%list
    /\ (length sent <= n)%nat
    /\ match sent with
       | [] => True
       | first :: rest => P first /\ Forall Q rest
       end.

End Spec.

(* ================================================================== *)
(** ** A host and some providers to run the client against *)
(* ================================================================== *)

Module Scenario.
Import JS Net Client.
Local Open Scope string_scope.

Definition lower (c : ascii) : ascii :=
  let n := nat_of_ascii c in
  if (65 <=? n)%nat && (n <=? 90)%nat then ascii_of_nat (n + 32) else c.

Fixpoint lowercase (s : string) : string :=
  match s with
  | EmptyString => EmptyString
  | String c rest => String (lower c) (lowercase rest)
  end.

(** A host in which every string parses as a URL without query, numbers
    and dates print as ["0"], and form fields are joined unescaped.  The
    scenarios below only pass strings where the client formats a value. *)
Definition host : Runtime :=
  {| Number_toString := fun _ => "0";
     Date_toString := fun _ => "0";
     Date_toISOString := fun _ => "1970-01-01T00:00:00.000Z";
     Date_parse := fun _ => zero;
     Date_now := zero;
     JSON_stringify := fun v => if nullish v then v else VStr "{}";
     String_toLowerCase := lowercase;
     URLSearchParams_toString :=
       fun fields => String.concat "&" (map (fun p => fst p ++ "=" ++ snd p) fields);
     new_URL := fun s => Some (mkURL s []);
     encodeBase64 := fun s => s;
     Math_random_state := "4fzyo82mvyr" |}.

Definition config : AppConfig :=
  {| appKey := "key";
     appSecret := "secret";
     redirectUri := "http://localhost/callback";
     apiEndpoint := "https://gateway.saxobank.com/sim/openapi";
     authEndpoint := "https://sim.logonvalidation.net" |}.

Definition answer (status : Z) (text : string) (payload : value)
  : outcome Response :=
  Ok (mkResponse ((200 <=? status)%Z && (status <? 300)%Z) status text []
        (Ok payload)).

Definition redirect_to (location : option string) : outcome Response :=
  Ok (mkResponse false 302 "Found"
        (match location with Some l => [("location", l)] | None => [] end)
        (Throw (SyntaxError "Unexpected end of JSON input"))).

(** A provider that answers every request with HTTP 500. *)
Definition broken : Provider :=
  fun _ _ => answer 500 "Internal Server Error" (VObj []).

Definition raw_position (id source_order : string) : value :=
  VObj [(K "PositionId", VStr id);
        (K "PositionBase",
           VObj [(K "Uic", VNum (S754_finite false 21 0));
                 (K "AccountId", VStr "A1");
                 (K "SourceOrderId", VStr source_order);
                 (K "Status", VStr "Open");
                 (K "Amount", VNum (S754_finite false 100000 0));
                 (K "OpenPrice", VNum (S754_finite false 1 0))]);
        (K "PositionView",
           VObj [(K "CurrentPrice", VNum (S754_finite false 1 0));
                 (K "ExposureCurrency", VStr "EUR")])].

Definition raw_order (id open_order_type : string) : value :=
  VObj [(K "OrderId", VStr id);
        (K "Uic", VNum (S754_finite false 21 0));
        (K "BuySell", VStr "Buy");
        (K "OpenOrderType", VStr open_order_type);
        (K "Status", VStr "Working");
        (K "AssetType", VStr "FxSpot");
        (K "AccountId", VStr "A1")].

(** A provider that accepts every submission as order "77", answers the
    look-up of an order by id as [lookup] says, and lists [positions] and
    [orders]. *)
Definition trading (lookup : outcome Response) (positions orders : value)
  : Provider :=
  fun _ req =>
    if String.eqb (method req) "POST" then
      answer 200 "OK" (VObj [(K "OrderId", VStr "77")])
    else if String.eqb (method req) "PATCH" then
      answer 200 "OK" (VObj [(K "OrderId", VStr "77")])
    else if includes (url req) "/trade/v2/orders/" then lookup
    else if includes (url req) "/port/v1/positions" then answer 200 "OK" positions
    else if includes (url req) "/port/v1/orders" then answer 200 "OK" orders
    else answer 404 "Not Found" (VObj []).

Definition not_found : outcome Response := answer 404 "Not Found" (VObj []).

(** A provider whose authorize endpoint redirects to [location]. *)
Definition login (location : option string) : Provider :=
  fun _ req =>
    if includes (url req) "/authorize?" then redirect_to location
    else redirect_to None.

(** A whole number as a double, written with exponent 0. *)
Definition num (n : positive) : number := S754_finite false n 0.

(** The client of these scenarios: its token, its [ClientId] and
    [ClientKey], and an account key. *)
Definition token : string := "token".
Definition ClientId : value := VStr "C1".
Definition ClientKey : value := VStr "K1".
Definition AccountKey : string := "A1".

(** [account.buy(21, 100000, order_type, price)]. *)
Definition buy (provider : Provider) (order_type : string) (price : option number)
  : M value :=
  Client.account_buy host provider token ClientId ClientKey config AccountKey
    (num 21) (num 100000) (Some order_type) price None no_options.

(** The submission that [buy] sends, and the provider's answer to it. *)
Definition submission (order_type : string) (price : option number) : Request :=
  Client.submit_request token config
    (Client.orderRequest AccountKey "buy" (num 21) (num 100000) order_type price
       None no_options).

Definition order_77 : value := VObj [(K "OrderId", VStr "77")].

Definition get_of (endpoint : string) : Request :=
  mkRequest (apiEndpoint config ++ endpoint) "GET" (api_headers token) NoBody
    "follow".

(** Order "77" was executed at once: it cannot be looked up any more, and
    the second of the two positions of the account comes from it. *)
Definition executed : Provider :=
  trading not_found
    (VObj [(K "Data", VArr [raw_position "P0" "11"; raw_position "P1" "77"])])
    (VObj [(K "Data", VArr [])]).

Definition executed_positions : list value :=
  Eval vm_compute in
    match fst (Client.getPositions host executed token ClientId ClientKey config
                 (Some AccountKey) []) with
    | Ok positions => positions
    | Throw _ => []
    end.

(** Order "77" can neither be looked up nor found among the positions. *)
Definition unconfirmed : Provider :=
  trading not_found (VObj [(K "Data", VArr [raw_position "P0" "11"])])
    (VObj [(K "Data", VArr [])]).

(** Order "77" is still pending: the look-up by id answers with the
    provider's record of it, and the order list holds the same record. *)
Definition pending : Provider :=
  trading (answer 200 "OK" (raw_order "77" "Limit"))
    (VObj [(K "Data", VArr [])])
    (VObj [(K "Data", VArr [raw_order "77" "Limit"])]).

Definition pending_orders : list value :=
  Eval vm_compute in
    match fst (Client.getOrders host pending token ClientKey config
                 (Some AccountKey) []) with
    | Ok orders => orders
    | Throw _ => []
    end.

(** Splitting a text at a separator. *)
Fixpoint split (sep : ascii) (s : string) : list string :=
  match s with
  | EmptyString => [EmptyString]
  | String c rest =>
      if Ascii.eqb c sep then EmptyString :: split sep rest
      else match split sep rest with
           | [] => [String c EmptyString]
           | w :: ws => String c w :: ws
           end
  end.

(** The query of a URL as pairs: what follows the first "?", cut at "&"
    and at the first "=". *)
Definition query_of (s : string) : list (string * string) :=
  match split "?" s with
  | _ :: q :: _ =>
      map (fun p => match split "=" p with
                    | k :: v :: _ => (k, v)
                    | k :: [] => (k, "")
                    | [] => ("", "")
                    end)
          (split "&" q)
  | _ => []
  end.

(** The host of the scenarios, with URLs that keep their query and no URL
    without a scheme. *)
Definition browser : Runtime :=
  {| Number_toString := Number_toString host;
     Date_toString := Date_toString host;
     Date_toISOString := Date_toISOString host;
     Date_parse := Date_parse host;
     Date_now := Date_now host;
     JSON_stringify := JSON_stringify host;
     String_toLowerCase := String_toLowerCase host;
     URLSearchParams_toString := URLSearchParams_toString host;
     new_URL := fun s => if includes s "://" then Some (mkURL s (query_of s))
                         else None;
     encodeBase64 := encodeBase64 host;
     Math_random_state := Math_random_state host |}.

Definition redirect_with (location : string) (cookie : option string)
  : outcome Response :=
  Ok (mkResponse false 302 "Found"
        (("location", location)
         :: match cookie with Some c => [("set-cookie", c)] | None => [] end)
        (Throw (SyntaxError "Unexpected end of JSON input"))).

Definition token_payload : value :=
  VObj [(K "access_token", VStr "token");
        (K "token_type", VStr "Bearer");
        (K "expires_in", VNum (S754_finite false 1200 0))].

(** A single-sign-on provider: authorize redirects to the login page, the
    login redirects on with a session cookie, that page redirects to
    [callback], and the token endpoint answers as [token_answer] says. *)
Definition sso (callback : string) (token_answer : outcome Response) : Provider :=
  fun _ req =>
    if includes (url req) "/authorize?" then
      redirect_with "https://www.saxobank.com/sim/login" None
    else if String.eqb (url req) "https://www.saxobank.com/sim/login" then
      redirect_with "https://www.saxobank.com/sim/continue" (Some "session=1")
    else if String.eqb (url req) "https://www.saxobank.com/sim/continue" then
      redirect_with callback None
    else if includes (url req) "/token" then token_answer
    else if includes (url req) "/port/v1/clients/me" then
      answer 200 "OK" (VObj [(K "ClientId", VStr "C1"); (K "ClientKey", VStr "K1");
                             (K "Name", VStr "Test Client")])
    else answer 404 "Not Found" (VObj []).

(** A provider that refuses every request with a classified error payload
    under the given status. *)
Definition refusing (status : Z) : Provider :=
  fun _ _ =>
    answer status "Bad Request"
      (VObj [(K "ErrorCode", VStr "InvalidRequest"); (K "Message", VStr "bad")]).

(** A provider whose network is down: every [fetch] rejects. *)
Definition offline : Provider :=
  fun _ _ => Throw (TypeError "fetch failed").

(** A provider that knows the client and its accounts. *)
Definition portfolio (accounts : value) : Provider :=
  fun _ req =>
    if includes (url req) "/port/v1/clients/me" then
      answer 200 "OK" (VObj [(K "ClientId", VStr "C1"); (K "ClientKey", VStr "K1");
                             (K "Name", VStr "Test Client")])
    else if includes (url req) "/port/v1/accounts/me" then answer 200 "OK" accounts
    else answer 404 "Not Found" (VObj []).

Definition user_config : AppConfigInput :=
  mkAppConfigInput "key" "secret" "http://localhost/callback" omitted omitted.

(** The same, with the API endpoint passed as [undefined]. *)
Definition undefined_config : AppConfigInput :=
  mkAppConfigInput "key" "secret" "http://localhost/callback" passed_undefined
    omitted.

Definition lookup_77 : Request := get_of "/trade/v2/orders/K1/77".
Definition list_positions : Request :=
  get_of "/port/v1/positions?ClientKey=K1&AccountKey=A1".
Definition list_orders : Request :=
  get_of "/port/v1/orders?ClientKey=K1&AccountKey=A1".

(** The callback that the login page sends the caller back to. *)
Definition callback : string := "http://localhost/callback?code=abc&state=other".

(** The four requests of a login of "user" against [sso callback]. *)
Definition login_requests : list Request :=
  [Client.authorize_request browser config;
   Client.login_request browser "https://www.saxobank.com/sim/login" "user" "pass";
   mkRequest "https://www.saxobank.com/sim/continue" "GET"
     [("Cookie", "session=1")] NoBody "manual";
   mkRequest "https://sim.logonvalidation.net/token" "POST"
     [("Authorization", "Basic key:secret");
      ("Content-Type", "application/x-www-form-urlencoded")]
     (FormBody [("grant_type", "authorization_code"); ("code", "abc");
                ("redirect_uri", "http://localhost/callback")])
     "follow"].

(** The positions of the account are listed, but the second record has
    no [PositionBase]. *)
Definition damaged : Provider :=
  trading not_found
    (VObj [(K "Data", VArr [raw_position "P0" "11";
                            VObj [(K "PositionId", VStr "P1")]])])
    (VObj [(K "Data", VArr [])]).

(** A provider that answers every request with a balance whose
    [TotalValue] is [null]. *)
Definition funded : Provider :=
  fun _ _ =>
    answer 200 "OK"
      (VObj [(K "CashBalance", VNum (num 1000));
             (K "TotalValue", VNull);
             (K "Currency", VStr "EUR")]).

Definition funded_balance : value :=
  Eval vm_compute in
    match fst (Client.getBalance host funded token ClientKey config AccountKey [])
    with
    | Ok balance => balance
    | Throw _ => VUndefined
    end.

(** A provider that answers every request with the costs of an order. *)
Definition costed : Provider :=
  fun _ _ =>
    answer 200 "OK"
      (VObj [(K "EstimatedCosts",
              VObj [(K "Commission", VNum (num 2)); (K "Total", VNum (num 3))]);
             (K "PreCheckResult", VStr "Ok")]).

(** A provider that accepts every submission as order "77" and answers
    everything else with HTTP 500. *)
Definition submission_only : Provider :=
  fun _ req =>
    if String.eqb (method req) "POST" then answer 200 "OK" order_77
    else answer 500 "Internal Server Error" (VObj []).

(** The look-up of order "77" answers 200 with an error payload. *)
Definition error_payload : value :=
  VObj [(K "ErrorCode", VStr "OrderNotFound"); (K "Message", VStr "no such order")].

Definition confused : Provider :=
  trading (answer 200 "OK" error_payload) (VObj [(K "Data", VArr [])])
    (VObj [(K "Data", VArr [])]).

(** The one account of the client. *)
Definition raw_account : value :=
  VObj [(K "AccountId", VStr "A1"); (K "AccountKey", VStr "A1");
        (K "Active", VBool true); (K "Currency", VStr "EUR")].

(** The first order that [getOrders] returns against [pending]. *)
Definition pending_order : value := hd VUndefined pending_orders.

(** A provider that answers every request with 204 and no body. *)
Definition cancelled : Provider :=
  fun _ _ =>
    Ok (mkResponse true 204 "No Content" []
          (Throw (SyntaxError "Unexpected end of JSON input"))).

(** A provider that lists one closed position, which it still reports
    with the status "Open". *)
Definition raw_closed_position : value :=
  VObj [(K "ClosedPositionId", VStr "CP1");
        (K "PositionBase",
           VObj [(K "Uic", VNum (num 21));
                 (K "AccountId", VStr "A1");
                 (K "SourceOrderId", VStr "11");
                 (K "Status", VStr "Open");
                 (K "Amount", VNum (num 100000));
                 (K "OpenPrice", VNum (num 1))]);
        (K "PositionView",
           VObj [(K "ProfitLoss", VNum (num 5));
                 (K "ExposureCurrency", VStr "EUR")])].

Definition closed_book : Provider :=
  fun _ _ => answer 200 "OK" (VObj [(K "Data", VArr [raw_closed_position])]).

(** A provider that answers every submission with an order id and an
    [ErrorInfo] at once. *)
Definition refused_order : value :=
  VObj [(K "OrderId", VStr "77");
        (K "ErrorInfo",
         VObj [(K "ErrorCode", VStr "Rejected");
               (K "Message", VStr "insufficient margin")])].

Definition contradictory : Provider :=
  fun _ _ => answer 200 "OK" refused_order.

(** The account has one pending order, "88", of a type that the client
    does not know. *)
Definition exotic : Provider :=
  trading (answer 200 "OK" (raw_order "88" "TrailingStop"))
    (VObj [(K "Data", VArr [])])
    (VObj [(K "Data", VArr [raw_order "88" "TrailingStop"])]).

(** The PATCH that modifies an order of the account to the price 1, with
    the order type it is sent under. *)
Definition patch_to_price_1 (orderId order_type : string) : Request :=
  mkRequest "https://gateway.saxobank.com/sim/openapi/trade/v2/orders" "PATCH"
    [("Authorization", "Bearer token"); ("Content-Type", "application/json")]
    (JsonBody
       (VObj [(K "AccountKey", VStr "A1");
              (K "OrderId", VStr orderId);
              (K "OrderType", VStr order_type);
              (K "AssetType", VStr "FxSpot");
              (K "Uic", VNum (num 21));
              (K "OrderDuration", VObj [(K "DurationType", VStr "GoodTillCancel")]);
              (K "OrderPrice", VNum (num 1))]))
    "follow".

(** The order that [buy] makes up for a market order that nothing
    confirms. *)
Definition made_up_order : value :=
  VObj [(K "id", VStr "77");
        (K "type", VStr "buy");
        (K "order_type", VStr "market");
        (K "price", VNum zero);
        (K "quantity", VNum (num 100000));
        (K "time", VDate zero);
        (K "uic", VNum (num 21));
        (K "client_id", VStr "C1");
        (K "account_id", VStr "A1");
        (K "exchange_id", VStr "");
        (K "status", VStr "working");
        (K "externalReference", VUndefined);
        (K "assetType", VStr "FxSpot")].

End Scenario.

(* ================================================================== *)
(** ** Properties of the monad and of the request log *)
(* ================================================================== *)

Import JS Net Spec.
Local Open Scope string_scope.
Unset Implicit Arguments.

Lemma sends_refl P tr : sends P tr tr.
Proof. exists []. split; [now rewrite app_nil_r | constructor]. Qed.

Lemma sends_trans P a b c : sends P a b -> sends P b c -> sends P a c.
Proof.
  intros [l1 [-> H1]] [l2 [-> H2]].
  exists (l1 ++ l2)%list. split; [now rewrite app_assoc | now apply Forall_app].
Qed.

Lemma sends_one (P : Request -> Prop) tr req : P req -> sends P tr (tr ++ [req])%list.
Proof. intros H. exists [req]. split; [reflexivity | now constructor]. Qed.

(** A log that received a request is not the log before it. *)
Lemma sends_after_one P tr req tr' :
  sends P (tr ++ [req])%list tr' -> tr' <> tr.
Proof.
  intros [l [-> _]] E. apply (f_equal (@length _)) in E.
  rewrite !length_app in E. simpl in E. lia.
Qed.

Lemma emits_ret {A} P (a : A) : emits P (ret a).
Proof. intros tr. apply sends_refl. Qed.

Lemma emits_throw {A} P e : emits P (@throw A e).
Proof. intros tr. apply sends_refl. Qed.

Lemma emits_lift {A} P (o : outcome A) : emits P (lift o).
Proof. intros tr. apply sends_refl. Qed.

Lemma emits_bind {A B} P (m : M A) (k : A -> M B) :
  emits P m -> (forall a, emits P (k a)) -> emits P (bind m k).
Proof.
  intros Hm Hk tr. unfold bind. specialize (Hm tr).
  destruct (m tr) as [[a|e] tr']; simpl in *; [|exact Hm].
  eapply sends_trans; [exact Hm | apply Hk].
Qed.

Lemma emits_try_catch {A} P (m : M A) h :
  emits P m -> (forall e, emits P (h e)) -> emits P (try_catch m h).
Proof.
  intros Hm Hh tr. unfold try_catch. specialize (Hm tr).
  destruct (m tr) as [[a|e] tr']; simpl in *; [exact Hm|].
  eapply sends_trans; [exact Hm | apply Hh].
Qed.

Lemma emits_then {A B} P (m : M A) (f : A -> outcome B) :
  emits P m -> emits P (Client.then_ m f).
Proof. intros H. apply emits_bind; [exact H | intros; apply emits_lift]. Qed.

Lemma emits_fetch (P : Request -> Prop) provider req :
  P req -> emits P (Client.fetch provider req).
Proof. intros H tr. simpl. now apply sends_one. Qed.

Lemma emits_request rt provider token endpoint api :
  emits is_GET (Client.request rt provider token endpoint api).
Proof.
  unfold Client.request. destruct (new_URL rt _) as [u|]; [|apply emits_throw].
  apply emits_bind; [now apply emits_fetch|].
  intros r. destruct (negb (ok r)); [apply emits_throw | apply emits_lift].
Qed.

(* ================================================================== *)
(** ** Properties of the client *)
(* ================================================================== *)

Section Properties.

Variable rt : Runtime.
Variable provider : Provider.
Variable access_token : string.
Variable client_id : value.
Variable client_key : value.
Variable clientConfig : Client.AppConfig.

#[local] Abbreviation handleError := (Client.handleError rt).
#[local] Abbreviation request := (Client.request rt provider).
#[local] Abbreviation position_entity := (Client.position_entity client_id).
#[local] Abbreviation order_entity := (Client.order_entity rt).
#[local] Abbreviation getPositions :=
  (Client.getPositions rt provider access_token client_id client_key clientConfig).
#[local] Abbreviation getOrders :=
  (Client.getOrders rt provider access_token client_key clientConfig).
#[local] Abbreviation getNetPositions :=
  (Client.getNetPositions rt provider access_token client_id client_key clientConfig).
#[local] Abbreviation getClosedPositions :=
  (Client.getClosedPositions rt provider access_token client_id client_key clientConfig).
#[local] Abbreviation getExposure :=
  (Client.getExposure rt provider access_token client_key clientConfig).
#[local] Abbreviation getBalance :=
  (Client.getBalance rt provider access_token client_key clientConfig).
#[local] Abbreviation preCheckOrder :=
  (Client.preCheckOrder rt provider access_token clientConfig).
#[local] Abbreviation createOrder :=
  (Client.createOrder rt provider access_token client_id client_key clientConfig).
#[local] Abbreviation reconcile :=
  (Client.reconcile rt provider access_token client_id client_key clientConfig).
#[local] Abbreviation modifyOrder :=
  (Client.modifyOrder rt provider access_token client_key clientConfig).
#[local] Abbreviation submit_request := (Client.submit_request access_token clientConfig).
#[local] Abbreviation modify_request := (Client.modify_request access_token clientConfig).
#[local] Abbreviation order_endpoint := (Client.order_endpoint rt client_key).
#[local] Abbreviation fallback_order := (Client.fallback_order rt client_id).
#[local] Abbreviation authenticate := (Client.authenticate rt provider).
#[local] Abbreviation api_get := (Spec.api_get rt access_token clientConfig).
#[local] Abbreviation request_fails :=
  (Spec.request_fails rt provider access_token clientConfig).
#[local] Abbreviation request_breaks :=
  (Spec.request_breaks rt provider access_token clientConfig).
#[local] Abbreviation accepted := (Spec.accepted rt provider).
#[local] Abbreviation failed := (Spec.failed rt).

(** C5.  The classifier goes by two tests on the payload, in this order,
    and both are truthiness tests.  It throws exactly when the payload
    carries (has a truthy) top-level [ErrorCode] or [ErrorInfo].  With a
    truthy [ErrorCode] the thrown value is a plain [Error] whose message
    is the text "API request failed with error <ErrorCode>: <Message>",
    a line break, the JSON text of [ModelState] and a line break;
    otherwise, with a truthy [ErrorInfo], a plain [Error] whose message is
    "API request failed with error <ErrorInfo.ErrorCode>:
    <ErrorInfo.Message>".  Every other payload is returned as it is, and
    nothing else is ever returned.  A non-empty string as [ErrorCode] and
    an object as [ErrorInfo] always throw.  In particular the payload
    [{ErrorCode:"X", Message:"bad", ModelState:m}] throws the [Error]
    that reads "API request failed with error X: bad" followed by the
    JSON text of [m]. *)
Theorem handleError_classifies (response : value) :
  is_throw (handleError response)
  = carries response "ErrorCode" || carries response "ErrorInfo"
  /\ (carries response "ErrorCode" = true ->
      handleError response =
      Throw (VError "Error"
               ("API request failed with error "
                ++ ToString rt (prop response (K "ErrorCode")) ++ ": "
                ++ ToString rt (prop response (K "Message")) ++ nl ++ "    "
                ++ ToString rt (JSON_stringify rt (prop response (K "ModelState")))
                ++ nl)))
  /\ (carries response "ErrorCode" = false ->
      carries response "ErrorInfo" = true ->
      handleError response =
      Throw (VError "Error"
               ("API request failed with error "
                ++ ToString rt (prop (prop response (K "ErrorInfo")) (K "ErrorCode"))
                ++ ": "
                ++ ToString rt (prop (prop response (K "ErrorInfo")) (K "Message")))))
  /\ (carries response "ErrorCode" = false ->
      carries response "ErrorInfo" = false ->
      handleError response = Ok response)
  /\ (forall v, handleError response = Ok v -> v = response)
  /\ (forall code,
        prop response (K "ErrorCode") = VStr code -> code <> "" ->
        is_throw (handleError response) = true)
  /\ (forall info,
        prop response (K "ErrorInfo") = VObj info ->
        is_throw (handleError response) = true)
  /\ (forall m,
      handleError (VObj [(K "ErrorCode", VStr "X"); (K "Message", VStr "bad");
                         (K "ModelState", m)]) =
      Throw (VError "Error"
               ("API request failed with error X: bad" ++ nl ++ "    "
                ++ ToString rt (JSON_stringify rt m) ++ nl))).
Proof.
  assert (P : forall name v, prop response (K name) = v -> truthy v = true ->
                carries response name = true).
  { intros name v Hv Tv. unfold carries, opt.
    destruct (nullish response) eqn:N.
    - destruct response; try discriminate N; simpl in Hv; subst; discriminate Tv.
    - now rewrite Hv. }
  assert (T : is_throw (handleError response)
              = carries response "ErrorCode" || carries response "ErrorInfo").
  { unfold carries, Client.handleError.
    destruct (truthy (opt response "ErrorCode")); [reflexivity|].
    destruct (truthy (opt response "ErrorInfo")); reflexivity. }
  split; [exact T|]. unfold carries in *. unfold Client.handleError at 1 2 3 4.
  split; [intros ->; reflexivity|].
  split; [intros -> ->; reflexivity|].
  split; [intros -> ->; reflexivity|].
  split.
  { destruct (truthy (opt response "ErrorCode")); [discriminate|].
    destruct (truthy (opt response "ErrorInfo")); [discriminate|].
    now intros v [= <-]. }
  split.
  { intros code Hc Hne. rewrite T.
    rewrite (P "ErrorCode" (VStr code) Hc); [reflexivity|].
    simpl. destruct (String.eqb_spec code ""); [congruence | reflexivity]. }
  split.
  { intros info Hi. rewrite T.
    rewrite (P "ErrorInfo" (VObj info) Hi); [apply orb_true_r | reflexivity]. }
  reflexivity.
Qed.

(** *** Validation of the arguments of [createOrder] *)

Lemma truthy_or_else a b : truthy (or_else a b) = truthy a || truthy b.
Proof. unfold or_else. destruct (truthy a) eqn:E; [exact E | reflexivity]. Qed.

(** The four tests of [createOrder], in the order the code makes them. *)
Lemma checks_pass ot price stop_limit :
  table_violated_as_tested ot price stop_limit = false ->
  String.eqb ot "stop" && negb (truthy (Client.js_num stop_limit)) = false
  /\ String.eqb ot "market"
     && truthy (or_else (Client.js_num price) (Client.js_num stop_limit)) = false
  /\ array_includes ["limit"; "stop_limit"] ot
     && negb (truthy (Client.js_num price)) = false
  /\ Bool.eqb (array_includes ["market"; "stop"; "limit"; "stop_limit"] ot) false
     = false.
Proof.
  unfold table_violated_as_tested, given, array_includes. simpl.
  rewrite truthy_or_else.
  destruct (String.eqb ot "stop"), (String.eqb ot "market"),
    (String.eqb ot "limit"), (String.eqb ot "stop_limit"),
    (truthy (Client.js_num price)), (truthy (Client.js_num stop_limit));
    simpl; intros H; try discriminate H; repeat split.
Qed.

Lemma createOrder_rejects account_key type uic quantity order_type price
    stop_limit options tr :
  table_violated_as_tested (effective order_type) price stop_limit = true ->
  exists message,
    In message validation_messages
    /\ createOrder account_key type uic quantity order_type price stop_limit
         options tr = (Throw (Error message), tr).
Proof.
  unfold table_violated_as_tested, given, Client.createOrder. cbv zeta.
  fold (effective order_type). unfold array_includes. cbn [existsb].
  rewrite truthy_or_else.
  destruct (String.eqb (effective order_type) "stop"),
    (String.eqb (effective order_type) "market"),
    (String.eqb (effective order_type) "limit"),
    (String.eqb (effective order_type) "stop_limit"),
    (truthy (Client.js_num price)), (truthy (Client.js_num stop_limit));
    simpl; intros H; try discriminate H;
    eexists; (split; [|reflexivity]); simpl; tauto.
Qed.

(** One exchange of the kind [fetch(...).then(f).then(g)]. *)
Lemma exchange_eq {A B} req (f : Response -> outcome A) (g : A -> outcome B) tr :
  Client.then_ (Client.then_ (Client.fetch provider req) f) g tr =
  ((r <-? provider tr req ;; a <-? f r ;; g a)%await, (tr ++ [req])%list).
Proof.
  unfold Client.then_, bind, Client.fetch, lift.
  destruct (provider tr req) as [r|e]; [|reflexivity].
  destruct (f r); reflexivity.
Qed.

Lemma emits_getPositions account_key : emits is_GET (getPositions account_key).
Proof.
  unfold Client.getPositions. apply emits_try_catch; [|intros; apply emits_ret].
  apply emits_bind; [|intros; apply emits_lift].
  apply emits_then, emits_request.
Qed.

Lemma emits_getOrders account_key : emits is_GET (getOrders account_key).
Proof.
  unfold Client.getOrders. apply emits_try_catch; [|intros; apply emits_ret].
  apply emits_bind; [|intros; apply emits_lift].
  apply emits_then, emits_request.
Qed.

Lemma emits_reconcile account_key type uic quantity order_type price options
    response :
  emits is_GET
    (reconcile account_key type uic quantity order_type price options response).
Proof.
  apply emits_bind.
  - apply emits_try_catch.
    + apply emits_bind; [apply emits_request | intros; apply emits_ret].
    + intros e. apply emits_bind; [apply emits_getPositions|].
      intros ps. apply emits_bind; [apply emits_lift | intros; apply emits_ret].
  - intros [v|]; apply emits_ret.
Qed.

(** Once the arguments pass the tests, the submission is sent, and what
    follows it are look-ups. *)
Lemma createOrder_sends account_key type uic quantity order_type price
    stop_limit options tr :
  table_violated_as_tested (effective order_type) price stop_limit = false ->
  sends is_GET
    (tr ++ [submit_request
              (Client.orderRequest account_key type uic quantity
                 (effective order_type) price stop_limit options)])%list
    (snd (createOrder account_key type uic quantity order_type price stop_limit
            options tr)).
Proof.
  intros H. destruct (checks_pass _ _ _ H) as (c1 & c2 & c3 & c4).
  unfold Client.createOrder. cbv zeta. fold (effective order_type).
  rewrite c1, c2, c3, c4.
  set (body := Client.orderRequest _ _ _ _ _ _ _ _).
  unfold bind at 1. rewrite exchange_eq.
  destruct (_ <-? provider tr (submit_request body) ;; _)%await as [response|e];
    [|apply sends_refl].
  destruct (negb (truthy response) || _); [apply sends_refl|].
  apply emits_reconcile.
Qed.

(** Rejection without a request is decided by the table over [given]. *)
Lemma rejected_iff_violated account_key type uic quantity order_type price
    stop_limit options tr :
  rejected_unsent
    (createOrder account_key type uic quantity order_type price stop_limit options)
    tr
  <-> table_violated_as_tested (effective order_type) price stop_limit = true.
Proof.
  split.
  - intros (e & E & _).
    destruct (table_violated_as_tested (effective order_type) price stop_limit)
      eqn:V; [reflexivity|].
    exfalso. eapply sends_after_one.
    + eapply createOrder_sends, V.
    + rewrite E. reflexivity.
  - intros V.
    destruct (createOrder_rejects account_key type uic quantity order_type
                price stop_limit options tr V) as (message & Hin & E).
    exists (Error message). split; [exact E|].
    simpl in Hin. simpl.
    destruct Hin as [<-|[<-|[<-|[<-|[]]]]]; reflexivity.
Qed.

(** The table as worded and the table as tested differ only on arguments
    that are passed and are zero or NaN. *)
Lemma tables_agree ot price stop_limit :
  given price = present price ->
  given stop_limit = present stop_limit ->
  table_violated_as_tested ot price stop_limit = table_violated ot price stop_limit.
Proof.
  unfold table_violated_as_tested, table_violated, present.
  intros -> ->. now rewrite !negb_involutive.
Qed.

(** C2, as amended.  With an argument counted as given only when it is a
    number other than zero and NaN, [createOrder] throws a ValidationError
    before any request is sent exactly when the combination of order type,
    price and stop limit violates the validation table, and every other
    combination passes.  For the table as it is worded (an argument is
    absent when it is not passed) the same holds on every combination in
    which no passed argument is zero or NaN. *)
Theorem createOrder_validates_as_tested account_key type uic quantity
    order_type price stop_limit options tr :
  (rejected_unsent
     (createOrder account_key type uic quantity order_type price stop_limit options)
     tr
   <-> table_violated_as_tested (effective order_type) price stop_limit = true)
  /\ (given price = present price ->
      given stop_limit = present stop_limit ->
      (rejected_unsent
         (createOrder account_key type uic quantity order_type price stop_limit
            options) tr
       <-> table_violated (effective order_type) price stop_limit = true)).
Proof.
  split.
  - apply rejected_iff_violated.
  - intros Hp Hs. rewrite <- (tables_agree _ _ _ Hp Hs).
    apply rejected_iff_violated.
Qed.

(** *** What the read-list operations return *)

Lemma get_ok v name x : get v name = Ok x -> x = prop v (K name) /\ nullish v = false.
Proof. unfold get. destruct (nullish v); [discriminate|]. now intros [= <-]. Qed.

Ltac invert_gets :=
  repeat match goal with
  | |- context [get ?v ?n] =>
      let E := fresh "E" in
      destruct (get v n) eqn:E; [apply get_ok in E; destruct E as [-> ?] | discriminate]
  end.

Lemma array_map_Forall f items l :
  Client.array_map f items = Ok l ->
  Forall (fun y => exists x, In x items /\ f x = Ok y) l.
Proof.
  revert l. induction items as [|x rest IH]; simpl; intros l.
  - intros [= <-]. constructor.
  - destruct (f x) as [y|] eqn:Ex; [|discriminate].
    destruct (Client.array_map f rest) as [ys|]; [|discriminate].
    intros [= <-]. constructor.
    + exists x. auto.
    + eapply Forall_impl; [|apply IH; reflexivity].
      intros a (x' & Hin & E). exists x'. auto.
Qed.

Lemma Data_map_Forall result f l :
  Client.Data_map result f = Ok l ->
  Forall (fun y => exists x, f x = Ok y) l.
Proof.
  unfold Client.Data_map.
  destruct (opt result "Data"); try discriminate;
    try (intros [= <-]; constructor).
  intros H. apply array_map_Forall in H.
  eapply Forall_impl; [|exact H]. intros a (x & _ & E). eauto.
Qed.

(** [getPositions] never throws, and returns position entities. *)
Lemma getPositions_total account_key tr :
  exists positions tr',
    getPositions account_key tr = (Ok positions, tr')
    /\ Forall (fun p => exists raw, position_entity raw = Ok p) positions.
Proof.
  unfold Client.getPositions, try_catch, bind, lift, ret.
  destruct (Client.then_ _ _ tr) as [[result|e] tr1].
  - destruct (Client.Data_map result position_entity) as [l|e] eqn:E.
    + exists l, tr1. split; [reflexivity|]. eapply Data_map_Forall, E.
    + exists [], tr1. split; [reflexivity | constructor].
  - exists [], tr1. split; [reflexivity | constructor].
Qed.

(** What the scan of [createOrder] tests on a position entity, and what
    tells a position entity from an order. *)
Lemma from_order_entity response raw p :
  position_entity raw = Ok p ->
  Client.from_order response p
  = Ok (strict_eq (SourceOrderId p) (prop response (K "OrderId")))
  /\ prop p (K "order_id") = SourceOrderId p
  /\ has_key p "order_type" = false
  /\ nullish (prop p INTERNAL) = false
  /\ truthy p = true.
Proof.
  unfold Client.position_entity. invert_gets.
  intros [= <-]. unfold Client.from_order, Client.internal, SourceOrderId, get, opt.
  cbn [Client.lock prop lookup key_eqb nullish]. simpl.
  match goal with H : nullish (prop raw (K "PositionBase")) = false |- _ =>
    rewrite H end.
  repeat split.
Qed.

(** [find] with a callback that does not throw on the elements: the first
    element on which it is true. *)
Lemma array_find_first f l :
  Forall (fun x => exists b, f x = Ok b) l ->
  exists r, Client.array_find f l = Ok r
            /\ match r with
               | Some x =>
                   exists before after,
                     l = (before ++ x :: after)%list
                     /\ Forall (fun y => f y = Ok false) before
                     /\ f x = Ok true
               | None => Forall (fun x => f x = Ok false) l
               end.
Proof.
  induction 1 as [|x rest [b Hb] _ IH]; simpl.
  - exists None. split; [reflexivity | constructor].
  - rewrite Hb. destruct b.
    + exists (Some x). split; [reflexivity|]. exists [], rest.
      split; [reflexivity|]. split; [constructor | exact Hb].
    + destruct IH as (r & -> & Hr). exists r. split; [reflexivity|].
      destruct r as [y|].
      * destruct Hr as (before & after & -> & B & Hy).
        exists (x :: before), after. repeat split; auto.
      * now constructor.
Qed.

(** The scan over position entities: the first position whose source
    order is the submitted order, if there is one. *)
Lemma scan_first response positions :
  Forall (fun p => exists raw, position_entity raw = Ok p) positions ->
  exists r, Client.array_find (Client.from_order response) positions = Ok r
            /\ match r with
               | Some p =>
                   exists before after,
                     positions = (before ++ p :: after)%list
                     /\ Forall (fun q => strict_eq (SourceOrderId q)
                                           (prop response (K "OrderId")) = false)
                          before
                     /\ strict_eq (SourceOrderId p) (prop response (K "OrderId"))
                        = true
                     /\ prop p (K "order_id") = SourceOrderId p
                     /\ has_key p "order_type" = false
                     /\ nullish (prop p INTERNAL) = false
                     /\ truthy p = true
               | None =>
                   Forall (fun q => strict_eq (SourceOrderId q)
                                      (prop response (K "OrderId")) = false)
                     positions
               end.
Proof.
  intros H.
  assert (Hf : forall q, In q positions ->
                 Client.from_order response q
                 = Ok (strict_eq (SourceOrderId q) (prop response (K "OrderId")))).
  { intros q Hq. rewrite Forall_forall in H. destruct (H q Hq) as (raw & Hraw).
    exact (proj1 (from_order_entity response _ _ Hraw)). }
  destruct (array_find_first (Client.from_order response) positions)
    as (r & E & Hr).
  - rewrite Forall_forall. intros q Hq. rewrite (Hf q Hq). eauto.
  - exists r. split; [exact E|]. destruct r as [p|].
    + destruct Hr as (before & after & L & B & Hp).
      assert (Hin : In p positions) by (rewrite L; apply in_elt).
      rewrite (Hf p Hin) in Hp. injection Hp as Hp.
      rewrite Forall_forall in H. destruct (H p Hin) as (raw & Hraw).
      destruct (from_order_entity response _ _ Hraw) as (_ & O & Kk & N & T).
      exists before, after. repeat split; auto.
      rewrite Forall_forall in *. intros q Hq.
      assert (Hq' : In q positions) by (rewrite L; apply in_or_app; auto).
      specialize (B q Hq). rewrite (Hf q Hq') in B. now injection B.
    + rewrite Forall_forall in *. intros q Hq.
      specialize (Hr q Hq). rewrite (Hf q Hq) in Hr. now injection Hr.
Qed.

(** *** Reconciliation after a submission *)

Lemma truthy_not_nullish v : truthy v = true -> nullish v = false.
Proof. destruct v; simpl; congruence. Qed.

(** An accepted submission leads to the reconciliation, on the log that
    holds the submission. *)
Lemma createOrder_accepted account_key type uic quantity order_type price
    stop_limit options tr response :
  table_violated_as_tested (effective order_type) price stop_limit = false ->
  accepted (submit_request
              (Client.orderRequest account_key type uic quantity
                 (effective order_type) price stop_limit options)) tr response ->
  createOrder account_key type uic quantity order_type price stop_limit options tr =
  reconcile account_key type uic quantity (effective order_type) price options
    response
    (tr ++ [submit_request
              (Client.orderRequest account_key type uic quantity
                 (effective order_type) price stop_limit options)])%list.
Proof.
  intros H (r & F & J & HE & T & C).
  destruct (checks_pass _ _ _ H) as (c1 & c2 & c3 & c4).
  unfold Client.createOrder. cbv zeta. fold (effective order_type).
  rewrite c1, c2, c3, c4.
  unfold bind at 1. rewrite exchange_eq, F, J, HE.
  unfold carries, opt in C. rewrite (truthy_not_nullish _ T) in C.
  rewrite T, C. reflexivity.
Qed.

Lemma reconcile_details account_key type uic quantity order_type price options
    response tr1 d tr2 :
  request access_token (order_endpoint response)
    (Client.apiEndpoint clientConfig) tr1 = (Ok d, tr2) ->
  reconcile account_key type uic quantity order_type price options response tr1 =
  (Ok (if truthy d then d
       else fallback_order account_key type uic quantity order_type price
              options response), tr2).
Proof.
  intros R. unfold Client.reconcile, bind, try_catch, ret. rewrite R.
  destruct (truthy d); reflexivity.
Qed.

Lemma reconcile_scan account_key type uic quantity order_type price options
    response tr1 e tr2 positions tr3 found :
  request access_token (order_endpoint response)
    (Client.apiEndpoint clientConfig) tr1 = (Throw e, tr2) ->
  getPositions (Some account_key) tr2 = (Ok positions, tr3) ->
  Client.array_find (Client.from_order response) positions = Ok found ->
  reconcile account_key type uic quantity order_type price options response tr1 =
  (Ok match found with
      | Some p =>
          if truthy p then p
          else fallback_order account_key type uic quantity order_type price
                 options response
      | None => fallback_order account_key type uic quantity order_type price
                  options response
      end, tr3).
Proof.
  intros R P F. unfold Client.reconcile, bind, try_catch, ret, lift.
  rewrite R, P, F. destruct found as [p|]; [destruct (truthy p)|]; reflexivity.
Qed.

(** C1.  When the submission is accepted with an order id, the look-up of
    the order by its id fails, and the positions of the account hold one
    whose [internal(position).PositionBase.SourceOrderId] is strictly
    equal to the submitted order id, then [createOrder] returns the first
    position of that list whose [SourceOrderId] is the order id (no
    position before it in the list has it).  What is returned is a
    position and not an order made up from the arguments: its [order_id]
    is that [SourceOrderId], it has no [order_type], and it keeps the raw
    record under [INTERNAL]. *)
Theorem createOrder_returns_the_position account_key type uic quantity
    order_type price stop_limit options tr response e tr2 positions tr3 :
  table_violated_as_tested (effective order_type) price stop_limit = false ->
  accepted (submit_request
              (Client.orderRequest account_key type uic quantity
                 (effective order_type) price stop_limit options)) tr response ->
  request access_token (order_endpoint response) (Client.apiEndpoint clientConfig)
    (tr ++ [submit_request
              (Client.orderRequest account_key type uic quantity
                 (effective order_type) price stop_limit options)])%list
  = (Throw e, tr2) ->
  getPositions (Some account_key) tr2 = (Ok positions, tr3) ->
  (exists p, In p positions
             /\ strict_eq (SourceOrderId p) (prop response (K "OrderId")) = true) ->
  exists before position after,
    createOrder account_key type uic quantity order_type price stop_limit options tr
    = (Ok position, tr3)
    /\ positions = (before ++ position :: after)%list
    /\ strict_eq (SourceOrderId position) (prop response (K "OrderId")) = true
    /\ Forall (fun p => strict_eq (SourceOrderId p) (prop response (K "OrderId"))
                        = false) before
    /\ prop position (K "order_id") = SourceOrderId position
    /\ has_key position "order_type" = false
    /\ nullish (prop position INTERNAL) = false.
Proof.
  intros V A R P (p0 & Hin0 & Hp0).
  destruct (getPositions_total (Some account_key) tr2) as (ps & tr' & P' & Hall).
  rewrite P in P'. injection P' as <- <-.
  destruct (scan_first response _ Hall) as (found & F & Hfound).
  destruct found as [p|].
  - destruct Hfound as (before & after & L & B & S & O & Kk & N & T).
    exists before, p, after.
    rewrite (createOrder_accepted _ _ _ _ _ _ _ _ _ _ V A).
    erewrite reconcile_scan by eassumption. cbv iota beta. rewrite T.
    repeat split; auto.
  - exfalso. rewrite Forall_forall in Hfound.
    specialize (Hfound p0 Hin0). congruence.
Qed.

(** C3.  Once the submission is accepted (its answer passes the error
    classifier and carries a truthy order id), [createOrder] returns and
    does not throw.  Its result is the order details when the look-up by
    id gave a non-empty payload; else a position whose [SourceOrderId] is
    the submitted order id when the look-up failed and the positions hold
    one; and when neither resolved the order (the look-up gave an empty
    payload, or it failed and no position has the order id) the result is
    the order made up from what the call knows: the order id of the
    answer, the [type], order type, quantity, [uic] and account key of the
    call, its price (0 when none or 0 was passed), the client's id, the
    current time, the empty [exchange_id], the external reference and the
    asset type of the options ("FxSpot" by default), and the status
    "working". *)
Theorem createOrder_does_not_fail_once_accepted account_key type uic quantity
    order_type price stop_limit options tr response :
  table_violated_as_tested (effective order_type) price stop_limit = false ->
  accepted (submit_request
              (Client.orderRequest account_key type uic quantity
                 (effective order_type) price stop_limit options)) tr response ->
  exists result tr',
    createOrder account_key type uic quantity order_type price stop_limit options tr
    = (Ok result, tr')
    /\ ((request access_token (order_endpoint response)
           (Client.apiEndpoint clientConfig)
           (tr ++ [submit_request
                     (Client.orderRequest account_key type uic quantity
                        (effective order_type) price stop_limit options)])%list
         = (Ok result, tr')
         /\ truthy result = true)
        \/ (exists e tr2 positions,
              request access_token (order_endpoint response)
                (Client.apiEndpoint clientConfig)
                (tr ++ [submit_request
                          (Client.orderRequest account_key type uic quantity
                             (effective order_type) price stop_limit options)])%list
              = (Throw e, tr2)
              /\ getPositions (Some account_key) tr2 = (Ok positions, tr')
              /\ In result positions
              /\ strict_eq (SourceOrderId result) (prop response (K "OrderId"))
                 = true)
        \/ (result
            = VObj [(K "id", prop response (K "OrderId"));
                    (K "type", VStr type);
                    (K "order_type", VStr (effective order_type));
                    (K "price", match price with
                                | Some p => if truthy (VNum p) then VNum p
                                            else VNum zero
                                | None => VNum zero
                                end);
                    (K "quantity", VNum quantity);
                    (K "time", VDate (Date_now rt));
                    (K "uic", VNum uic);
                    (K "client_id", client_id);
                    (K "account_id", VStr account_key);
                    (K "exchange_id", VStr "");
                    (K "status", VStr "working");
                    (K "externalReference",
                     match Client.externalReference options with
                     | Some reference => VStr reference
                     | None => VUndefined
                     end);
                    (K "assetType",
                     match Client.assetType options with
                     | Some a => if String.eqb a "" then VStr "FxSpot" else VStr a
                     | None => VStr "FxSpot"
                     end)]
            /\ ((exists d,
                   request access_token (order_endpoint response)
                     (Client.apiEndpoint clientConfig)
                     (tr ++ [submit_request
                               (Client.orderRequest account_key type uic quantity
                                  (effective order_type) price stop_limit
                                  options)])%list
                   = (Ok d, tr')
                   /\ truthy d = false)
                \/ (exists e tr2 positions,
                      request access_token (order_endpoint response)
                        (Client.apiEndpoint clientConfig)
                        (tr ++ [submit_request
                                  (Client.orderRequest account_key type uic
                                     quantity (effective order_type) price
                                     stop_limit options)])%list
                      = (Throw e, tr2)
                      /\ getPositions (Some account_key) tr2 = (Ok positions, tr')
                      /\ Forall (fun p => strict_eq (SourceOrderId p)
                                            (prop response (K "OrderId")) = false)
                           positions)))).
Proof.
  intros V A.
  assert (Hfb : Client.fallback_order rt client_id account_key type uic quantity
                  (effective order_type) price options response
                = VObj [(K "id", prop response (K "OrderId"));
                    (K "type", VStr type);
                    (K "order_type", VStr (effective order_type));
                    (K "price", match price with
                                | Some p => if truthy (VNum p) then VNum p
                                            else VNum zero
                                | None => VNum zero
                                end);
                    (K "quantity", VNum quantity);
                    (K "time", VDate (Date_now rt));
                    (K "uic", VNum uic);
                    (K "client_id", client_id);
                    (K "account_id", VStr account_key);
                    (K "exchange_id", VStr "");
                    (K "status", VStr "working");
                    (K "externalReference",
                     match Client.externalReference options with
                     | Some reference => VStr reference
                     | None => VUndefined
                     end);
                    (K "assetType",
                     match Client.assetType options with
                     | Some a => if String.eqb a "" then VStr "FxSpot" else VStr a
                     | None => VStr "FxSpot"
                     end)]).
  { unfold Client.fallback_order, or_else, Client.js_num, Client.js_str.
    destruct price as [p|], (Client.externalReference options),
      (Client.assetType options) as [a|]; simpl;
      try destruct (String.eqb a ""); reflexivity. }
  rewrite (createOrder_accepted _ _ _ _ _ _ _ _ _ _ V A).
  set (tr1 := (tr ++ [_])%list).
  destruct (request access_token (order_endpoint response)
              (Client.apiEndpoint clientConfig) tr1) as [[d|e] tr2] eqn:R.
  - erewrite reconcile_details by eassumption.
    destruct (truthy d) eqn:T.
    + exists d, tr2. split; [reflexivity|]. left. auto.
    + eexists _, tr2. split; [reflexivity|]. right. right.
      split; [exact Hfb|]. left. exists d. auto.
  - destruct (getPositions_total (Some account_key) tr2) as (ps & tr3 & P & Hall).
    destruct (scan_first response _ Hall) as (found & F & Hfound).
    erewrite reconcile_scan by eassumption.
    destruct found as [p|].
    + destruct Hfound as (before & after & L & B & S & O & Kk & N & T).
      rewrite T.
      exists p, tr3. split; [reflexivity|]. right. left.
      exists e, tr2, ps. repeat split; auto. rewrite L. apply in_elt.
    + eexists _, tr3. split; [reflexivity|]. right. right.
      split; [exact Hfb|]. right. exists e, tr2, ps. auto.
Qed.

(** X1.  When the look-up by id succeeds with a non-empty payload,
    [createOrder] returns that payload itself, as the provider sent it. *)
Lemma createOrder_returns_raw_details account_key type uic quantity
    order_type price stop_limit options tr response d tr2 :
  table_violated_as_tested (effective order_type) price stop_limit = false ->
  accepted (submit_request
              (Client.orderRequest account_key type uic quantity
                 (effective order_type) price stop_limit options)) tr response ->
  request access_token (order_endpoint response) (Client.apiEndpoint clientConfig)
    (tr ++ [submit_request
              (Client.orderRequest account_key type uic quantity
                 (effective order_type) price stop_limit options)])%list
  = (Ok d, tr2) ->
  truthy d = true ->
  createOrder account_key type uic quantity order_type price stop_limit options tr
  = (Ok d, tr2).
Proof.
  intros V A R T. rewrite (createOrder_accepted _ _ _ _ _ _ _ _ _ _ V A).
  erewrite reconcile_details by eassumption. rewrite T. reflexivity.
Qed.

(** *** Zero prices *)

Lemma has_key_app ps qs name :
  has_key (VObj (ps ++ qs)%list) name = has_key (VObj ps) name || has_key (VObj qs) name.
Proof. simpl. apply existsb_app. Qed.

Lemma has_key_spread c k v name :
  has_key (VObj (Client.spread (and_then c (VObj [(K k, v)])))) name
  = truthy c && String.eqb k name.
Proof.
  unfold and_then. destruct (truthy c) eqn:T; simpl.
  - now rewrite orb_false_r.
  - destruct c; simpl in *; try discriminate; reflexivity.
Qed.

(** The submitted object holds [OrderPrice] and [StopLimitPrice] only for a
    price and a stop limit that are given. *)
Lemma orderRequest_prices account_key type uic quantity order_type price
    stop_limit options :
  has_key (Client.orderRequest account_key type uic quantity order_type price
             stop_limit options) "OrderPrice" = given price
  /\ has_key (Client.orderRequest account_key type uic quantity order_type price
                stop_limit options) "StopLimitPrice" = given stop_limit.
Proof.
  unfold Client.orderRequest, given.
  repeat rewrite has_key_app. repeat rewrite has_key_spread.
  simpl. repeat rewrite ?andb_false_r, ?andb_true_r, ?orb_false_r.
  split; reflexivity.
Qed.

(** C10.  The argument tests are truthiness tests, so a price or stop
    limit of zero (of either sign) counts as absent: a limit or stop_limit
    order with price 0 throws "Limit orders require a price" whatever the
    stop limit; a stop order with stop limit 0 throws "Stop orders require
    a stop limit price" whatever the price; and a market order whose price
    and stop limit are each omitted or 0 is not rejected: its submission is
    sent, without [OrderPrice] and without [StopLimitPrice].  No request is
    sent when the error is thrown. *)
Theorem zero_counts_as_absent account_key type uic quantity options tr
    (s : bool) (other : option number) (p q : option bool) :
  createOrder account_key type uic quantity (Some "limit") (Some (S754_zero s))
    other options tr
  = (Throw (Error "Limit orders require a price"), tr)
  /\ createOrder account_key type uic quantity (Some "stop_limit")
       (Some (S754_zero s)) other options tr
     = (Throw (Error "Limit orders require a price"), tr)
  /\ createOrder account_key type uic quantity (Some "stop") other
       (Some (S754_zero s)) options tr
     = (Throw (Error "Stop orders require a stop limit price"), tr)
  /\ (~ rejected_unsent
          (createOrder account_key type uic quantity (Some "market")
             (option_map S754_zero p) (option_map S754_zero q) options) tr)
  /\ sends is_GET
       (tr ++ [submit_request
                 (Client.orderRequest account_key type uic quantity "market"
                    (option_map S754_zero p) (option_map S754_zero q) options)])%list
       (snd (createOrder account_key type uic quantity (Some "market")
               (option_map S754_zero p) (option_map S754_zero q) options tr))
  /\ has_key (Client.orderRequest account_key type uic quantity "market"
                (option_map S754_zero p) (option_map S754_zero q) options)
       "OrderPrice" = false
  /\ has_key (Client.orderRequest account_key type uic quantity "market"
                (option_map S754_zero p) (option_map S754_zero q) options)
       "StopLimitPrice" = false.
Proof.
  assert (V : table_violated_as_tested (effective (Some "market"))
                (option_map S754_zero p) (option_map S754_zero q) = false)
    by (destruct p, q; reflexivity).
  split; [|split; [|split; [|split; [|split]]]].
  - destruct other as [[| | |]|]; reflexivity.
  - destruct other as [[| | |]|]; reflexivity.
  - reflexivity.
  - intros R. apply rejected_iff_violated in R. congruence.
  - apply (createOrder_sends _ _ _ _ (Some "market") _ _ _ _ V).
  - destruct (orderRequest_prices account_key type uic quantity "market"
                (option_map S754_zero p) (option_map S754_zero q) options)
      as [-> ->].
    destruct p, q; split; reflexivity.
Qed.

(** *** Lenient reads *)

(** A failed exchange makes [request(...).then(handleError)] throw. *)
Lemma request_fails_throws endpoint tr :
  request_fails endpoint tr ->
  exists e tr',
    Client.then_ (request access_token endpoint (Client.apiEndpoint clientConfig))
      handleError tr = (Throw e, tr').
Proof.
  intros (req & G & F). unfold Spec.api_get in G.
  unfold Client.then_, Client.request, bind.
  destruct (new_URL rt _) as [u|]; [|discriminate]. injection G as <-.
  unfold Client.fetch, Spec.failed in *.
  destruct (provider tr _) as [r|e]; [|eauto].
  destruct (ok r); simpl in *; [|unfold throw; eauto].
  unfold lift. destruct (json r) as [payload|e]; [|eauto].
  destruct (handleError payload); [discriminate | eauto].
Qed.

(** The shape shared by the read-list operations. *)
Lemma lenient_read {A B} (m : M A) (k : A -> M B) (empty : B) tr e tr' :
  m tr = (Throw e, tr') ->
  try_catch (bind m k) (fun _ => ret empty) tr = (Ok empty, tr').
Proof. intros H. unfold try_catch, bind. rewrite H. reflexivity. Qed.

(** C6.  When the exchange of a read-list operation fails (the transport
    rejects, the status is not 2xx, or the payload is a classified provider
    error), the operation does not throw: [getPositions], [getOrders],
    [getNetPositions] and [getClosedPositions] return the empty list and
    [getExposure] returns the empty object. *)
Theorem read_lists_swallow_failures account_key fromDate toDate tr :
  (request_fails (Client.positions_endpoint rt client_key account_key) tr ->
   fst (getPositions account_key tr) = Ok [])
  /\ (request_fails (Client.orders_endpoint rt client_key account_key) tr ->
      fst (getOrders account_key tr) = Ok [])
  /\ (request_fails (Client.netpositions_endpoint rt client_key account_key) tr ->
      fst (getNetPositions account_key tr) = Ok [])
  /\ (forall endpoint,
      Client.closedpositions_endpoint rt client_key account_key fromDate toDate
      = Ok endpoint ->
      request_fails endpoint tr ->
      fst (getClosedPositions account_key fromDate toDate tr) = Ok [])
  /\ (request_fails (Client.exposure_endpoint rt client_key account_key) tr ->
      fst (getExposure account_key tr) = Ok (VObj [])).
Proof.
  repeat split.
  - intros F. destruct (request_fails_throws _ _ F) as (e & tr' & E).
    unfold Client.getPositions. erewrite lenient_read by exact E. reflexivity.
  - intros F. destruct (request_fails_throws _ _ F) as (e & tr' & E).
    unfold Client.getOrders. erewrite lenient_read by exact E. reflexivity.
  - intros F. destruct (request_fails_throws _ _ F) as (e & tr' & E).
    unfold Client.getNetPositions. cbv zeta.
    erewrite lenient_read by exact E. reflexivity.
  - intros endpoint Hep F. destruct (request_fails_throws _ _ F) as (e & tr' & E).
    unfold Client.getClosedPositions. unfold bind at 1, lift. rewrite Hep.
    erewrite lenient_read by exact E. reflexivity.
  - intros F. destruct (request_fails_throws _ _ F) as (e & tr' & E).
    unfold Client.getExposure. cbv zeta. unfold try_catch. rewrite E. reflexivity.
Qed.

(** *** Strict reads *)

(** The default balance that [getBalance] builds from a value without any
    of the balance fields. *)
Lemma balance_of_error name message :
  Client.balance_entity (VError name message) =
  Ok (VObj [(K "cashBalance", VNum zero);
            (K "cashAvailable", VNum zero);
            (K "totalValue", VNum zero);
            (K "marginUsed", VNum zero);
            (K "marginAvailable", VNum zero);
            (K "unrealizedPnL", VNum zero);
            (K "currency", VUndefined);
            (INTERNAL, VError name message)]).
Proof. reflexivity. Qed.

(** [handleError] returns an [Error] object as it is, so
    [.catch(handleError)] turns a rejection into a result. *)
Lemma handleError_of_error name message :
  handleError (VError name message) = Ok (VError name message).
Proof. reflexivity. Qed.

(** X2.  When the exchange of [getBalance] fails in the transport or by its
    status, [getBalance] does not throw. *)
Lemma getBalance_swallows account_key tr :
  request_breaks (Client.balances_endpoint rt client_key account_key) tr ->
  exists balance tr',
    getBalance account_key tr = (Ok balance, tr')
    /\ prop balance (K "cashBalance") = VNum zero
    /\ prop balance (K "cashAvailable") = VNum zero
    /\ prop balance (K "currency") = VUndefined.
Proof.
  intros (req & G & F). unfold Spec.api_get in G.
  unfold Client.getBalance, Client.then_, Client.catch_, Client.request,
    bind, try_catch, lift.
  destruct (new_URL rt _) as [u|]; [|discriminate]. injection G as <-.
  unfold Client.fetch, throw.
  destruct (provider tr _) as [r|e].
  - rewrite F. simpl. eexists _, _. split; [reflexivity|]. repeat split.
  - destruct e; try contradiction.
    simpl. eexists _, _. split; [reflexivity|]. repeat split.
Qed.

(** X3.  A classified provider error does propagate from [getBalance] and
    from [preCheckOrder]. *)
Lemma classified_errors_propagate account_key orderRequest tr :
  (forall req r payload e,
     api_get (Client.balances_endpoint rt client_key account_key) = Some req ->
     provider tr req = Ok r -> ok r = true -> json r = Ok payload ->
     handleError payload = Throw e ->
     fst (getBalance account_key tr) = Throw e)
  /\ (forall r payload e,
        provider tr (Client.precheck_request access_token clientConfig orderRequest)
        = Ok r ->
        json r = Ok payload ->
        handleError payload = Throw e ->
        fst (preCheckOrder orderRequest tr) = Throw e).
Proof.
  split.
  - intros req r payload e G F O J H. unfold Spec.api_get in G.
    unfold Client.getBalance, Client.then_, Client.catch_, Client.request,
      bind, try_catch, lift.
    destruct (new_URL rt _) as [u|]; [|discriminate]. injection G as <-.
    unfold Client.fetch. rewrite F, O. simpl. rewrite J, H. reflexivity.
  - intros r payload e F J H.
    unfold Client.preCheckOrder, bind. rewrite exchange_eq, F, J, H. reflexivity.
Qed.

(** *** Modifying an order *)

(** An order entity is an object whose [id] is the raw [OrderId]. *)
Lemma order_entity_shape o entity :
  order_entity o = Ok entity ->
  truthy entity = true
  /\ nullish entity = false
  /\ prop entity (K "id") = prop o (K "OrderId").
Proof.
  unfold Client.order_entity. invert_gets.
  destruct (toLowerCase rt _); [|discriminate].
  intros [= <-]. repeat split.
Qed.

Lemma has_id_entity orderId o entity :
  order_entity o = Ok entity ->
  Client.has_id orderId entity = Ok (strict_eq (prop entity (K "id")) (VStr orderId)).
Proof.
  intros H. apply order_entity_shape in H. destruct H as (_ & N & _).
  unfold Client.has_id, get. rewrite N. reflexivity.
Qed.

(** [getOrders] never throws, returns order entities, and only sends
    look-ups. *)
Lemma getOrders_total account_key tr :
  exists orders sent,
    getOrders account_key tr = (Ok orders, (tr ++ sent)%list)
    /\ Forall is_GET sent
    /\ Forall (fun entity => exists o, order_entity o = Ok entity) orders.
Proof.
  destruct (emits_getOrders account_key tr) as (sent & E & G).
  exists (match fst (getOrders account_key tr) with Ok l => l | Throw _ => [] end), sent.
  revert E. unfold Client.getOrders, try_catch, bind, lift, ret.
  destruct (Client.then_ _ _ tr) as [[result|e] tr1]; simpl.
  - destruct (Client.Data_map result order_entity) as [l|e] eqn:D; simpl;
      intros ->; repeat split; auto.
    eapply Data_map_Forall, D.
  - intros ->. repeat split; auto.
Qed.

(** C8.  [modifyOrder] first lists the orders of the account, with GET
    requests only.  When no listed order has the id, it throws the [Error]
    "Failed to get order details: Error: Order <id> not found" and nothing
    else is sent: no PATCH.  When some listed order has the id, the next
    and last request is one PATCH to "<apiEndpoint>/trade/v2/orders" with
    the bearer token, and the result is the classified answer to it.  The
    body of the PATCH holds the account key and the order id of the call,
    the [assetType] and [uic] of the first listed order with that id, the
    duration "GoodTillCancel", the price and the quantity when they are
    passed, and as [OrderType] the provider's name of that order's
    [order_type] when this is "market", "limit", "stop" or "stop_limit",
    and "Limit" for every other [order_type]. *)
Theorem modifyOrder_looks_the_order_up_first account_key orderId price quantity tr :
  exists orders sent,
    getOrders (Some account_key) tr = (Ok orders, (tr ++ sent)%list)
    /\ Forall (fun req => method req = "GET") sent
    /\ ((forall o, In o orders ->
                   strict_eq (prop o (K "id")) (VStr orderId) = false) ->
        modifyOrder account_key orderId price quantity tr
        = (Throw (VError "Error" ("Failed to get order details: Error: Order "
                                  ++ orderId ++ " not found")),
           (tr ++ sent)%list))
    /\ ((exists o, In o orders
                   /\ strict_eq (prop o (K "id")) (VStr orderId) = true) ->
        exists before currentOrder after,
          orders = (before ++ currentOrder :: after)%list
          /\ Forall (fun o => strict_eq (prop o (K "id")) (VStr orderId) = false)
               before
          /\ strict_eq (prop currentOrder (K "id")) (VStr orderId) = true
          /\ let patch :=
               mkRequest (Client.apiEndpoint clientConfig ++ "/trade/v2/orders")
                 "PATCH"
                 [("Authorization", "Bearer " ++ access_token);
                  ("Content-Type", "application/json")]
                 (JsonBody
                    (VObj
                       ([(K "AccountKey", VStr account_key);
                         (K "OrderId", VStr orderId);
                         (K "OrderType",
                          VStr (if strict_eq (prop currentOrder (K "order_type"))
                                     (VStr "market") then "Market"
                                else if strict_eq (prop currentOrder (K "order_type"))
                                          (VStr "limit") then "Limit"
                                else if strict_eq (prop currentOrder (K "order_type"))
                                          (VStr "stop") then "Stop"
                                else if strict_eq (prop currentOrder (K "order_type"))
                                          (VStr "stop_limit") then "StopLimit"
                                else "Limit"));
                         (K "AssetType", prop currentOrder (K "assetType"));
                         (K "Uic", prop currentOrder (K "uic"));
                         (K "OrderDuration",
                          VObj [(K "DurationType", VStr "GoodTillCancel")])]
                        ++ match price with
                           | Some p => [(K "OrderPrice", VNum p)]
                           | None => []
                           end
                        ++ match quantity with
                           | Some q => [(K "Amount", VNum q)]
                           | None => []
                           end)%list))
                 "follow" in
             modifyOrder account_key orderId price quantity tr
             = ((r <-? provider (tr ++ sent)%list patch ;;
                 payload <-? json r ;;
                 handleError payload)%await,
                (tr ++ sent ++ [patch])%list)).
Proof.
  destruct (getOrders_total (Some account_key) tr) as (orders & sent & E & G & Hall).
  exists orders, sent. split; [exact E|]. split; [exact G|].
  assert (Hid : forall x, In x orders ->
                  Client.has_id orderId x
                  = Ok (strict_eq (prop x (K "id")) (VStr orderId))).
  { intros x Hx. rewrite Forall_forall in Hall. destruct (Hall x Hx) as (o & Ho).
    eapply has_id_entity, Ho. }
  assert (Htotal : Forall (fun x => exists b, Client.has_id orderId x = Ok b) orders).
  { rewrite Forall_forall. intros x Hx. rewrite (Hid x Hx). eauto. }
  destruct (array_find_first (Client.has_id orderId) _ Htotal) as (found & F & Hfound).
  split.
  - intros Hnone.
    destruct found as [x|].
    + exfalso. destruct Hfound as (before & after & L & _ & Hx).
      assert (Hin : In x orders) by (rewrite L; apply in_elt).
      rewrite (Hid x Hin), (Hnone x Hin) in Hx. discriminate.
    + unfold Client.modifyOrder, bind, try_catch, lift, throw.
      rewrite E, F. simpl.
      destruct (String.eqb ("Order " ++ orderId ++ " not found") "") eqn:Z;
        [discriminate Z | reflexivity].
  - intros (o & Hin & Ho).
    destruct found as [x|].
    + destruct Hfound as (before & after & L & B & Hx).
      assert (Hinx : In x orders) by (rewrite L; apply in_elt).
      exists before, x, after.
      rewrite (Hid x Hinx) in Hx. injection Hx as Hx.
      split; [exact L|]. split.
      { rewrite Forall_forall in *. intros q Hq.
        assert (Hq' : In q orders) by (rewrite L; apply in_or_app; auto).
        specialize (B q Hq). rewrite (Hid q Hq') in B. now injection B. }
      split; [exact Hx|]. cbv zeta.
      rewrite Forall_forall in Hall. destruct (Hall x Hinx) as (raw & Hraw).
      unfold Client.modifyOrder, bind, try_catch, lift, throw, ret.
      rewrite E, F. simpl.
      destruct (order_entity_shape _ _ Hraw) as (T & _ & _). rewrite T. simpl.
      rewrite exchange_eq. rewrite <- app_assoc. reflexivity.
    + exfalso. rewrite Forall_forall in Hfound.
      specialize (Hfound o Hin). rewrite (Hid o Hin) in Hfound.
      congruence.
Qed.

(** *** The login flow *)

Ltac emits_steps :=
  repeat first
    [ apply emits_throw
    | apply emits_ret
    | apply emits_lift
    | apply emits_fetch; exact I
    | apply emits_bind; [|intros ?]
    | match goal with
      | |- emits _ (if ?c then _ else _) => destruct c
      | |- emits _ (match ?x with _ => _ end) => destruct x
      end ].

(** After an expected redirect the credentials are posted to it. *)
Lemma authenticate_goes_on username password config tr initialResponse location :
  provider tr (Client.authorize_request rt config) = Ok initialResponse ->
  headers_get (resp_headers initialResponse) "location" = Some location ->
  targets_login_domain location = true ->
  sends (fun _ => True)
    ((tr ++ [Client.authorize_request rt config])
     ++ [Client.login_request rt location username password])%list
    (snd (authenticate username password config tr)).
Proof.
  intros F L T. unfold Client.authenticate.
  unfold bind at 1. unfold Client.fetch at 1. rewrite F, L.
  unfold targets_login_domain in T. rewrite T.
  assert (M0 : Client.missing (Some location) = false).
  { simpl. destruct location; [discriminate T | reflexivity]. }
  rewrite M0. cbn [negb orb].
  unfold bind at 1. unfold Client.fetch at 1.
  destruct (provider _ (Client.login_request rt location username password))
    as [loginResponse|e]; [|apply sends_refl].
  generalize ((tr ++ [Client.authorize_request rt config])
              ++ [Client.login_request rt location username password])%list.
  match goal with
  | |- forall l, sends ?P l (snd (?m l)) => change (emits P m)
  end.
  emits_steps.
Qed.

(** C9, as amended.  Given the response to the authorize GET (which is
    sent with [redirect: "manual"]), [authenticate] throws "Unexpected
    redirect during authentication" with no further request sent exactly
    when the response has no [Location] header or the text of its location
    does not contain "saxobank.com". *)
Theorem authenticate_checks_the_redirect username password config tr
    initialResponse :
  provider tr (Client.authorize_request rt config) = Ok initialResponse ->
  authenticate username password config tr
  = (Throw (Error "Unexpected redirect during authentication"),
     (tr ++ [Client.authorize_request rt config])%list)
  <-> unexpected_redirect initialResponse = true.
Proof.
  intros F. unfold unexpected_redirect. split.
  - intros E.
    destruct (headers_get (resp_headers initialResponse) "location")
      as [location|] eqn:L; [|reflexivity].
    destruct (targets_login_domain location) eqn:T; [|reflexivity].
    exfalso. eapply sends_after_one.
    + eapply authenticate_goes_on; eauto.
    + rewrite E. reflexivity.
  - intros U. unfold Client.authenticate.
    unfold bind at 1. unfold Client.fetch at 1. rewrite F.
    destruct (headers_get (resp_headers initialResponse) "location")
      as [location|] eqn:L.
    + unfold targets_login_domain in U. rewrite U, orb_true_r. reflexivity.
    + reflexivity.
Qed.

End Properties.

(* ================================================================== *)
(** ** The properties at work on the scenarios *)
(* ================================================================== *)

Import Client Scenario.

(** At [{ErrorCode:"X", Message:"bad", ModelState:{}}], at a nested
    [ErrorInfo] and at a payload without either. *)
Lemma handleError_examples :
  Client.handleError host
    (VObj [(K "ErrorCode", VStr "X"); (K "Message", VStr "bad");
           (K "ModelState", VObj [])])
  = Throw (VError "Error"
             ("API request failed with error X: bad" ++ nl ++ "    {}" ++ nl))
  /\ Client.handleError host
       (VObj [(K "ErrorInfo",
               VObj [(K "ErrorCode", VStr "Y"); (K "Message", VStr "worse")])])
     = Throw (VError "Error" "API request failed with error Y: worse")
  /\ Client.handleError host (VObj [(K "Data", VArr [])])
     = Ok (VObj [(K "Data", VArr [])]).
Proof.
  split; [|split].
  - exact (proj1 (proj2 (handleError_classifies host
                           (VObj [(K "ErrorCode", VStr "X"); (K "Message", VStr "bad");
                                  (K "ModelState", VObj [])]))) eq_refl).
  - exact (proj1 (proj2 (proj2 (handleError_classifies host
                                  (VObj [(K "ErrorInfo",
                                          VObj [(K "ErrorCode", VStr "Y");
                                                (K "Message", VStr "worse")])]))))
             eq_refl eq_refl).
  - exact (proj1 (proj2 (proj2 (proj2 (handleError_classifies host
                                         (VObj [(K "Data", VArr [])])))))
             eq_refl eq_refl).
Defined.

(** A payload may have a top-level [ErrorCode] and be returned all the
    same: the number 0 and the empty text are falsy.  And what a truthy
    [ErrorCode] throws is an [Error] whose message is the whole text, not
    the provider's message. *)
Lemma falsy_ErrorCode_is_returned :
  has_key (VObj [(K "ErrorCode", VNum zero); (K "Message", VStr "bad")]) "ErrorCode"
  = true
  /\ Client.handleError host
       (VObj [(K "ErrorCode", VNum zero); (K "Message", VStr "bad")])
     = Ok (VObj [(K "ErrorCode", VNum zero); (K "Message", VStr "bad")])
  /\ Client.handleError host
       (VObj [(K "ErrorCode", VStr ""); (K "Message", VStr "bad")])
     = Ok (VObj [(K "ErrorCode", VStr ""); (K "Message", VStr "bad")])
  /\ exists text,
       Client.handleError host
         (VObj [(K "ErrorCode", VStr "X"); (K "Message", VStr "bad");
                (K "ModelState", VObj [])])
       = Throw (VError "Error" text)
       /\ text <> "bad"
       /\ text <> "X".
Proof.
  split; [reflexivity|]. split; [reflexivity|]. split; [reflexivity|].
  eexists. split; [reflexivity|]. split; discriminate.
Qed.

(** A limit order with price 0 is rejected without any request, although
    the price was passed: the validation table as worded is not violated,
    and the claim's equivalence fails at this input. *)
Lemma zero_price_limit_order_is_rejected :
  rejected_unsent (buy broken "limit" (Some zero)) []
  /\ table_violated (effective (Some "limit")) (Some zero) None = false
  /\ ~ (rejected_unsent (buy broken "limit" (Some zero)) []
        <-> table_violated (effective (Some "limit")) (Some zero) None = true).
Proof.
  assert (R : rejected_unsent (buy broken "limit" (Some zero)) []).
  { exists (Error "Limit orders require a price"). split; reflexivity. }
  split; [exact R|]. split; [reflexivity|].
  intros [H _]. specialize (H R). discriminate H.
Qed.

Lemma order_77_accepted provider_lookup positions orders order_type price :
  accepted host (trading provider_lookup positions orders)
    (submission order_type price) [] order_77.
Proof.
  eexists. repeat split.
Defined.

(** The order was executed at once: [buy] returns the second of the two
    positions, the one that refers to order "77", and not the first. *)
Lemma executed_order_returns_its_position :
  exists position,
    buy executed "market" None []
    = (Ok position, [submission "market" None; lookup_77; list_positions])
    /\ prop position (K "id") = VStr "P1"
    /\ SourceOrderId position = VStr "77"
    /\ prop position (K "order_id") = VStr "77"
    /\ prop order_77 (K "OrderId") = VStr "77"
    /\ has_key position "order_type" = false
    /\ map SourceOrderId executed_positions = [VStr "11"; VStr "77"].
Proof.
  destruct (createOrder_returns_the_position host executed token ClientId ClientKey
              config AccountKey "buy" (num 21) (num 100000) (Some "market") None
              None no_options [] order_77
              (Error "API request failed: Not Found")
              [submission "market" None; lookup_77]
              executed_positions
              [submission "market" None; lookup_77; list_positions]
              eq_refl (order_77_accepted _ _ _ _ _) eq_refl eq_refl
              (ex_intro _ (nth 1 executed_positions VUndefined)
                 (conj (or_intror (or_introl eq_refl)) eq_refl)))
    as (before & position & after & E & L & S & B & _).
  exists position. split; [exact E|].
  unfold executed_positions in L.
  destruct before as [|b0 [|b1 before]]; simpl in L.
  - injection L as <- _. discriminate S.
  - injection L as _ <- _. repeat split.
  - injection L as _ _ L. destruct before; discriminate L.
Defined.

(** Nothing confirms the order: [buy] still returns, with the order made
    up from its arguments. *)
Lemma unconfirmed_order_is_synthesized :
  exists result tr',
    buy unconfirmed "market" None [] = (Ok result, tr')
    /\ result = made_up_order
    /\ tr' = [submission "market" None; lookup_77; list_positions].
Proof.
  destruct (createOrder_does_not_fail_once_accepted host unconfirmed token ClientId
              ClientKey config AccountKey "buy" (num 21) (num 100000) (Some "market")
              None None no_options [] order_77 eq_refl
              (order_77_accepted _ _ _ _ _))
    as (result & tr' & E & [(R & _)|[(e & tr2 & positions & R & P & Hin & S)|(F & _)]]).
  - discriminate R.
  - injection R as <- <-. injection P as <- <-.
    destruct Hin as [<-|[]]. discriminate S.
  - exists result, tr'. split; [exact E|].
    assert (E' : buy unconfirmed "market" None []
                 = (Ok made_up_order,
                    [submission "market" None; lookup_77; list_positions]))
      by reflexivity.
    pose proof (eq_trans (eq_sym E) E') as Q. injection Q as _ ->.
    split; [exact F | reflexivity].
Defined.

(** An answer to the submission that holds an order id and an [ErrorInfo]:
    the answer carries an order id, and [buy] throws after the one POST. *)
Lemma order_id_with_ErrorInfo_is_thrown :
  contradictory [] (submission "market" None) = answer 200 "OK" refused_order
  /\ carries refused_order "OrderId" = true
  /\ prop refused_order (K "OrderId") = VStr "77"
  /\ buy contradictory "market" None []
     = (Throw (VError "Error"
                 "API request failed with error Rejected: insufficient margin"),
        [submission "market" None]).
Proof. repeat split. Qed.

(** C4.  The order is still pending and its look-up by id succeeds:
    [buy] returns the provider's record as it came, with the provider's
    field names ([OrderId], [OpenOrderType], ...) and none of the fields
    [id], [type], [order_type] of the internal Order shape, while
    [getOrders] turns the very same record into that shape. *)
Theorem pending_order_is_returned_unnormalized :
  fst (buy pending "limit" (Some (num 1)) []) = Ok (raw_order "77" "Limit")
  /\ Order_shaped (raw_order "77" "Limit") = false
  /\ prop (raw_order "77" "Limit") (K "id") = VUndefined
  /\ prop (raw_order "77" "Limit") (K "order_type") = VUndefined
  /\ (exists entity,
        fst (Client.getOrders host pending token ClientKey config
               (Some AccountKey) []) = Ok [entity]
        /\ Client.internal entity = raw_order "77" "Limit"
        /\ Order_shaped entity = true
        /\ prop entity (K "id") = VStr "77"
        /\ prop entity (K "order_type") = VStr "limit").
Proof.
  repeat split. eexists. repeat split.
Qed.

(** C7.  Against a provider that answers HTTP 500, [getBalance] does not
    throw: it returns a balance of zeros without currency, built from the
    [Error] object that [.catch(handleError)] let through.  [preCheckOrder]
    does not look at the status either and returns an empty result for the
    same answer. *)
Theorem getBalance_returns_zeros_on_http_500 :
  fst (Client.getBalance host broken token ClientKey config AccountKey [])
  = Ok (VObj [(K "cashBalance", VNum zero);
              (K "cashAvailable", VNum zero);
              (K "totalValue", VNum zero);
              (K "marginUsed", VNum zero);
              (K "marginAvailable", VNum zero);
              (K "unrealizedPnL", VNum zero);
              (K "currency", VUndefined);
              (INTERNAL, Error "API request failed: Internal Server Error")])
  /\ fst (Client.preCheckOrder host broken token config
            (VObj [(K "accountKey", VStr AccountKey)]) [])
     = Ok (VObj []).
Proof. split; reflexivity. Qed.

(** Against a provider that answers HTTP 500 every read-list operation
    returns its empty value. *)
Lemma reads_are_empty_on_http_500 :
  fst (Client.account_getPositions host broken token ClientId ClientKey config
         "A1" []) = Ok []
  /\ fst (Client.getOrders host broken token ClientKey config
            (Some AccountKey) []) = Ok []
  /\ fst (Client.getNetPositions host broken token ClientId ClientKey config
            None []) = Ok []
  /\ fst (Client.getClosedPositions host broken token ClientId ClientKey config
            None None None []) = Ok []
  /\ fst (Client.getExposure host broken token ClientKey config None [])
     = Ok (VObj []).
Proof.
  assert (F : forall endpoint,
            request_fails host broken token config endpoint []).
  { intros endpoint. eexists. split; reflexivity. }
  split; [|split; [|split; [|split]]].
  - exact (proj1 (read_lists_swallow_failures host broken token ClientId
                    ClientKey config (Some AccountKey) None None []) (F _)).
  - exact (proj1 (proj2 (read_lists_swallow_failures host broken token ClientId
                           ClientKey config (Some AccountKey) None None []))
             (F _)).
  - exact (proj1 (proj2 (proj2 (read_lists_swallow_failures host broken token
                                  ClientId ClientKey config None None None [])))
             (F _)).
  - exact (proj1 (proj2 (proj2 (proj2
             (read_lists_swallow_failures host broken token ClientId ClientKey
                config None None None [])))) _ eq_refl (F _)).
  - exact (proj2 (proj2 (proj2 (proj2
             (read_lists_swallow_failures host broken token ClientId ClientKey
                config None None None [])))) (F _)).
Defined.

(** [modifyOrder("missing-id", 1)] against a provider whose order list
    holds only order "77" fails after the one look-up; [modifyOrder("77",
    1)] sends the PATCH with the listed order's type, asset type and
    instrument. *)
Lemma modifyOrder_examples :
  Client.account_modifyOrder host pending token ClientKey config AccountKey
    "missing-id" (Some (num 1)) None []
  = (Throw (VError "Error"
              "Failed to get order details: Error: Order missing-id not found"),
     [list_orders])
  /\ snd (Client.account_modifyOrder host pending token ClientKey config
            AccountKey "77" (Some (num 1)) None [])
     = [list_orders; patch_to_price_1 "77" "Limit"].
Proof.
  split.
  - destruct (modifyOrder_looks_the_order_up_first host pending token ClientKey
                config AccountKey "missing-id" (Some (num 1)) None [])
      as (orders & sent & E & _ & Hnone & _).
    injection E as <- <-. apply Hnone.
    intros o [<-|[]]. reflexivity.
  - destruct (modifyOrder_looks_the_order_up_first host pending token ClientKey
                config AccountKey "77" (Some (num 1)) None [])
      as (orders & sent & E & _ & _ & Hfound).
    injection E as <- <-.
    destruct Hfound as (before & currentOrder & after & L & _ & _ & M).
    + eexists. split; [left; reflexivity | reflexivity].
    + cbv zeta in M. unfold Client.account_modifyOrder. rewrite M. cbn [snd].
      destruct before as [|b0 before]; simpl in L.
      * injection L as <- _. reflexivity.
      * injection L as _ L. destruct before; discriminate L.
Defined.

(** An order of a type that the client does not know is listed with that
    type, and modified as a "Limit" order. *)
Lemma unknown_order_type_is_patched_as_Limit :
  exists currentOrder,
    fst (Client.getOrders host exotic token ClientKey config (Some AccountKey) [])
    = Ok [currentOrder]
    /\ prop currentOrder (K "id") = VStr "88"
    /\ prop currentOrder (K "order_type") = VStr "TrailingStop"
    /\ snd (Client.account_modifyOrder host exotic token ClientKey config
              AccountKey "88" (Some (num 1)) None [])
       = [list_orders; patch_to_price_1 "88" "Limit"].
Proof. eexists. repeat split. Qed.

(** A redirect to another site stops the login after the authorize GET. *)
Lemma unexpected_redirect_example :
  Client.authenticate host (login (Some "https://evil.example/login")) "user"
    "secret" config []
  = (Throw (Error "Unexpected redirect during authentication"),
     [Client.authorize_request host config])
  <-> unexpected_redirect
        (mkResponse false 302 "Found" [("location", "https://evil.example/login")]
           (Throw (SyntaxError "Unexpected end of JSON input"))) = true.
Proof.
  exact (authenticate_checks_the_redirect host
           (login (Some "https://evil.example/login")) "user" "secret" config []
           _ eq_refl).
Defined.

(** A limit order with a price of 1 passes the validation, a limit order
    without price does not. *)
Lemma validation_examples :
  (rejected_unsent (buy broken "limit" (Some (num 1))) []
   <-> table_violated "limit" (Some (num 1)) None = true)
  /\ (rejected_unsent (buy broken "limit" None) []
      <-> table_violated "limit" None None = true).
Proof.
  split.
  - exact (proj2 (createOrder_validates_as_tested host broken token ClientId
                    ClientKey config AccountKey "buy" (num 21) (num 100000)
                    (Some "limit") (Some (num 1)) None no_options [])
             eq_refl eq_refl).
  - exact (proj2 (createOrder_validates_as_tested host broken token ClientId
                    ClientKey config AccountKey "buy" (num 21) (num 100000)
                    (Some "limit") None None no_options [])
             eq_refl eq_refl).
Defined.

(** A location on another host whose text contains "saxobank.com" does
    not target the login domain, and yet the login goes on: the
    credentials are posted to it. *)
Lemma redirect_elsewhere_is_followed :
  host_of "https://evil.example/login?saxobank.com" = Some "evil.example"
  /\ on_login_domain "https://evil.example/login?saxobank.com" = false
  /\ Client.authenticate host
       (login (Some "https://evil.example/login?saxobank.com")) "user" "secret"
       config []
     = (Throw (Error "Login failed, no redirect received"),
        [Client.authorize_request host config;
         Client.login_request host "https://evil.example/login?saxobank.com"
           "user" "secret"]).
Proof. repeat split. Qed.

(** The host test and the text test agree on the usual locations. *)
Example login_domain_tests :
  on_login_domain "https://www.saxobank.com/sim/login?state=1" = true
  /\ targets_login_domain "https://www.saxobank.com/sim/login?state=1" = true
  /\ on_login_domain "https://evil.example/login" = false
  /\ targets_login_domain "https://evil.example/login" = false.
Proof. repeat split. Qed.

(* ================================================================== *)
(** ** Further properties of the client *)
(* ================================================================== *)

Section Further.

Variable rt : Runtime.
Variable provider : Provider.
Variable access_token : string.
Variable client_id : value.
Variable client_key : value.
Variable clientConfig : Client.AppConfig.

#[local] Abbreviation handleError := (Client.handleError rt).
#[local] Abbreviation fetch := (Client.fetch provider).
#[local] Abbreviation request := (Client.request rt provider).
#[local] Abbreviation authenticate := (Client.authenticate rt provider).
#[local] Abbreviation authorize_request := (Client.authorize_request rt).
#[local] Abbreviation login_request := (Client.login_request rt).
#[local] Abbreviation position_entity := (Client.position_entity client_id).
#[local] Abbreviation order_entity := (Client.order_entity rt).
#[local] Abbreviation getPositions :=
  (Client.getPositions rt provider access_token client_id client_key clientConfig).
#[local] Abbreviation getOrders :=
  (Client.getOrders rt provider access_token client_key clientConfig).
#[local] Abbreviation getNetPositions :=
  (Client.getNetPositions rt provider access_token client_id client_key clientConfig).
#[local] Abbreviation getClosedPositions :=
  (Client.getClosedPositions rt provider access_token client_id client_key clientConfig).
#[local] Abbreviation getExposure :=
  (Client.getExposure rt provider access_token client_key clientConfig).
#[local] Abbreviation getBalance :=
  (Client.getBalance rt provider access_token client_key clientConfig).
#[local] Abbreviation preCheckOrder :=
  (Client.preCheckOrder rt provider access_token clientConfig).
#[local] Abbreviation createOrder :=
  (Client.createOrder rt provider access_token client_id client_key clientConfig).
#[local] Abbreviation reconcile :=
  (Client.reconcile rt provider access_token client_id client_key clientConfig).
#[local] Abbreviation modifyOrder :=
  (Client.modifyOrder rt provider access_token client_key clientConfig).
#[local] Abbreviation cancelOrder :=
  (Client.cancelOrder rt provider access_token clientConfig).
#[local] Abbreviation cancelAllOrders :=
  (Client.cancelAllOrders rt provider access_token clientConfig).
#[local] Abbreviation getAccounts :=
  (Client.getAccounts rt provider access_token clientConfig).
#[local] Abbreviation createClient := (Client.createClient rt provider).
#[local] Abbreviation submit_request := (Client.submit_request access_token clientConfig).
#[local] Abbreviation order_endpoint := (Client.order_endpoint rt client_key).
#[local] Abbreviation fallback_order := (Client.fallback_order rt client_id).
#[local] Abbreviation api_get := (Spec.api_get rt access_token clientConfig).
#[local] Abbreviation request_fails :=
  (Spec.request_fails rt provider access_token clientConfig).
#[local] Abbreviation request_breaks :=
  (Spec.request_breaks rt provider access_token clientConfig).
#[local] Abbreviation accepted := (Spec.accepted rt provider).
#[local] Abbreviation token_request := (Spec.token_request rt).

(** *** The steps of the login *)

Ltac emits_run :=
  repeat first
    [ apply emits_throw
    | apply emits_ret
    | apply emits_lift
    | apply emits_fetch; exact I
    | apply emits_bind; [|intros ?]
    | match goal with
      | |- emits _ (if ?c then _ else _) => destruct c
      | |- emits _ (match ?x with _ => _ end) => destruct x
      end ].

Ltac invert_get :=
  repeat match goal with
  | |- context [get ?v ?n] =>
      let E := fresh "E" in
      destruct (get v n) eqn:E; [apply get_ok in E; destruct E as [-> ?] | discriminate]
  end.

Lemma bind_fetch {B} req (k : Response -> M B) tr r :
  provider tr req = Ok r -> bind (fetch req) k tr = k r (tr ++ [req])%list.
Proof. intros H. unfold bind, Client.fetch. now rewrite H. Qed.

Lemma bind_fetch_throw {B} req (k : Response -> M B) tr e :
  provider tr req = Throw e -> bind (fetch req) k tr = (Throw e, (tr ++ [req])%list).
Proof. intros H. unfold bind, Client.fetch. now rewrite H. Qed.

(** Whatever follows a [fetch], its request is in the log. *)
Lemma fetch_then_sends {B} req (k : Response -> M B) tr :
  (forall r, emits (fun _ => True) (k r)) ->
  sends (fun _ => True) (tr ++ [req])%list (snd (bind (fetch req) k tr)).
Proof.
  intros H. unfold bind, Client.fetch.
  destruct (provider tr req) as [r|e]; [apply H | apply sends_refl].
Qed.

Lemma missing_false s : Client.missing s = false -> exists l, s = Some l /\ l <> "".
Proof.
  destruct s as [l|]; simpl; [|discriminate]. intros H. exists l. split; auto.
  intros ->. discriminate.
Qed.

Lemma missing_some l : l <> "" -> Client.missing (Some l) = false.
Proof. intros H. simpl. destruct (String.eqb_spec l ""); congruence. Qed.

Lemma targets_not_empty l : targets_login_domain l = true -> l <> "".
Proof. intros H ->. discriminate H. Qed.

(** The login as far as the login POST: with an expected redirect, what
    [authenticate] does next is decided by the answer to the POST. *)
Lemma authenticate_after_login username password config tr r1 loginUrl :
  provider tr (authorize_request config) = Ok r1 ->
  headers_get (resp_headers r1) "location" = Some loginUrl ->
  targets_login_domain loginUrl = true ->
  authenticate username password config tr =
  bind (fetch (login_request loginUrl username password))
    (fun loginResponse =>
       let postLoginUrl := headers_get (resp_headers loginResponse) "location" in
       if Client.missing postLoginUrl
       then throw (Error "Login failed, no redirect received")
       else
       bind (fetch (follow_request (match postLoginUrl with Some l => l | None => "" end)
                      (header_or_empty loginResponse "set-cookie")))
         (fun finalResponse =>
            match new_URL rt (header_or_empty finalResponse "location") with
            | None => throw (TypeError "Invalid URL")
            | Some finalUrl =>
                let authCode := Client.searchParams_get finalUrl "code" in
                if Client.missing authCode
                then throw (Error "Failed to retrieve authorization code")
                else
                bind (fetch (token_request config
                               (match authCode with Some c => c | None => "" end)))
                  (fun tokenResponse =>
                     if negb (ok tokenResponse)
                     then throw (Error ("Failed to fetch token: "
                                        ++ statusText tokenResponse))
                     else lift (json tokenResponse))
            end))
    (tr ++ [authorize_request config])%list.
Proof.
  intros F L T. unfold Client.authenticate.
  rewrite (bind_fetch _ _ _ _ F), L.
  unfold targets_login_domain in T. rewrite T.
  rewrite (missing_some _ (targets_not_empty _ T)). reflexivity.
Qed.


(** X5.  The login fails at its second step exactly when the login response
    has no (or an empty) [Location]: then [authenticate] throws "Login
    failed, no redirect received" and has sent the authorize GET and the
    login POST only. *)
Theorem authenticate_needs_the_login_redirect username password config tr
    r1 r2 loginUrl :
  provider tr (authorize_request config) = Ok r1 ->
  headers_get (resp_headers r1) "location" = Some loginUrl ->
  targets_login_domain loginUrl = true ->
  provider (tr ++ [authorize_request config])%list
    (login_request loginUrl username password) = Ok r2 ->
  authenticate username password config tr
  = (Throw (Error "Login failed, no redirect received"),
     (tr ++ [authorize_request config;
             login_request loginUrl username password])%list)
  <-> Client.missing (headers_get (resp_headers r2) "location") = true.
Proof.
  intros F1 L1 T F2.
  rewrite (authenticate_after_login _ _ _ _ _ _ F1 L1 T).
  rewrite (bind_fetch _ _ _ _ F2). cbv zeta.
  rewrite <- app_assoc. cbn [app].
  destruct (Client.missing (headers_get (resp_headers r2) "location")) eqn:M0.
  - split; reflexivity.
  - split; [|discriminate]. intros E. exfalso.
    match type of E with
    | bind (fetch ?req) ?k ?t = _ =>
        assert (S : sends (fun _ => True) (t ++ [req])%list
                      (snd (bind (fetch req) k t)))
          by (apply fetch_then_sends; intros r3; emits_run)
    end.
    rewrite E in S. apply sends_after_one in S. apply S. reflexivity.
Qed.

(** X6.  The login fails at its third step, without the token endpoint being
    contacted, when the page after the login does not send the caller back
    to a URL with a [code]: a [Location] that is no URL throws a TypeError,
    a URL without (or with an empty) [code] throws "Failed to retrieve
    authorization code". *)
Theorem authenticate_needs_the_code username password config tr
    r1 r2 r3 loginUrl postLoginUrl :
  provider tr (authorize_request config) = Ok r1 ->
  headers_get (resp_headers r1) "location" = Some loginUrl ->
  targets_login_domain loginUrl = true ->
  provider (tr ++ [authorize_request config])%list
    (login_request loginUrl username password) = Ok r2 ->
  headers_get (resp_headers r2) "location" = Some postLoginUrl ->
  postLoginUrl <> "" ->
  provider (tr ++ [authorize_request config;
                   login_request loginUrl username password])%list
    (follow_request postLoginUrl (header_or_empty r2 "set-cookie")) = Ok r3 ->
  match new_URL rt (header_or_empty r3 "location") with
  | None =>
      authenticate username password config tr
      = (Throw (TypeError "Invalid URL"),
         (tr ++ [authorize_request config;
                 login_request loginUrl username password;
                 follow_request postLoginUrl (header_or_empty r2 "set-cookie")])%list)
  | Some finalUrl =>
      Client.missing (Client.searchParams_get finalUrl "code") = true ->
      authenticate username password config tr
      = (Throw (Error "Failed to retrieve authorization code"),
         (tr ++ [authorize_request config;
                 login_request loginUrl username password;
                 follow_request postLoginUrl (header_or_empty r2 "set-cookie")])%list)
  end.
Proof.
  intros F1 L1 T F2 L2 N2 F3.
  rewrite (authenticate_after_login _ _ _ _ _ _ F1 L1 T).
  rewrite (bind_fetch _ _ _ _ F2). cbv zeta. rewrite L2, (missing_some _ N2).
  rewrite <- app_assoc. cbn [app].
  rewrite (bind_fetch _ _ _ _ F3).
  rewrite <- app_assoc. cbn [app].
  destruct (new_URL rt (header_or_empty r3 "location")) as [finalUrl|].
  - cbv zeta. intros ->. reflexivity.
  - reflexivity.
Qed.

(** X7.  Whatever the provider does, [authenticate] begins with the
    authorize GET and sends at most three requests after it. *)
Theorem authenticate_sends_at_most_four username password config tr :
  exists rest,
    snd (authenticate username password config tr)
    = (tr ++ authorize_request config :: rest)%list
    /\ (length rest <= 3)%nat.
Proof.
  unfold Client.authenticate, bind, Client.fetch, throw, lift.
  repeat match goal with
         | |- context [match provider ?t ?r with _ => _ end] =>
             destruct (provider t r)
         | |- context [if ?c then _ else _] => destruct c
         | |- context [match new_URL rt ?x with _ => _ end] =>
             destruct (new_URL rt x)
         end;
    cbn [snd]; rewrite <- ?app_assoc; cbn [app];
    eexists; (split; [reflexivity | simpl; lia]).
Qed.

(** *** Submitting an order *)

(** What [createOrder] does with the answer to its submission. *)
Lemma createOrder_after_submission account_key type uic quantity order_type price
    stop_limit options tr :
  table_violated_as_tested (effective order_type) price stop_limit = false ->
  createOrder account_key type uic quantity order_type price stop_limit options tr
  = match (r <-? provider tr
                  (submit_request
                     (orderRequest account_key type uic quantity
                        (effective order_type) price stop_limit options)) ;;
           payload <-? json r ;;
           handleError payload)%await with
    | Throw e =>
        (Throw e,
         (tr ++ [submit_request
                   (orderRequest account_key type uic quantity
                      (effective order_type) price stop_limit options)])%list)
    | Ok response =>
        if negb (truthy response) || negb (truthy (prop response (K "OrderId")))
        then (Throw (Error "Failed to place order: No OrderId returned"),
              (tr ++ [submit_request
                        (orderRequest account_key type uic quantity
                           (effective order_type) price stop_limit options)])%list)
        else reconcile account_key type uic quantity (effective order_type) price
               options response
               (tr ++ [submit_request
                         (orderRequest account_key type uic quantity
                            (effective order_type) price stop_limit options)])%list
    end.
Proof.
  intros V. destruct (checks_pass _ _ _ V) as (c1 & c2 & c3 & c4).
  unfold Client.createOrder. cbv zeta. fold (effective order_type).
  rewrite c1, c2, c3, c4. unfold bind at 1. rewrite exchange_eq.
  destruct (_ <-? provider tr _ ;; _)%await as [response|e]; [|reflexivity].
  destruct (negb (truthy response) || _); reflexivity.
Qed.

(** X8.  A submission that is not accepted ends the call after the one POST:
    a rejected [fetch], a body that is no JSON and a classified error
    payload are thrown as they are, and an answer without (or with a falsy)
    [OrderId] throws "Failed to place order:  No OrderId returned".  The
    HTTP status of the answer plays no part, and neither the order nor the
    positions are looked up. *)
Theorem createOrder_submission_failed account_key type uic quantity order_type
    price stop_limit options tr :
  table_violated_as_tested (effective order_type) price stop_limit = false ->
  (forall e,
     (r <-? provider tr
              (submit_request
                 (orderRequest account_key type uic quantity
                    (effective order_type) price stop_limit options)) ;;
      payload <-? json r ;;
      handleError payload)%await = Throw e ->
     createOrder account_key type uic quantity order_type price stop_limit options tr
     = (Throw e,
        (tr ++ [submit_request
                  (orderRequest account_key type uic quantity
                     (effective order_type) price stop_limit options)])%list))
  /\ (forall r response,
        provider tr
          (submit_request
             (orderRequest account_key type uic quantity
                (effective order_type) price stop_limit options)) = Ok r ->
        json r = Ok response ->
        handleError response = Ok response ->
        truthy response && carries response "OrderId" = false ->
        createOrder account_key type uic quantity order_type price stop_limit
          options tr
        = (Throw (Error "Failed to place order: No OrderId returned"),
           (tr ++ [submit_request
                     (orderRequest account_key type uic quantity
                        (effective order_type) price stop_limit options)])%list)).
Proof.
  intros V. split.
  - intros e E. rewrite (createOrder_after_submission _ _ _ _ _ _ _ _ _ V), E.
    reflexivity.
  - intros r response F J H C.
    rewrite (createOrder_after_submission _ _ _ _ _ _ _ _ _ V), F, J, H.
    unfold carries, opt in C.
    destruct (truthy response) eqn:T; [|reflexivity].
    rewrite (truthy_not_nullish _ T) in C. simpl in C. rewrite C. reflexivity.
Qed.

Lemma request_log token endpoint api tr :
  sends_first is_GET is_GET 1 tr (snd (request token endpoint api tr)).
Proof.
  unfold Client.request, bind, Client.fetch, throw, lift.
  destruct (new_URL rt _) as [u|].
  - exists [mkRequest (href u) "GET" (api_headers token) NoBody "follow"].
    destruct (provider tr _) as [r|e]; [destruct (negb (ok r))|];
      (split; [reflexivity | split; [simpl; lia | split; [reflexivity | constructor]]]).
  - exists []. rewrite app_nil_r. repeat split. simpl. lia.
Qed.

Lemma sends_first_get_trans n m a b c :
  sends_first is_GET is_GET n a b -> sends_first is_GET is_GET m b c ->
  sends_first is_GET is_GET (n + m) a c.
Proof.
  intros (l1 & -> & L1 & H1) (l2 & -> & L2 & H2).
  exists (l1 ++ l2)%list. split; [now rewrite app_assoc|].
  split; [rewrite length_app; lia|].
  assert (A1 : Forall is_GET l1) by (destruct l1; [constructor | now constructor]).
  assert (A2 : Forall is_GET l2) by (destruct l2; [constructor | now constructor]).
  assert (A : Forall is_GET (l1 ++ l2)) by now apply Forall_app.
  destruct (l1 ++ l2)%list; [exact I | now inversion A].
Qed.

Lemma getPositions_log account_key tr :
  sends_first is_GET is_GET 1 tr (snd (getPositions account_key tr)).
Proof.
  unfold Client.getPositions, try_catch, bind, Client.then_, bind, lift, ret.
  pose proof (request_log access_token
                (positions_endpoint rt client_key account_key)
                (apiEndpoint clientConfig) tr) as R.
  destruct (request _ _ _ tr) as [[v|e] tr1]; simpl in *; [|exact R].
  destruct (handleError v); simpl; [|exact R].
  destruct (Data_map _ _); exact R.
Qed.

Lemma reconcile_log account_key type uic quantity order_type price options
    response tr :
  sends_first is_GET is_GET 2 tr
    (snd (reconcile account_key type uic quantity order_type price options
            response tr)).
Proof.
  unfold Client.reconcile, bind, try_catch, ret, lift.
  pose proof (request_log access_token (order_endpoint response)
                (apiEndpoint clientConfig) tr) as R.
  destruct (request _ _ _ tr) as [[d|e] tr1]; simpl in R.
  - destruct (truthy d); simpl;
      apply (sends_first_get_trans 1 1 _ _ _ R); exists []; rewrite app_nil_r;
      repeat split; simpl; lia.
  - pose proof (getPositions_log (Some account_key) tr1) as P.
    destruct (getPositions (Some account_key) tr1) as [[ps|e'] tr2]; simpl in P.
    + destruct (array_find _ ps) as [[p|]|e']; [destruct (truthy p)| |]; simpl;
        apply (sends_first_get_trans 1 1 _ _ _ R P).
    + apply (sends_first_get_trans 1 1 _ _ _ R P).
Qed.

(** X9.  Whatever the arguments and the provider, [createOrder] sends at
    most three requests: first the POST of the submission, then only GETs
    (the look-up of the order and the list of positions).  It never submits
    twice and never modifies or cancels anything. *)
Theorem createOrder_sends_at_most_three account_key type uic quantity order_type
    price stop_limit options tr :
  sends_first
    (fun req => req = submit_request
                        (orderRequest account_key type uic quantity
                           (effective order_type) price stop_limit options))
    is_GET 3 tr
    (snd (createOrder account_key type uic quantity order_type price stop_limit
            options tr)).
Proof.
  destruct (table_violated_as_tested (effective order_type) price stop_limit) eqn:V.
  - destruct (createOrder_rejects rt provider access_token client_id client_key
                clientConfig account_key type uic quantity order_type price
                stop_limit options tr V) as (m & _ & E).
    rewrite E. exists []. rewrite app_nil_r. repeat split. simpl. lia.
  - rewrite (createOrder_after_submission _ _ _ _ _ _ _ _ _ V).
    set (post := submit_request _).
    destruct (_ <-? provider tr post ;; _)%await as [response|e].
    + destruct (negb (truthy response) || _).
      * exists [post]. repeat split; [simpl; lia | constructor].
      * destruct (reconcile_log account_key type uic quantity
                    (effective order_type) price options response
                    (tr ++ [post])%list) as (l & E & L & H).
        rewrite E. exists (post :: l). split; [now rewrite <- app_assoc|].
        split; [simpl; lia|]. split; [reflexivity|].
        destruct l; [constructor | now constructor].
    + exists [post]. repeat split; [simpl; lia | constructor].
Qed.

(** *** The submitted object *)

Lemma keys_spread c k v :
  map fst (spread (and_then c (VObj [(K k, v)]))) = if truthy c then [K k] else [].
Proof.
  unfold and_then. destruct (truthy c) eqn:T; [reflexivity|].
  destruct c; simpl in *; try discriminate; reflexivity.
Qed.

(** X10.  The object that [createOrder] submits has no key twice; it has an
    [OrderDuration] exactly when the order is not a market order, which is
    the caller's duration or else [{DurationType: "GoodTillCancel"}]; and
    its [ManualOrder] is the caller's choice or else [true]. *)
Theorem orderRequest_is_well_formed account_key type uic quantity order_type
    price stop_limit options :
  NoDup (keys (orderRequest account_key type uic quantity order_type price
                 stop_limit options))
  /\ has_key (orderRequest account_key type uic quantity order_type price
                stop_limit options) "OrderDuration"
     = negb (String.eqb order_type "market")
  /\ prop (orderRequest account_key type uic quantity order_type price
             stop_limit options) (K "OrderDuration")
     = (if String.eqb order_type "market" then VUndefined
        else match duration options with
             | Some d => js_duration (Some d)
             | None => VObj [(K "DurationType", VStr "GoodTillCancel")]
             end)
  /\ prop (orderRequest account_key type uic quantity order_type price
             stop_limit options) (K "ManualOrder")
     = VBool (match manualOrder options with Some b => b | None => true end).
Proof.
  unfold orderRequest, keys, has_key, prop.
  assert (D : or_else (js_duration (duration options))
                (VObj [(K "DurationType", VStr "GoodTillCancel")])
              = match duration options with
                | Some d => js_duration (Some d)
                | None => VObj [(K "DurationType", VStr "GoodTillCancel")]
                end)
    by (destruct (duration options); reflexivity).
  rewrite D.
  repeat rewrite map_app. repeat rewrite keys_spread.
  destruct (truthy (js_num price)) eqn:P,
    (truthy (js_num stop_limit)) eqn:S,
    (truthy (js_str (externalReference options))) eqn:X,
    (truthy (js_bool (isForceOpen options))) eqn:F,
    (truthy (js_num (trailingStopDistanceToMarket options))) eqn:T1,
    (truthy (js_num (trailingStopStep options))) eqn:T2,
    (String.eqb order_type "market") eqn:M0;
    unfold and_then; rewrite ?P, ?S, ?X, ?F, ?T1, ?T2; cbn -[String.eqb js_duration];
    (split; [repeat constructor; cbn; intuition discriminate|]);
    destruct (manualOrder options); repeat split;
    repeat match goal with
           | |- context [spread ?v] =>
               let E := fresh in
               assert (E : spread v = []) by (destruct v; simpl in *; try discriminate; reflexivity);
               rewrite E; clear E
           end; reflexivity.
Qed.

(** *** Order types across the provider *)

Lemma strict_eq_str v name : strict_eq v (VStr name) = true -> v = VStr name.
Proof.
  destruct v; simpl; try discriminate. intros H.
  apply String.eqb_eq in H. now subst.
Qed.

(** The fields of an order entity, read off the raw record. *)
Lemma order_entity_fields o entity :
  order_entity o = Ok entity ->
  prop entity (K "order_type")
  = (if strict_eq (prop o (K "OpenOrderType")) (VStr "Market") then VStr "market"
     else if strict_eq (prop o (K "OpenOrderType")) (VStr "Limit") then VStr "limit"
     else if strict_eq (prop o (K "OpenOrderType")) (VStr "Stop") then VStr "stop"
     else if strict_eq (prop o (K "OpenOrderType")) (VStr "StopLimit")
     then VStr "stop_limit"
     else prop o (K "OpenOrderType"))
  /\ prop entity (K "status")
     = (if strict_eq (prop o (K "Status")) (VStr "Filled") then VStr "filled"
        else if strict_eq (prop o (K "Status")) (VStr "Working") then VStr "working"
        else if strict_eq (prop o (K "Status")) (VStr "Parked") then VStr "parked"
        else prop o (K "Status"))
  /\ prop entity (K "assetType") = prop o (K "AssetType")
  /\ prop entity (K "uic") = prop o (K "Uic")
  /\ prop entity (K "id") = prop o (K "OrderId")
  /\ Client.internal entity = o.
Proof.
  unfold Client.order_entity. invert_get.
  destruct (toLowerCase rt _); [|discriminate].
  intros [= <-]. repeat split.
Qed.

(** X11.  Round trip of the order type: an order submitted with one of the
    four order types and listed by the provider under the [OrderType] that
    was submitted comes back from [getOrders] with the order type of the
    call. *)
Theorem order_type_round_trip account_key type uic quantity order_type price
    stop_limit options o entity :
  In order_type order_types ->
  prop o (K "OpenOrderType")
  = prop (orderRequest account_key type uic quantity order_type price stop_limit
            options) (K "OrderType") ->
  order_entity o = Ok entity ->
  prop entity (K "order_type") = VStr order_type.
Proof.
  intros Hin Hsame He.
  apply order_entity_fields in He. destruct He as (-> & _).
  rewrite Hsame. simpl in Hin.
  destruct Hin as [<-|[<-|[<-|[<-|[]]]]]; reflexivity.
Qed.

(** X12.  What [modifyOrder] sends back to the provider: the provider's own
    name of the order type when it is one of the four known ones, "Limit"
    when it is none of them (nor one of the four internal names); the listed
    [AssetType] and [Uic]; an [OrderPrice] whenever a price is passed (a
    price of 0 too) and an [Amount] whenever a quantity is passed. *)
Theorem updateData_returns_the_listed_order account_key orderId o entity
    price quantity :
  order_entity o = Ok entity ->
  (one_of provider_order_types (prop o (K "OpenOrderType")) = true ->
   prop (updateData account_key orderId entity price quantity) (K "OrderType")
   = prop o (K "OpenOrderType"))
  /\ (one_of provider_order_types (prop o (K "OpenOrderType")) = false ->
      one_of order_types (prop o (K "OpenOrderType")) = false ->
      prop (updateData account_key orderId entity price quantity) (K "OrderType")
      = VStr "Limit")
  /\ prop (updateData account_key orderId entity price quantity) (K "AssetType")
     = prop o (K "AssetType")
  /\ prop (updateData account_key orderId entity price quantity) (K "Uic")
     = prop o (K "Uic")
  /\ prop (updateData account_key orderId entity price quantity) (K "OrderPrice")
     = js_num price
  /\ prop (updateData account_key orderId entity price quantity) (K "Amount")
     = js_num quantity.
Proof.
  intros He. apply order_entity_fields in He.
  destruct He as (Ht & _ & Ha & Hu & _ & _).
  unfold updateData. cbn [prop lookup app key_eqb].
  rewrite Ht, Ha, Hu. clear Ht Ha Hu.
  set (X := prop o (K "OpenOrderType")).
  unfold one_of, provider_order_types, order_types. cbn [existsb].
  repeat split.
  - destruct (strict_eq X (VStr "Market")) eqn:E1;
      [apply strict_eq_str in E1; rewrite E1; reflexivity|].
    destruct (strict_eq X (VStr "Limit")) eqn:E2;
      [apply strict_eq_str in E2; rewrite E2; reflexivity|].
    destruct (strict_eq X (VStr "Stop")) eqn:E3;
      [apply strict_eq_str in E3; rewrite E3; reflexivity|].
    destruct (strict_eq X (VStr "StopLimit")) eqn:E4;
      [apply strict_eq_str in E4; rewrite E4; reflexivity|].
    discriminate.
  - intros H1 H2.
    repeat (apply orb_false_iff in H1; destruct H1 as [? H1]).
    repeat (apply orb_false_iff in H2; destruct H2 as [? H2]).
    repeat match goal with H : strict_eq X _ = false |- _ => rewrite H; clear H end.
    reflexivity.
  - destruct price, quantity; reflexivity.
  - destruct price, quantity; reflexivity.
Qed.

(** X13.  Every order that [getOrders] returns has its order type and its
    status normalised: neither is left as one of the provider's names (an
    unknown name is passed on as it is), and the raw record is kept under
    [INTERNAL]. *)
Theorem getOrders_normalizes_names account_key tr :
  exists orders,
    fst (getOrders account_key tr) = Ok orders
    /\ Forall (fun entity =>
                 one_of provider_order_types (prop entity (K "order_type")) = false
                 /\ one_of provider_statuses (prop entity (K "status")) = false
                 /\ prop entity (K "id")
                    = prop (Client.internal entity) (K "OrderId"))
         orders.
Proof.
  destruct (getOrders_total rt provider access_token client_key clientConfig
              account_key tr) as (orders & sent & E & _ & Hall).
  exists orders. rewrite E. split; [reflexivity|].
  eapply Forall_impl; [|exact Hall]. intros entity (o & Ho).
  apply order_entity_fields in Ho.
  destruct Ho as (-> & -> & _ & _ & -> & ->).
  unfold one_of, provider_order_types, provider_statuses. cbn [existsb].
  split; [|split; [|reflexivity]].
  - destruct (strict_eq (prop o (K "OpenOrderType")) (VStr "Market")) eqn:E1;
      [reflexivity|].
    destruct (strict_eq (prop o (K "OpenOrderType")) (VStr "Limit")) eqn:E2;
      [reflexivity|].
    destruct (strict_eq (prop o (K "OpenOrderType")) (VStr "Stop")) eqn:E3;
      [reflexivity|].
    destruct (strict_eq (prop o (K "OpenOrderType")) (VStr "StopLimit")) eqn:E4;
      [reflexivity|].
    rewrite E1, E2, E3, E4. reflexivity.
  - destruct (strict_eq (prop o (K "Status")) (VStr "Filled")) eqn:E1;
      [reflexivity|].
    destruct (strict_eq (prop o (K "Status")) (VStr "Working")) eqn:E2;
      [reflexivity|].
    destruct (strict_eq (prop o (K "Status")) (VStr "Parked")) eqn:E3;
      [reflexivity|].
    rewrite E1, E2, E3. reflexivity.
Qed.

(** *** Reading positions *)

(** One exchange of [request], answered by the provider. *)
Lemma request_answered endpoint tr req r :
  api_get endpoint = Some req ->
  provider tr req = Ok r ->
  request access_token endpoint (Client.apiEndpoint clientConfig) tr
  = (if ok r then json r
     else Throw (Error ("API request failed: " ++ statusText r)),
     (tr ++ [req])%list).
Proof.
  unfold Spec.api_get, Client.request. intros G P.
  destruct (new_URL rt _) as [u|]; [|discriminate]. injection G as <-.
  unfold bind, Client.fetch. rewrite P.
  destruct (ok r); reflexivity.
Qed.

Lemma handleError_ok v v' : handleError v = Ok v' -> v' = v.
Proof.
  unfold Client.handleError.
  destruct (truthy (opt v "ErrorCode")); [discriminate|].
  destruct (truthy (opt v "ErrorInfo")); [discriminate|].
  now intros [= <-].
Qed.

(** The callback of [getPositions] throws exactly on the records that are
    not well formed. *)
Lemma position_entity_defined raw :
  is_throw (position_entity raw) = negb (well_formed_position raw).
Proof.
  unfold Client.position_entity, well_formed_position, get.
  destruct (nullish raw); [reflexivity|].
  destruct (nullish (prop raw (K "PositionBase"))); [reflexivity|].
  destruct (nullish (prop raw (K "PositionView"))); reflexivity.
Qed.

Lemma array_map_all f items :
  forallb (fun x => negb (is_throw (f x))) items = true ->
  exists l, Client.array_map f items = Ok l
            /\ Forall2 (fun x y => f x = Ok y) items l.
Proof.
  induction items as [|x rest IH]; simpl.
  - intros _. exists []. split; [reflexivity | constructor].
  - destruct (f x) as [y|e] eqn:E; simpl; [|discriminate].
    intros H. destruct (IH H) as (l & -> & F).
    exists (y :: l). split; [reflexivity | now constructor].
Qed.

Lemma array_map_any f items :
  forallb (fun x => negb (is_throw (f x))) items = false ->
  exists e, Client.array_map f items = Throw e.
Proof.
  induction items as [|x rest IH]; simpl; [discriminate|].
  destruct (f x) as [y|e] eqn:E; simpl; [|eauto].
  intros H. destruct (IH H) as (e & ->). eauto.
Qed.

(** X14.  [getPositions] is all or nothing.  When the provider lists the raw
    positions, the result holds one entity per record, in the order of the
    list, if every record is well formed; one record that is not (it, its
    [PositionBase] or its [PositionView] is [null] or missing) makes the
    result the empty list, the well-formed records included. *)
Theorem getPositions_is_all_or_nothing account_key tr req r payload raws :
  api_get (Client.positions_endpoint rt client_key account_key) = Some req ->
  provider tr req = Ok r ->
  ok r = true ->
  json r = Ok payload ->
  handleError payload = Ok payload ->
  opt payload "Data" = VArr raws ->
  (forallb well_formed_position raws = true ->
   exists positions,
     fst (getPositions account_key tr) = Ok positions
     /\ Forall2 (fun raw p => position_entity raw = Ok p) raws positions)
  /\ (forallb well_formed_position raws = false ->
      fst (getPositions account_key tr) = Ok []).
Proof.
  intros G P O J H D.
  assert (W : forallb (fun x => negb (is_throw (position_entity x))) raws
              = forallb well_formed_position raws).
  { induction raws as [|raw rest IH]; [reflexivity|]. simpl.
    rewrite position_entity_defined, negb_involutive. f_equal.
    clear - rest. induction rest as [|x l IHl]; [reflexivity|]. simpl.
    now rewrite position_entity_defined, negb_involutive, IHl. }
  unfold Client.getPositions, try_catch, bind, Client.then_, bind, lift, ret.
  rewrite (request_answered _ _ _ _ G P), O, J, H.
  unfold Client.Data_map. rewrite D. split; intros A; rewrite <- W in A.
  - destruct (array_map_all _ _ A) as (l & -> & F). exists l. split; auto.
  - destruct (array_map_any _ _ A) as (e & ->). reflexivity.
Qed.

(** *** The balance *)

(** X15.  Whenever [getBalance] returns, each numeric field of the balance
    is the provider's value if that is truthy and 0 otherwise (a missing,
    [null], NaN or empty field reads as 0), and the raw value kept under
    [INTERNAL] is neither nullish nor a classified provider error. *)
Theorem getBalance_numbers_default_to_zero account_key tr balance :
  fst (getBalance account_key tr) = Ok balance ->
  Forall (fun name =>
            truthy (prop balance (K name)) = true
            \/ prop balance (K name) = VNum zero)
    Balance_numbers
  /\ nullish (Client.internal balance) = false
  /\ handleError (Client.internal balance) = Ok (Client.internal balance).
Proof.
  unfold Client.getBalance, Client.then_, bind, lift.
  destruct (Client.catch_ _ _ tr) as [[x|e] tr1]; simpl; [|discriminate].
  destruct (handleError x) as [v|e] eqn:H; simpl; [|discriminate].
  pose proof (handleError_ok _ _ H) as ->.
  unfold Client.balance_entity, get.
  destruct (nullish x) eqn:N; [discriminate|]. intros [= <-].
  split; [|split; [exact N | exact H]].
  unfold Balance_numbers.
  repeat (apply Forall_cons; [|]); [..|apply Forall_nil];
    unfold Client.lock; simpl; unfold or_else;
    match goal with |- context [if truthy ?a then _ else _] =>
      destruct (truthy a) eqn:T
    end; auto.
Qed.

(** *** The pre-check of an order *)

(** X16.  The result of [preCheckOrder] never holds an [errorInfo]: a
    response with a truthy [ErrorInfo] has already been thrown by
    [handleError], so the branch that copies it is never taken.  The
    [estimatedCosts] are there exactly when the response has truthy
    [EstimatedCosts] or [Costs]. *)
Theorem preCheckOrder_never_reports_errorInfo order tr result :
  fst (preCheckOrder order tr) = Ok result ->
  has_key result "errorInfo" = false
  /\ exists r response,
       provider tr (Client.precheck_request access_token clientConfig order) = Ok r
       /\ json r = Ok response
       /\ has_key result "estimatedCosts"
          = truthy (or_else (prop response (K "EstimatedCosts"))
                            (prop response (K "Costs"))).
Proof.
  unfold Client.preCheckOrder, bind. rewrite exchange_eq.
  destruct (provider tr _) as [r|e]; simpl; [|discriminate].
  destruct (json r) as [response|e] eqn:J; simpl; [|discriminate].
  destruct (handleError response) as [v|e] eqn:H; simpl; [|discriminate].
  pose proof (handleError_ok _ _ H) as ->.
  unfold lift, Client.precheck_result, get. simpl.
  destruct (nullish response) eqn:N; [discriminate|].
  unfold Client.handleError, opt in H. rewrite N in H.
  destruct (truthy (prop response (K "ErrorCode"))); [discriminate|].
  destruct (truthy (prop response (K "ErrorInfo"))) eqn:T; [discriminate|].
  intros [= <-]. split.
  - unfold has_key. rewrite !existsb_app.
    destruct (truthy (or_else _ _)), (truthy (prop response (K "MarginImpact"))),
      (truthy (prop response (K "PreCheckResult"))); reflexivity.
  - exists r, response. split; [reflexivity|]. split; [exact J|].
    unfold has_key. rewrite !existsb_app.
    destruct (truthy (or_else _ _)), (truthy (prop response (K "MarginImpact"))),
      (truthy (prop response (K "PreCheckResult"))); reflexivity.
Qed.

(** *** Cancelling orders *)


(** *** Net and closed positions *)

(** The shape shared by the read-list operations: whatever the provider
    does, the result is a list of entities built by the callback. *)
Lemma read_list_total endpoint f tr :
  exists l,
    fst (try_catch
           (bind (Client.then_ (request access_token endpoint
                                  (Client.apiEndpoint clientConfig))
                               handleError)
                 (fun result => lift (Client.Data_map result f)))
           (fun _ => ret []) tr) = Ok l
    /\ Forall (fun y => exists x, f x = Ok y) l.
Proof.
  unfold try_catch, bind, lift, ret.
  destruct (Client.then_ _ _ tr) as [[result|e] tr1]; simpl.
  - destruct (Client.Data_map result f) as [l|e] eqn:D; simpl.
    + exists l. split; [reflexivity|]. eapply Data_map_Forall, D.
    + exists []. split; [reflexivity | constructor].
  - exists []. split; [reflexivity | constructor].
Qed.

(** X18.  [getNetPositions] never throws, and every net position it returns
    has the empty [order_id] and keeps the raw record under [INTERNAL].
    [getClosedPositions] with valid dates never throws either, and every
    position it returns has the status "closed", whatever status the
    provider reports. *)
Theorem net_and_closed_positions_are_marked account_key fromDate toDate tr :
  (exists l,
     fst (getNetPositions account_key tr) = Ok l
     /\ Forall (fun p => prop p (K "order_id") = VStr ""
                         /\ nullish (Client.internal p) = false) l)
  /\ (fromDate <> Some S754_nan -> toDate <> Some S754_nan ->
      exists l,
        fst (getClosedPositions account_key fromDate toDate tr) = Ok l
        /\ Forall (fun p => prop p (K "status") = VStr "closed"
                            /\ nullish (Client.internal p) = false) l).
Proof.
  split.
  - unfold Client.getNetPositions. cbv zeta.
    destruct (read_list_total
                (Client.netpositions_endpoint rt client_key account_key)
                (Client.net_position_entity client_id) tr) as (l & E & F).
    exists l. split; [exact E|].
    eapply Forall_impl; [|exact F]. intros p (raw & Hp). revert Hp.
    unfold Client.net_position_entity. invert_get.
    intros [= <-]. split; [reflexivity | assumption].
  - intros Hf Ht.
    assert (exists endpoint,
              Client.closedpositions_endpoint rt client_key account_key fromDate
                toDate = Ok endpoint) as (endpoint & Hep).
    { unfold Client.closedpositions_endpoint.
      destruct fromDate as [[]|], toDate as [[]|]; try congruence;
        simpl; eauto. }
    unfold Client.getClosedPositions. unfold bind at 1, lift. rewrite Hep.
    destruct (read_list_total endpoint (Client.closed_position_entity client_id) tr)
      as (l & E & F).
    exists l. split; [exact E|].
    eapply Forall_impl; [|exact F]. intros p (raw & Hp). revert Hp.
    unfold Client.closed_position_entity. invert_get.
    intros [= <-]. split; [reflexivity | assumption].
Qed.

(** X19.  An invalid date (one whose time value is NaN) makes
    [getClosedPositions] throw the RangeError of [toISOString] before
    anything is sent: the dates are formatted outside the [try] block. *)
Theorem getClosedPositions_rejects_an_invalid_date account_key fromDate toDate tr :
  fromDate = Some S754_nan \/ toDate = Some S754_nan ->
  getClosedPositions account_key fromDate toDate tr
  = (Throw (RangeError "Invalid time value"), tr).
Proof.
  unfold Client.getClosedPositions, Client.closedpositions_endpoint.
  unfold bind at 1, lift.
  intros [->| ->].
  - reflexivity.
  - destruct fromDate as [[]|]; reflexivity.
Qed.

(** X20.  Without an account key the date filter is appended to a path that
    has no query: the request goes to
    ".../closedpositions/me&FromDateTime=...", and this is the only request. *)
Theorem getClosedPositions_date_filter_without_account fromDate tr url :
  fromDate <> S754_nan ->
  new_URL rt (Client.apiEndpoint clientConfig
              ++ "/port/v1/closedpositions/me&FromDateTime="
              ++ Date_toISOString rt fromDate) = Some url ->
  snd (getClosedPositions None (Some fromDate) None tr)
  = (tr ++ [mkRequest (href url) "GET" (Client.api_headers access_token) NoBody
              "follow"])%list.
Proof.
  intros Hd Hu.
  assert (Client.closedpositions_endpoint rt client_key None (Some fromDate) None
          = Ok ("/port/v1/closedpositions/me&FromDateTime="
                ++ Date_toISOString rt fromDate)) as Hep.
  { unfold Client.closedpositions_endpoint.
    assert (toISOString rt fromDate = Ok (Date_toISOString rt fromDate)) as ->
      by (destruct fromDate; try reflexivity; congruence).
    reflexivity. }
  unfold Client.getClosedPositions. unfold bind at 1, lift. rewrite Hep.
  unfold try_catch, bind, Client.then_, bind, Client.request.
  rewrite Hu. unfold bind, Client.fetch, throw, lift, ret.
  destruct (provider tr _) as [r|e]; [|reflexivity].
  destruct (negb (ok r)); [reflexivity|].
  destruct (json r) as [payload|e]; [|reflexivity].
  destruct (handleError payload) as [v|e]; [|reflexivity].
  destruct (Client.Data_map v _); reflexivity.
Qed.

(** *** The accounts *)

Lemma request_rejected endpoint tr req e :
  api_get endpoint = Some req ->
  provider tr req = Throw e ->
  request access_token endpoint (Client.apiEndpoint clientConfig) tr
  = (Throw e, (tr ++ [req])%list).
Proof.
  unfold Spec.api_get, Client.request. intros G P.
  destruct (new_URL rt _) as [u|]; [|discriminate]. injection G as <-.
  unfold bind, Client.fetch. now rewrite P.
Qed.

Lemma account_entities accounts :
  forallb (fun a => negb (nullish a)) accounts = true ->
  exists l,
    Client.array_map Client.account_entity accounts = Ok l
    /\ Forall2 (fun a entity =>
                  prop entity (K "id") = prop a (K "AccountId")
                  /\ prop entity (K "key") = prop a (K "AccountKey")
                  /\ Client.internal entity = a) accounts l.
Proof.
  induction accounts as [|a rest IH]; simpl.
  - intros _. exists []. split; [reflexivity | constructor].
  - intros H. apply andb_true_iff in H. destruct H as [Ha Hrest].
    destruct (IH Hrest) as (l & -> & F).
    unfold Client.account_entity, get.
    destruct (nullish a); [discriminate|].
    eexists. split; [reflexivity|]. constructor; [|exact F]. repeat split.
Qed.

(** X21.  [getAccounts] does not throw when its exchange fails in the
    transport or by its status, nor on a classified provider error: its
    result is then [undefined], not a list (the payload is not passed
    through [handleError], and there is no default).  When the provider
    lists the accounts, there is one account per record, in the order of the
    list. *)
Theorem getAccounts_is_undefined_on_failure tr :
  (request_breaks "/port/v1/accounts/me" tr -> fst (getAccounts tr) = Ok None)
  /\ (forall req r payload,
        api_get "/port/v1/accounts/me" = Some req ->
        provider tr req = Ok r -> ok r = true -> json r = Ok payload ->
        nullish (opt payload "Data") = true ->
        fst (getAccounts tr) = Ok None)
  /\ (forall req r payload accounts,
        api_get "/port/v1/accounts/me" = Some req ->
        provider tr req = Ok r -> ok r = true -> json r = Ok payload ->
        opt payload "Data" = VArr accounts ->
        forallb (fun a => negb (nullish a)) accounts = true ->
        exists l,
          fst (getAccounts tr) = Ok (Some l)
          /\ Forall2 (fun a entity =>
                        prop entity (K "id") = prop a (K "AccountId")
                        /\ prop entity (K "key") = prop a (K "AccountKey")
                        /\ Client.internal entity = a) accounts l).
Proof.
  unfold Client.getAccounts, Client.catch_, try_catch, bind, lift.
  repeat split.
  - intros (req & G & F).
    destruct (provider tr req) as [r|e] eqn:P.
    + rewrite (request_answered _ _ _ _ G P), F. reflexivity.
    + rewrite (request_rejected _ _ _ _ G P).
      destruct e; try contradiction. reflexivity.
  - intros req r payload G P O J N.
    rewrite (request_answered _ _ _ _ G P), O, J. cbn [fst].
    unfold Client.Data_map_opt.
    destruct (opt payload "Data"); try discriminate; reflexivity.
  - intros req r payload accounts G P O J D W.
    rewrite (request_answered _ _ _ _ G P), O, J. cbn [fst].
    unfold Client.Data_map_opt. rewrite D.
    destruct (account_entities accounts W) as (l & -> & F).
    exists l. split; [reflexivity | exact F].
Qed.

(** *** Creating the client *)

(** X22.  With account credentials [createClient] logs in first.  A failed
    login is the failure of [createClient], and nothing is asked of the API;
    a login that returns a token with the access token [t] continues as
    [createClient] with the token [t] does. *)
Theorem createClient_logs_in_first username password config tr :
  match authenticate username password (Client.clientConfig_of config) tr with
  | (Throw e, tr1) =>
      createClient (Client.account_credentials username password) config tr
      = (Throw e, tr1)
  | (Ok token, tr1) =>
      forall t,
        prop token (K "access_token") = VStr t ->
        createClient (Client.account_credentials username password) config tr
        = createClient (Client.token_credentials t) config tr1
  end.
Proof.
  destruct (authenticate username password _ tr) as [[token|e] tr1] eqn:A.
  - intros t Ht. unfold Client.createClient. cbv zeta.
    unfold bind at 1. rewrite A.
    unfold bind at 1 4, ret, lift, get.
    destruct (nullish token) eqn:N.
    { destruct token; discriminate. }
    rewrite Ht. reflexivity.
  - unfold Client.createClient. cbv zeta. unfold bind at 1. now rewrite A.
Qed.

(** X23.  With a token [createClient] asks for the client once.  When that
    exchange fails (the transport rejects, the status is not 2xx, or the
    payload is a classified provider error) [createClient] throws: no
    client is returned.  When it answers with the client's record, the
    client has the [ClientId], [ClientKey] and [Name] of the record as its
    [id], [key] and [name], and its operations use the token, the key,
    secret and redirect URI of the caller, and for each endpoint the
    caller's when one is passed and the simulation endpoint when the key
    is left out.  An API endpoint passed as [undefined] overwrites the
    default: the URL then begins with "undefined", and where the host
    takes that for no URL [createClient] throws the TypeError before
    anything is sent. *)
Theorem createClient_asks_for_the_client token config tr :
  (Spec.request_fails rt provider token (Client.clientConfig_of config)
     "/port/v1/clients/me" tr ->
   exists e tr',
     createClient (Client.token_credentials token) config tr = (Throw e, tr'))
  /\ (forall req r data,
        Spec.api_get rt token (Client.clientConfig_of config)
          "/port/v1/clients/me" = Some req ->
        provider tr req = Ok r -> ok r = true -> json r = Ok data ->
        handleError data = Ok data -> nullish data = false ->
        exists c,
          createClient (Client.token_credentials token) config tr
          = (Ok c, (tr ++ [req])%list)
          /\ prop (Client.client_fields c) (K "id") = prop data (K "ClientId")
          /\ prop (Client.client_fields c) (K "key") = prop data (K "ClientKey")
          /\ prop (Client.client_fields c) (K "name") = prop data (K "Name")
          /\ prop (Client.client_fields c) INTERNAL = data
          /\ Client.client_token c = token
          /\ Client.appKey (Client.client_config c) = Client.in_appKey config
          /\ Client.appSecret (Client.client_config c) = Client.in_appSecret config
          /\ Client.redirectUri (Client.client_config c)
             = Client.in_redirectUri config
          /\ Client.apiEndpoint (Client.client_config c)
             = match Client.in_apiEndpoint config with
               | Client.omitted => "https://gateway.saxobank.com/sim/openapi"
               | Client.passed_undefined => "undefined"
               | Client.passed e => e
               end
          /\ Client.authEndpoint (Client.client_config c)
             = match Client.in_authEndpoint config with
               | Client.omitted => "https://sim.logonvalidation.net"
               | Client.passed_undefined => "undefined"
               | Client.passed e => e
               end)
  /\ (Client.in_apiEndpoint config = Client.omitted ->
      Spec.api_get rt token (Client.clientConfig_of config) "/port/v1/clients/me"
      = match new_URL rt "https://gateway.saxobank.com/sim/openapi/port/v1/clients/me"
        with
        | Some url => Some (mkRequest (href url) "GET"
                              [("Authorization", "Bearer " ++ token);
                               ("Content-Type", "application/json")]
                              NoBody "follow")
        | None => None
        end)
  /\ (Client.in_apiEndpoint config = Client.passed_undefined ->
      new_URL rt "undefined/port/v1/clients/me" = None ->
      createClient (Client.token_credentials token) config tr
      = (Throw (VError "TypeError" "Invalid URL"), tr)).
Proof.
  split; [|split; [|split]].
  - intros F.
    destruct (request_fails_throws rt provider token (Client.clientConfig_of config)
                _ _ F) as (e & tr' & E).
    unfold Client.createClient. cbv zeta.
    unfold bind at 1 2, ret, lift. cbn [get nullish prop lookup key_eqb].
    simpl String.eqb. cbn [ToString].
    unfold bind at 1. rewrite E. eauto.
  - intros req r data G P O J H N.
    unfold Spec.api_get in G.
    unfold Client.createClient. cbv zeta.
    unfold bind at 1 2, ret, lift. cbn [get nullish prop lookup key_eqb].
    simpl String.eqb. cbn [ToString].
    unfold bind at 1, Client.then_, bind, Client.request.
    destruct (new_URL rt _) as [u|]; [|discriminate]. injection G as <-.
    unfold bind, Client.fetch. rewrite P, O. cbn [negb]. unfold lift.
    rewrite J, H. unfold get. rewrite N.
    eexists. split; [reflexivity|].
    unfold Client.clientConfig_of, Client.spread_over. cbn.
    repeat split.
  - intros A. unfold Spec.api_get, Client.clientConfig_of, Client.spread_over.
    cbn [Client.apiEndpoint]. rewrite A. reflexivity.
  - intros A U.
    unfold Client.createClient. cbv zeta.
    unfold bind at 1 2, ret, lift. cbn [get nullish prop lookup key_eqb].
    simpl String.eqb. cbn [ToString].
    unfold bind at 1, Client.then_, bind, Client.request.
    unfold Client.clientConfig_of, Client.spread_over. cbn [Client.apiEndpoint].
    rewrite A.
    change ("undefined" ++ "/port/v1/clients/me") with "undefined/port/v1/clients/me".
    rewrite U. reflexivity.
Qed.

(** *** The earlier client *)

Lemma array_find_none f l :
  Forall (fun x => f x = Ok false) l -> Client.array_find f l = Ok None.
Proof.
  induction 1 as [|x rest Hx _ IH]; simpl; [reflexivity|].
  now rewrite Hx.
Qed.

(** X24.  The earlier [createOrder], once the provider has accepted the
    order and the look-up of the order by id has failed, depends on the
    earlier [getPositions], which returns [undefined] instead of a list when
    its exchange fails:  [createOrder] then throws the TypeError of
    [positions.find].  When the positions are listed and none comes from the
    order, the result is [undefined]; no order is made up. *)
Theorem earlier_createOrder_has_no_fallback account_key type uic quantity
    order_type price stop_limit tr r response e tr2 :
  table_violated_as_tested (effective order_type) price stop_limit = false ->
  provider tr (submit_request
                 (Legacy.orderRequest account_key type uic quantity
                    (effective order_type) price stop_limit)) = Ok r ->
  json r = Ok response ->
  handleError response = Ok response ->
  truthy response = true ->
  request access_token (order_endpoint response) (Client.apiEndpoint clientConfig)
    (tr ++ [submit_request
              (Legacy.orderRequest account_key type uic quantity
                 (effective order_type) price stop_limit)])%list
  = (Throw e, tr2) ->
  match Legacy.getPositions rt provider access_token client_id client_key
          clientConfig (Some account_key) tr2 with
  | (Ok None, tr3) =>
      Legacy.createOrder rt provider access_token client_id client_key
        clientConfig account_key type uic quantity order_type price stop_limit tr
      = (Throw (TypeError "Cannot read properties of undefined (reading 'find')"),
         tr3)
  | (Ok (Some positions), tr3) =>
      Forall (fun p => Legacy.from_order response p = Ok false) positions ->
      Legacy.createOrder rt provider access_token client_id client_key
        clientConfig account_key type uic quantity order_type price stop_limit tr
      = (Ok VUndefined, tr3)
  | (Throw e', tr3) =>
      Legacy.createOrder rt provider access_token client_id client_key
        clientConfig account_key type uic quantity order_type price stop_limit tr
      = (Throw e', tr3)
  end.
Proof.
  intros V P J H T R.
  destruct (checks_pass _ _ _ V) as (c1 & c2 & c3 & c4).
  assert (E : Legacy.createOrder rt provider access_token client_id client_key
                clientConfig account_key type uic quantity order_type price
                stop_limit tr
              = bind (Legacy.getPositions rt provider access_token client_id
                        client_key clientConfig (Some account_key))
                  (fun positions =>
                     match positions with
                     | None =>
                         throw (TypeError
                           "Cannot read properties of undefined (reading 'find')")
                     | Some positions =>
                         bind (lift (Client.array_find (Legacy.from_order response)
                                       positions))
                           (fun position =>
                              ret (match position with
                                   | Some p => p
                                   | None => VUndefined
                                   end))
                     end) tr2).
  { unfold Legacy.createOrder. cbv zeta. fold (effective order_type).
    rewrite c1, c2, c3, c4. unfold bind at 1.
    rewrite exchange_eq, P. simpl. rewrite J, H, T. cbn [negb].
    unfold try_catch. rewrite R. reflexivity. }
  rewrite E. clear E. unfold bind, lift, ret, throw.
  destruct (Legacy.getPositions _ _ _ _ _ _ _ tr2) as [[[positions|]|e'] tr3];
    try reflexivity.
  intros F. now rewrite (array_find_none _ _ F).
Qed.

End Further.

(* ================================================================== *)
(** ** The further properties at work on the scenarios *)
(* ================================================================== *)


(** The login page answers the credentials without a redirect. *)
Lemma login_without_redirect_fails :
  Client.authenticate host (login (Some "https://www.saxobank.com/sim/login"))
    "user" "pass" config []
  = (Throw (Error "Login failed, no redirect received"),
     [Client.authorize_request host config;
      Client.login_request host "https://www.saxobank.com/sim/login" "user" "pass"]).
Proof.
  exact (proj2 (authenticate_needs_the_login_redirect host
                  (login (Some "https://www.saxobank.com/sim/login"))
                  "user" "pass" config [] _ _ "https://www.saxobank.com/sim/login"
                  eq_refl eq_refl eq_refl eq_refl) eq_refl).
Defined.

(** The caller is sent back without a code, or to a relative URL. *)
Lemma login_without_code_fails :
  fst (Client.authenticate browser
         (sso "http://localhost/callback?error=access_denied"
            (answer 200 "OK" token_payload)) "user" "pass" config [])
  = Throw (Error "Failed to retrieve authorization code")
  /\ fst (Client.authenticate browser
            (sso "/callback?code=abc" (answer 200 "OK" token_payload))
            "user" "pass" config [])
     = Throw (TypeError "Invalid URL").
Proof.
  split.
  - exact (f_equal fst
             (authenticate_needs_the_code browser
                (sso "http://localhost/callback?error=access_denied"
                   (answer 200 "OK" token_payload)) "user" "pass" config []
                _ _ _ "https://www.saxobank.com/sim/login"
                "https://www.saxobank.com/sim/continue"
                eq_refl eq_refl eq_refl eq_refl eq_refl ltac:(discriminate)
                eq_refl eq_refl)).
  - exact (f_equal fst
             (authenticate_needs_the_code browser
                (sso "/callback?code=abc" (answer 200 "OK" token_payload))
                "user" "pass" config []
                _ _ _ "https://www.saxobank.com/sim/login"
                "https://www.saxobank.com/sim/continue"
                eq_refl eq_refl eq_refl eq_refl eq_refl ltac:(discriminate)
                eq_refl)).
Defined.

(** A submission answered 400 with a classified error, and one answered
    500 with an empty object. *)
Lemma refused_submissions :
  (exists message,
     buy (refusing 400) "market" None []
     = (Throw (Error message), [submission "market" None]))
  /\ buy broken "market" None []
     = (Throw (Error "Failed to place order: No OrderId returned"),
        [submission "market" None]).
Proof.
  split.
  - eexists.
    exact (proj1 (createOrder_submission_failed host (refusing 400) token ClientId
                    ClientKey config AccountKey "buy" (num 21) (num 100000)
                    (Some "market") None None no_options [] eq_refl)
             _ eq_refl).
  - exact (proj2 (createOrder_submission_failed host broken token ClientId
                    ClientKey config AccountKey "buy" (num 21) (num 100000)
                    (Some "market") None None no_options [] eq_refl)
             _ _ eq_refl eq_refl eq_refl eq_refl).
Defined.

(** A stop-limit order is submitted as "StopLimit" and listed as
    "stop_limit". *)
Lemma stop_limit_round_trip :
  prop (Client.orderRequest AccountKey "buy" (num 21) (num 100000) "stop_limit"
          (Some (num 1)) (Some (num 2)) no_options) (K "OrderType")
  = VStr "StopLimit"
  /\ exists entity,
       Client.order_entity host (raw_order "77" "StopLimit") = Ok entity
       /\ prop entity (K "order_type") = VStr "stop_limit".
Proof.
  split; [reflexivity|]. eexists. split; [reflexivity|].
  exact (order_type_round_trip host AccountKey "buy" (num 21) (num 100000)
           "stop_limit" (Some (num 1)) (Some (num 2)) no_options
           (raw_order "77" "StopLimit") _
           (or_intror (or_intror (or_intror (or_introl eq_refl))))
           eq_refl eq_refl).
Defined.

(** The body that modifies the limit order "77" to the price 0. *)
Lemma modify_body_of_a_limit_order :
  Client.order_entity host (raw_order "77" "Limit") = Ok pending_order
  /\ prop (Client.updateData AccountKey "77" pending_order (Some zero) None)
       (K "OrderType") = VStr "Limit"
  /\ prop (Client.updateData AccountKey "77" pending_order (Some zero) None)
       (K "OrderPrice") = VNum zero
  /\ prop (Client.updateData AccountKey "77" pending_order (Some zero) None)
       (K "Amount") = VUndefined.
Proof.
  destruct (updateData_returns_the_listed_order host AccountKey "77"
              (raw_order "77" "Limit") pending_order (Some zero) None eq_refl)
    as (A & _ & _ & _ & B & C).
  split; [reflexivity|]. split; [exact (A eq_refl)|]. split; [exact B | exact C].
Defined.

(** Two well-formed records give two positions; one well-formed record
    and one without [PositionBase] give none. *)
Lemma damaged_record_empties_the_list :
  fst (Client.getPositions host executed token ClientId ClientKey config
         (Some AccountKey) []) = Ok executed_positions
  /\ length executed_positions = 2%nat
  /\ fst (Client.getPositions host damaged token ClientId ClientKey config
            (Some AccountKey) []) = Ok [].
Proof.
  split; [reflexivity|]. split; [reflexivity|].
  exact (proj2 (getPositions_is_all_or_nothing host damaged token ClientId
                  ClientKey config (Some AccountKey) [] _ _ _ _
                  eq_refl eq_refl eq_refl eq_refl eq_refl eq_refl) eq_refl).
Defined.

(** A balance whose [TotalValue] is [null]. *)
Lemma funded_balance_numbers :
  fst (Client.getBalance host funded token ClientKey config AccountKey [])
  = Ok funded_balance
  /\ prop funded_balance (K "cashBalance") = VNum (num 1000)
  /\ prop funded_balance (K "totalValue") = VNum zero
  /\ Forall (fun name =>
               truthy (prop funded_balance (K name)) = true
               \/ prop funded_balance (K name) = VNum zero) Balance_numbers.
Proof.
  split; [reflexivity|]. split; [reflexivity|]. split; [reflexivity|].
  exact (proj1 (getBalance_numbers_default_to_zero host funded token ClientKey
                  config AccountKey [] funded_balance eq_refl)).
Defined.

(** A pre-check that answers with costs. *)
Lemma costed_precheck :
  exists result,
    fst (Client.preCheckOrder host costed token config
           (VObj [(K "AccountKey", VStr AccountKey)]) []) = Ok result
    /\ has_key result "estimatedCosts" = true
    /\ has_key result "preCheckResult" = true
    /\ has_key result "errorInfo" = false.
Proof.
  eexists. split; [reflexivity|]. split; [reflexivity|]. split; [reflexivity|].
  exact (proj1 (preCheckOrder_never_reports_errorInfo host costed token config
                  (VObj [(K "AccountKey", VStr AccountKey)]) [] _ eq_refl)).
Defined.

(** An invalid [toDate]. *)
Lemma invalid_date_example :
  Client.getClosedPositions host executed token ClientId ClientKey config
    (Some AccountKey) (Some (num 1)) (Some S754_nan) []
  = (Throw (RangeError "Invalid time value"), []).
Proof.
  exact (getClosedPositions_rejects_an_invalid_date host executed token ClientId
           ClientKey config (Some AccountKey) (Some (num 1)) (Some S754_nan) []
           (or_intror eq_refl)).
Defined.

(** The closed positions since the epoch, without an account key. *)
Lemma date_filter_example :
  snd (Client.getClosedPositions host broken token ClientId ClientKey config
         None (Some zero) None [])
  = [get_of "/port/v1/closedpositions/me&FromDateTime=1970-01-01T00:00:00.000Z"].
Proof.
  exact (getClosedPositions_date_filter_without_account host broken token
           ClientId ClientKey config zero [] _ ltac:(discriminate) eq_refl).
Defined.

(** The accounts when the provider answers HTTP 500, when the network is
    down, when the provider answers 200 with a classified error, and when
    it lists one account. *)
Lemma accounts_examples :
  fst (Client.getAccounts host broken token config []) = Ok None
  /\ fst (Client.getAccounts host offline token config []) = Ok None
  /\ fst (Client.getAccounts host (refusing 200) token config []) = Ok None
  /\ exists account,
       fst (Client.getAccounts host
              (portfolio (VObj [(K "Data", VArr [raw_account])])) token config [])
       = Ok (Some [account])
       /\ Client.internal account = raw_account.
Proof.
  split; [|split; [|split]].
  - exact (proj1 (getAccounts_is_undefined_on_failure host broken token config [])
             (ex_intro _ _ (conj eq_refl eq_refl))).
  - exact (proj1 (getAccounts_is_undefined_on_failure host offline token config [])
             (ex_intro _ _ (conj eq_refl I))).
  - exact (proj1 (proj2 (getAccounts_is_undefined_on_failure host (refusing 200)
                           token config []))
             _ _ _ eq_refl eq_refl eq_refl eq_refl eq_refl).
  - destruct (proj2 (proj2 (getAccounts_is_undefined_on_failure host
                              (portfolio (VObj [(K "Data", VArr [raw_account])]))
                              token config []))
                _ _ _ [raw_account] eq_refl eq_refl eq_refl eq_refl eq_refl eq_refl)
      as (l & E & F).
    inversion F as [|a entity rest l' (_ & _ & I) F' ]; subst.
    inversion F'; subst. exists entity. split; [exact E | exact I].
Defined.

(** The client of "user" is the client of the token that the login
    returns. *)
Lemma sso_login_creates_the_client :
  Client.createClient browser (sso callback (answer 200 "OK" token_payload))
    (account_credentials "user" "pass") user_config []
  = Client.createClient browser (sso callback (answer 200 "OK" token_payload))
      (token_credentials "token") user_config login_requests.
Proof.
  exact (createClient_logs_in_first browser
           (sso callback (answer 200 "OK" token_payload)) "user" "pass"
           user_config [] "token" eq_refl).
Defined.

(** A client cannot be created against a provider that answers HTTP 500;
    against one that knows the client, it has the client's id and key and
    the simulation endpoints; with the API endpoint passed as [undefined]
    nothing is sent. *)
Lemma client_examples :
  (exists e tr',
     Client.createClient host broken (token_credentials token) user_config []
     = (Throw e, tr'))
  /\ (exists c,
        Client.createClient host (portfolio (VObj [])) (token_credentials token)
          user_config []
        = (Ok c, [get_of "/port/v1/clients/me"])
        /\ prop (client_fields c) (K "id") = VStr "C1"
        /\ prop (client_fields c) (K "key") = VStr "K1"
        /\ client_token c = token
        /\ apiEndpoint (client_config c) = "https://gateway.saxobank.com/sim/openapi"
        /\ authEndpoint (client_config c) = "https://sim.logonvalidation.net")
  /\ Client.createClient browser (portfolio (VObj [])) (token_credentials token)
       undefined_config []
     = (Throw (VError "TypeError" "Invalid URL"), []).
Proof.
  split; [|split].
  - exact (proj1 (createClient_asks_for_the_client host broken token user_config [])
             (ex_intro _ _ (conj eq_refl eq_refl))).
  - destruct (proj1 (proj2 (createClient_asks_for_the_client host
                              (portfolio (VObj [])) token user_config []))
                _ _ _ eq_refl eq_refl eq_refl eq_refl eq_refl eq_refl)
      as (c & E & A & B & _ & _ & C & _ & _ & _ & D & F).
    exists c. repeat split; assumption.
  - exact (proj2 (proj2 (proj2 (createClient_asks_for_the_client browser
                                  (portfolio (VObj [])) token undefined_config [])))
             eq_refl eq_refl).
Defined.

(** The earlier [createOrder] when everything but the submission fails,
    and when nothing confirms the order. *)
Lemma earlier_client_examples :
  fst (Legacy.createOrder host submission_only token ClientId ClientKey config
         AccountKey "buy" (num 21) (num 100000) None None None [])
  = Throw (TypeError "Cannot read properties of undefined (reading 'find')")
  /\ fst (Legacy.createOrder host unconfirmed token ClientId ClientKey config
            AccountKey "buy" (num 21) (num 100000) None None None [])
     = Ok VUndefined.
Proof.
  split.
  - exact (f_equal fst
             (earlier_createOrder_has_no_fallback host submission_only token
                ClientId ClientKey config AccountKey "buy" (num 21) (num 100000)
                None None None [] _ _ _ _
                eq_refl eq_refl eq_refl eq_refl eq_refl eq_refl)).
  - refine (f_equal fst
             (earlier_createOrder_has_no_fallback host unconfirmed token
                ClientId ClientKey config AccountKey "buy" (num 21) (num 100000)
                None None None [] _ _ _ _
                eq_refl eq_refl eq_refl eq_refl eq_refl eq_refl _)).
    repeat constructor.
Defined.

(** The balance when the network is down. *)
Lemma balance_when_offline :
  exists balance tr',
    Client.getBalance host offline token ClientKey config AccountKey []
    = (Ok balance, tr')
    /\ prop balance (K "cashBalance") = VNum zero
    /\ prop balance (K "cashAvailable") = VNum zero
    /\ prop balance (K "currency") = VUndefined.
Proof.
  exact (getBalance_swallows host offline token ClientKey config AccountKey []
           (ex_intro _ _ (conj eq_refl I))).
Defined.

(** A classified error under status 200 for the balance, and under
    status 400 for the pre-check. *)
Lemma refused_balance_and_precheck :
  fst (Client.getBalance host (refusing 200) token ClientKey config AccountKey [])
  = Throw (Error ("API request failed with error InvalidRequest: bad" ++ nl
                  ++ "    undefined" ++ nl))
  /\ fst (Client.preCheckOrder host (refusing 400) token config
            (VObj [(K "AccountKey", VStr AccountKey)]) [])
     = Throw (Error ("API request failed with error InvalidRequest: bad" ++ nl
                     ++ "    undefined" ++ nl)).
Proof.
  split.
  - exact (proj1 (classified_errors_propagate host (refusing 200) token ClientKey
                    config AccountKey (VObj []) [])
             _ _ _ _ eq_refl eq_refl eq_refl eq_refl eq_refl).
  - exact (proj2 (classified_errors_propagate host (refusing 400) token ClientKey
                    config AccountKey (VObj [(K "AccountKey", VStr AccountKey)]) [])
             _ _ _ eq_refl eq_refl eq_refl).
Defined.

(** The look-up of the submitted order answers 200 with an error payload:
    [buy] returns that payload as its result. *)
Lemma error_payload_returned_as_order :
  buy confused "limit" (Some (num 1)) []
  = (Ok error_payload, [submission "limit" (Some (num 1)); lookup_77]).
Proof.
  exact (createOrder_returns_raw_details host confused token ClientId ClientKey
           config AccountKey "buy" (num 21) (num 100000) (Some "limit")
           (Some (num 1)) None no_options [] order_77 error_payload
           [submission "limit" (Some (num 1)); lookup_77]
           eq_refl (order_77_accepted _ _ _ _ _) eq_refl eq_refl).
Defined.


(** A closed position that the provider reports as "Open". *)
Lemma closed_book_example :
  exists p,
    fst (Client.getClosedPositions host closed_book token ClientId ClientKey config
           (Some AccountKey) (Some zero) None []) = Ok [p]
    /\ prop p (K "status") = VStr "closed"
    /\ prop (prop (Client.internal p) (K "PositionBase")) (K "Status") = VStr "Open".
Proof.
  destruct (proj2 (net_and_closed_positions_are_marked host closed_book token
                     ClientId ClientKey config (Some AccountKey) (Some zero) None [])
              ltac:(discriminate) ltac:(discriminate)) as (l & E & F).
  cbv in E. injection E as <-.
  inversion F as [|p l' [S _] _]; subst.
  eexists. split; [reflexivity|]. split; [exact S | reflexivity].
Defined.
